(** * Fortifi Open ID (gofid): a shallow embedding of the current revision
    of [gofid.go] ([Generate], [Verify], [GetTimeFromID] and their helpers),
    with the keyed checksum computed by a real MD5.

    Go strings are byte strings; they are modelled as [string] (a list of
    [ascii], i.e. of bytes).  [strings.ToUpper] is modelled with both of its
    paths: byte by byte on ASCII input, and otherwise [strings.Map] of
    [unicode.ToUpper] over the UTF-8 decoding of the string, as Go decodes and
    encodes it.  The Unicode case table that [unicode.ToUpper] consults for
    runes above U+007F is a parameter (the class [UnicodeTables]), with the two
    facts of that table the proofs use.  Wall-clock time and the
    pseudo-random generator are inputs of the model: [Generate] receives the
    value of [time.Now().UnixNano()] and the sequence of [rand.Intn] draws. *)

From Stdlib Require Import ZArith List String Ascii Bool Lia.
Import ListNotations.
Open Scope string_scope.

(** ** Errors and results *)

(** The distinct errors the Go code can return. *)
Inductive error :=
| ErrInvalidTimeKey   (* "Invalid time key" *)
| ErrVendorLength     (* "Vendor must be of length '3'" *)
| ErrTypeLength       (* "Type must be of length '2'" *)
| ErrInvalidLength    (* "ID is of invalid length" *)
| ErrInvalidFormat    (* "ID format is invalid" *)
| ErrElementCount     (* "Unexpected element count in ID" *)
| ErrChecksum         (* "Checksum does not match vendor secret" *)
| ErrSyntax           (* strconv.ErrSyntax *)
| ErrRange.           (* strconv.ErrRange *)

(** A Go [(T, error)] pair where exactly one side is meaningful. *)
Inductive result (A : Type) :=
| Ok (a : A)
| Err (e : error).
Arguments Ok {A} a.
Arguments Err {A} e.

Definition bind {A B} (r : result A) (k : A -> result B) : result B :=
  match r with Ok a => k a | Err e => Err e end.

Notation "x <- r ;; k" := (bind r (fun x => k))
  (at level 61, r at next level, right associativity).

Definition is_err {A} (r : result A) : bool :=
  match r with Ok _ => false | Err _ => true end.

(** ** Bytes and strings *)

Definition byte_of (c : ascii) : Z := Z.of_N (N_of_ascii c).
Definition chr (z : Z) : ascii := ascii_of_N (Z.to_N z).

Fixpoint bytes (s : string) : list Z :=
  match s with
  | EmptyString => []
  | String c r => byte_of c :: bytes r
  end.

Fixpoint str_of (l : list Z) : string :=
  match l with
  | [] => EmptyString
  | b :: l' => String (chr b) (str_of l')
  end.

(** *** [strings.ToUpper] *)

(** The Unicode case data of package [unicode]: [toUpperCase r] is
    [unicode.To(unicode.UpperCase, r)], the lookup in [unicode.CaseRanges]
    that [unicode.ToUpper] makes for a rune above [MaxASCII].  The table is
    not written out; the proofs use two facts of it.  U+FFFD has no case
    mapping.  U+0131 (dotless i) and U+017F (long s), which upper-case to
    [I] and [S], are the only runes above U+007F whose upper case is at most
    U+007F. *)
Class UnicodeTables := {
  toUpperCase : Z -> Z;
  toUpperCase_RuneError : toUpperCase 65533 = 65533%Z;
  toUpperCase_to_ascii : forall r, (127 < r)%Z -> (toUpperCase r <= 127)%Z ->
    (r = 305 /\ toUpperCase r = 73 \/ r = 383 /\ toUpperCase r = 83)%Z }.

Definition RuneError : Z := 65533.
Definition MaxRune : Z := 1114111.

(** [unicode.ToUpper]. *)
Definition unicode_ToUpper `{UnicodeTables} (r : Z) : Z :=
  if (r <=? 127)%Z then
    if (97 <=? r)%Z && (r <=? 122)%Z then (r - 32)%Z else r
  else toUpperCase r.

(** The [first] and [acceptRanges] tables of [unicode/utf8] for a leading
    byte of a multi-byte sequence: its size and the range of the second
    byte.  The other bytes above [0x7F] cannot start a sequence. *)
Definition first_info (b : Z) : option (nat * Z * Z) :=
  if (194 <=? b)%Z && (b <=? 223)%Z then Some (2%nat, 128, 191)%Z
  else if (b =? 224)%Z then Some (3%nat, 160, 191)%Z
  else if (225 <=? b)%Z && (b <=? 236)%Z then Some (3%nat, 128, 191)%Z
  else if (b =? 237)%Z then Some (3%nat, 128, 159)%Z
  else if (238 <=? b)%Z && (b <=? 239)%Z then Some (3%nat, 128, 191)%Z
  else if (b =? 240)%Z then Some (4%nat, 144, 191)%Z
  else if (241 <=? b)%Z && (b <=? 243)%Z then Some (4%nat, 128, 191)%Z
  else if (b =? 244)%Z then Some (4%nat, 128, 143)%Z
  else None.

(** [utf8.DecodeRuneInString]: the first rune and its width; an invalid
    byte gives [(RuneError, 1)]. *)
Definition decodeRune (s : string) : Z * nat :=
  let bs := bytes s in
  let s0 := nth 0 bs 0%Z in
  match s with
  | EmptyString => (RuneError, 0%nat)
  | String _ _ =>
    if (s0 <? 128)%Z then (s0, 1%nat) else
    match first_info s0 with
    | None => (RuneError, 1%nat)
    | Some (sz, lo, hi) =>
      if (length s <? sz)%nat then (RuneError, 1%nat) else
      let s1 := nth 1 bs 0%Z in
      if (s1 <? lo)%Z || (hi <? s1)%Z then (RuneError, 1%nat)
      else if (sz <=? 2)%nat then
        (Z.lor (Z.shiftl (Z.land s0 31) 6) (Z.land s1 63), 2%nat)
      else
      let s2 := nth 2 bs 0%Z in
      if (s2 <? 128)%Z || (191 <? s2)%Z then (RuneError, 1%nat)
      else if (sz <=? 3)%nat then
        (Z.lor (Z.lor (Z.shiftl (Z.land s0 15) 12) (Z.shiftl (Z.land s1 63) 6))
               (Z.land s2 63), 3%nat)
      else
      let s3 := nth 3 bs 0%Z in
      if (s3 <? 128)%Z || (191 <? s3)%Z then (RuneError, 1%nat)
      else (Z.lor (Z.lor (Z.lor (Z.shiftl (Z.land s0 7) 18) (Z.shiftl (Z.land s1 63) 12))
                         (Z.shiftl (Z.land s2 63) 6)) (Z.land s3 63), 4%nat)
    end
  end.

(** [utf8.EncodeRune] (as [Builder.WriteRune] uses it): a negative rune, a
    surrogate or a value above [MaxRune] is written as [RuneError]. *)
Definition encodeRune (r : Z) : string :=
  if (0 <=? r)%Z && (r <=? 127)%Z then str_of [r]
  else if (0 <=? r)%Z && (r <=? 2047)%Z then
    str_of [Z.lor 192 (Z.land (Z.shiftr r 6) 255); Z.lor 128 (Z.land r 63)]
  else
  let r := if (r <? 0)%Z || (MaxRune <? r)%Z || ((55296 <=? r)%Z && (r <=? 57343)%Z)
           then RuneError else r in
  if (r <=? 65535)%Z then
    str_of [Z.lor 224 (Z.land (Z.shiftr r 12) 255); Z.lor 128 (Z.land (Z.shiftr r 6) 63);
            Z.lor 128 (Z.land r 63)]
  else
    str_of [Z.lor 240 (Z.land (Z.shiftr r 18) 255); Z.lor 128 (Z.land (Z.shiftr r 12) 63);
            Z.lor 128 (Z.land (Z.shiftr r 6) 63); Z.lor 128 (Z.land r 63)].

(** [s[n:]], or the empty string past the end. *)
Fixpoint skip (n : nat) (s : string) : string :=
  match n, s with
  | O, _ => s
  | S n', String _ r => skip n' r
  | S _, EmptyString => EmptyString
  end.

(** The loop of [strings.Map]: for each rune [c] of [range s], write
    [mapping(c)] unless it is negative.  (Go returns [s] itself when no rune
    changes and [s] is valid UTF-8; re-encoding gives the same bytes.)
    [fuel] bounds the number of runes. *)
Fixpoint map_runes (fuel : nat) (mapping : Z -> Z) (s : string) : string :=
  match fuel, s with
  | O, _ | _, EmptyString => EmptyString
  | S f, _ =>
      let '(c, width) := decodeRune s in
      let r := mapping c in
      (if (0 <=? r)%Z then encodeRune r else EmptyString) ++
      map_runes f mapping (skip width s)
  end.

(** [strings.Map]. *)
Definition Map (mapping : Z -> Z) (s : string) : string :=
  map_runes (length s) mapping s.

(** The ASCII path of [strings.ToUpper], byte by byte. *)
Definition upper_char (c : ascii) : ascii :=
  let b := byte_of c in
  if (97 <=? b)%Z && (b <=? 122)%Z then chr (b - 32) else c.

Fixpoint upper_ascii (s : string) : string :=
  match s with
  | EmptyString => EmptyString
  | String c r => String (upper_char c) (upper_ascii r)
  end.

(** No byte of [s] is [utf8.RuneSelf] or above. *)
Fixpoint is_ascii (s : string) : bool :=
  match s with
  | EmptyString => true
  | String c r => (byte_of c <? 128)%Z && is_ascii r
  end.

(** Every byte of [s] is [utf8.RuneSelf] or above. *)
Fixpoint all_high (s : string) : bool :=
  match s with
  | EmptyString => true
  | String c r => (128 <=? byte_of c)%Z && all_high r
  end.

(** Some byte of [s] is [utf8.RuneSelf] or above, or is [I] or [S]. *)
Fixpoint has_foreign (s : string) : bool :=
  match s with
  | EmptyString => false
  | String c r => (128 <=? byte_of c)%Z || Ascii.eqb c "I" || Ascii.eqb c "S" || has_foreign r
  end.

(** [strings.ToUpper]. *)
Definition toUpper `{UnicodeTables} (s : string) : string :=
  if is_ascii s then upper_ascii s else Map unicode_ToUpper s.

(** A table for concrete runs: it agrees with Go's on U+0131, U+017F,
    U+FFFD and on every rune without a case mapping; it leaves every other
    rune unchanged.  The witnesses only use runes on which it agrees with
    Go's table. *)
Definition sample_toUpperCase (r : Z) : Z :=
  if (r =? 305)%Z then 73%Z else if (r =? 383)%Z then 83%Z else r.

Definition sample_toUpperCase_to_ascii : forall r, (127 < r)%Z ->
  (sample_toUpperCase r <= 127)%Z ->
  (r = 305 /\ sample_toUpperCase r = 73 \/ r = 383 /\ sample_toUpperCase r = 83)%Z.
Proof.
  unfold sample_toUpperCase. intros r H1 H2.
  destruct (Z.eqb_spec r 305); [left; lia|].
  destruct (Z.eqb_spec r 383); [right; lia|]. lia.
Defined.

Definition sample_tables : UnicodeTables := {|
  toUpperCase := sample_toUpperCase;
  toUpperCase_RuneError := eq_refl;
  toUpperCase_to_ascii := sample_toUpperCase_to_ascii |}.

Fixpoint is_prefix (p s : string) : bool :=
  match p, s with
  | EmptyString, _ => true
  | String a p', String b s' => Ascii.eqb a b && is_prefix p' s'
  | String _ _, EmptyString => false
  end.

(** [strings.Contains s sub]. *)
Fixpoint contains (s sub : string) : bool :=
  is_prefix sub s ||
  match s with
  | EmptyString => false
  | String _ s' => contains s' sub
  end.

(** [strings.Split s sep] for a one-byte separator. *)
Fixpoint split (sep : ascii) (s : string) : list string :=
  match s with
  | EmptyString => [EmptyString]
  | String c r =>
      if Ascii.eqb c sep then EmptyString :: split sep r
      else match split sep r with
           | [] => [String c EmptyString]
           | w :: ws => String c w :: ws
           end
  end.

(** [strings.Replace s old "" -1] for a one-byte [old]. *)
Fixpoint remove_all (old : ascii) (s : string) : string :=
  match s with
  | EmptyString => EmptyString
  | String c r => if Ascii.eqb c old then remove_all old r
                  else String c (remove_all old r)
  end.

Fixpoint repeat_str (n : nat) (s : string) : string :=
  match n with O => EmptyString | S n' => s ++ repeat_str n' s end.

(** ** MD5 (crypto/md5), on byte lists *)

Module MD5.

Definition mask32 : Z := 4294967295.
Definition w32 (x : Z) : Z := Z.land x mask32.
Definition add32 (x y : Z) : Z := w32 (x + y).
Definition not32 (x : Z) : Z := Z.lxor x mask32.
Definition rotl (x : Z) (c : Z) : Z :=
  w32 (Z.lor (Z.shiftl x c) (Z.shiftr x (32 - c))).

Definition K : list Z :=
  [3614090360; 3905402710; 606105819; 3250441966; 4118548399; 1200080426;
   2821735955; 4249261313; 1770035416; 2336552879; 4294925233; 2304563134;
   1804603682; 4254626195; 2792965006; 1236535329; 4129170786; 3225465664;
   643717713; 3921069994; 3593408605; 38016083; 3634488961; 3889429448;
   568446438; 3275163606; 4107603335; 1163531501; 2850285829; 4243563512;
   1735328473; 2368359562; 4294588738; 2272392833; 1839030562; 4259657740;
   2763975236; 1272893353; 4139469664; 3200236656; 681279174; 3936430074;
   3572445317; 76029189; 3654602809; 3873151461; 530742520; 3299628645;
   4096336452; 1126891415; 2878612391; 4237533241; 1700485571; 2399980690;
   4293915773; 2240044497; 1873313359; 4264355552; 2734768916; 1309151649;
   4149444226; 3174756917; 718787259; 3951481745]%Z.

Definition shifts (round : nat) : list Z :=
  match round with
  | 0 => [7; 12; 17; 22]%Z
  | 1 => [5; 9; 14; 20]%Z
  | 2 => [4; 11; 16; 23]%Z
  | _ => [6; 10; 15; 21]%Z
  end.

Record state := mk { a : Z; b : Z; c : Z; d : Z }.

Definition init : state := mk 1732584193 4023233417 2562383102 271733878%Z.

Definition le32 (bs : list Z) (i : nat) : Z :=
  (nth i bs 0%Z + Z.shiftl (nth (i + 1) bs 0%Z) 8 + Z.shiftl (nth (i + 2) bs 0) 16
   + Z.shiftl (nth (i + 3) bs 0) 24)%Z.

Definition le_bytes (n : nat) (x : Z) : list Z :=
  map (fun i => Z.land (Z.shiftr x (8 * Z.of_nat i)) 255)%Z (seq 0 n).

(** One of the 64 operations of the compression function. *)
Definition step (m : list Z) (st : state) (i : nat) : state :=
  let round := (i / 16)%nat in
  let '(f, g) :=
    match round with
    | 0 => (Z.lor (Z.land st.(b) st.(c)) (Z.land (not32 st.(b)) st.(d)), i)
    | 1 => (Z.lor (Z.land st.(b) st.(d)) (Z.land st.(c) (not32 st.(d))),
            (5 * i + 1) mod 16)
    | 2 => (Z.lxor (Z.lxor st.(b) st.(c)) st.(d), (3 * i + 5) mod 16)
    | _ => (Z.lxor st.(c) (Z.lor st.(b) (not32 st.(d))), (7 * i) mod 16)
    end%nat in
  let f' := w32 (f + st.(a) + nth i K 0 + nth g m 0)%Z in
  mk st.(d)
     (add32 st.(b) (rotl f' (nth (i mod 4) (shifts round) 0%Z)))
     st.(b) st.(c).

Definition compress (st : state) (block : list Z) : state :=
  let m := map (fun j => le32 block (4 * j)) (seq 0 16) in
  let st' := fold_left (step m) (seq 0 64) st in
  mk (add32 st.(a) st'.(a)) (add32 st.(b) st'.(b))
     (add32 st.(c) st'.(c)) (add32 st.(d) st'.(d)).

Definition pad (msg : list Z) : list Z :=
  let n := List.length msg in
  let k := ((119 - n mod 64) mod 64)%nat in
  msg ++ [128%Z] ++ repeat 0%Z k ++ le_bytes 8 (8 * Z.of_nat n)%Z.

Fixpoint blocks (fuel : nat) (bs : list Z) (st : state) : state :=
  match fuel with
  | O => st
  | S f => blocks f (skipn 64 bs) (compress st (firstn 64 bs))
  end.

(** [md5.Sum] as a list of 16 bytes. *)
Definition sum (msg : list Z) : list Z :=
  let p := pad msg in
  let st := blocks (List.length p / 64) p init in
  le_bytes 4 st.(a) ++ le_bytes 4 st.(b) ++ le_bytes 4 st.(c) ++ le_bytes 4 st.(d).

End MD5.

Definition hex_digit (v : Z) : ascii :=
  if (v <? 10)%Z then chr (48 + v)%Z else chr (87 + v)%Z.

(** [hex.EncodeToString]. *)
Definition hex_encode (bs : list Z) : string :=
  fold_right (fun x acc =>
    String (hex_digit (Z.shiftr x 4)) (String (hex_digit (Z.land x 15)) acc))
    EmptyString bs.

(** ** The package constants *)

Definition vendorLength : nat := 3.
Definition typeElementLength : nat := 2.
Definition priLocationLength : nat := 5.
Definition idLength : nat := 32.
Definition timeKeyBase : Z := 36.
Definition randLen : nat := 7.
Definition paddingChar : ascii := "=".
Definition delimitChar : ascii := "-".
Definition idElements : nat := 4.
Definition timeKeyLength : nat := 9.
Definition unknownLocationValue : string := "MISCR".
Definition letterBytes : string := "0123456789ABCDEFGHIJKLMNOPQRSTUVWXYZ".

Definition TypeIndicator := string.
Definition IndicatorEntity : TypeIndicator := "E".
Definition IndicatorLog : TypeIndicator := "L".
Definition IndicatorCache : TypeIndicator := "C".
Definition IndicatorMemory : TypeIndicator := "M".
Definition IndicatorMeta : TypeIndicator := "A".
Definition IndicatorConfiguration : TypeIndicator := "F".
Definition IndicatorTimeSeries : TypeIndicator := "T".
Definition IndicatorRelationship : TypeIndicator := "R".
Definition IndicatorNote : TypeIndicator := "N".
Definition IndicatorFile : TypeIndicator := "D".

(** As in the source, [IndicatorTimeSeries] occurs twice. *)
Definition IndicatorChecksum : TypeIndicator :=
  IndicatorEntity ++ IndicatorLog ++ IndicatorCache ++ IndicatorMemory ++
  IndicatorMeta ++ IndicatorConfiguration ++ IndicatorTimeSeries ++
  IndicatorTimeSeries ++ IndicatorRelationship ++ IndicatorNote ++ IndicatorFile.

(** The ten defined indicators. *)
Definition indicators : list TypeIndicator :=
  [IndicatorEntity; IndicatorLog; IndicatorCache; IndicatorMemory;
   IndicatorMeta; IndicatorConfiguration; IndicatorTimeSeries;
   IndicatorRelationship; IndicatorNote; IndicatorFile].

Definition defined_indicator (s : string) : bool :=
  existsb (String.eqb s) indicators.

(** ** strconv *)

(** Digits of [strconv.FormatInt]. *)
Definition digits : string := "0123456789abcdefghijklmnopqrstuvwxyz".

Definition digit_char (v : Z) : ascii :=
  match get (Z.to_nat v) digits with Some c => c | None => "0"%char end.

(** [formatBits] on an unsigned value: at most 64 digits for a [uint64]. *)
Fixpoint format_bits (fuel : nat) (u : Z) : string :=
  match fuel with
  | O => EmptyString
  | S f =>
      if (u <? timeKeyBase)%Z then String (digit_char u) EmptyString
      else format_bits f (u / timeKeyBase) ++
             String (digit_char (u mod timeKeyBase)) EmptyString
  end.

(** [strconv.FormatInt(i, 36)]. *)
Definition formatInt (i : Z) : string :=
  if (i <? 0)%Z then String "-" (format_bits 64 (- i))
  else format_bits 64 i.

Definition maxUint64 : Z := 18446744073709551615.
Definition maxInt64 : Z := 9223372036854775807.

(** [lower(c)] of strconv: [c | ('x' - 'X')]. *)
Definition lower (c : Z) : Z := Z.lor c 32.

(** The digit value of a byte in [ParseUint], if it is a digit or letter. *)
Definition digit_val (c : ascii) : option Z :=
  let b := byte_of c in
  if (48 <=? b)%Z && (b <=? 57)%Z then Some (b - 48)%Z
  else if (97 <=? lower b)%Z && (lower b <=? 122)%Z then Some (lower b - 97 + 10)%Z
  else None.

(** The digit loop of [strconv.ParseUint(s, 36, 64)]. *)
Fixpoint parse_loop (s : string) (n : Z) : result Z :=
  match s with
  | EmptyString => Ok n
  | String c r =>
      match digit_val c with
      | None => Err ErrSyntax
      | Some d =>
          if (timeKeyBase <=? d)%Z then Err ErrSyntax
          else if (maxUint64 / timeKeyBase + 1 <=? n)%Z then Err ErrRange
          else let n1 := (n * timeKeyBase + d)%Z in
               if (maxUint64 <? n1)%Z then Err ErrRange
               else parse_loop r n1
      end
  end.

Definition parseUint (s : string) : result Z :=
  match s with
  | EmptyString => Err ErrSyntax
  | _ => parse_loop s 0
  end.

(** [strconv.ParseInt(s, 36, 64)]. *)
Definition parseInt (s : string) : result Z :=
  match s with
  | EmptyString => Err ErrSyntax
  | String c r =>
      let '(neg, s') :=
        if Ascii.eqb c "+" then (false, r)
        else if Ascii.eqb c "-" then (true, r) else (false, s) in
      un <- parseUint s' ;;
      if negb neg && (maxInt64 + 1 <=? un)%Z then Err ErrRange
      else if neg && (maxInt64 + 1 <? un)%Z then Err ErrRange
      else Ok (if neg then - un else un)%Z
  end.

(** Two's-complement wrap-around of an [int64] product. *)
Definition wrap64 (x : Z) : Z :=
  let y := (x mod 2 ^ 64)%Z in
  if (2 ^ 63 <=? y)%Z then (y - 2 ^ 64)%Z else y.

Section Codec.
Context {UT : UnicodeTables}.

(** ** The identifier codec *)

(** [isValidIndicator]: substring test against [IndicatorChecksum]. *)
Definition isValidIndicator (proposed : string) : bool :=
  contains IndicatorChecksum (toUpper proposed).

(** [getBase32TimeKey]: [now] is [time.UnixNano()]. *)
Definition getBase32TimeKey (now : Z) : result string :=
  let miliTime := Z.quot now 1000000 in
  let timeKey := toUpper (formatInt miliTime) in
  let paddingLen := ((Z.of_nat (length timeKey) - Z.of_nat timeKeyLength) * -1)%Z in
  let timeKey :=
    if (0 <? paddingLen)%Z
    then timeKey ++ repeat_str (Z.to_nat paddingLen) (String paddingChar EmptyString)
    else timeKey in
  if (paddingLen <? 0)%Z then Err ErrInvalidTimeKey else Ok timeKey.

(** [getRandString n]: [draw i] is the [i]-th result of
    [rand.Intn(len(letterBytes))], a value in [0, 36). *)
Fixpoint rand_chars (draw : nat -> nat) (i n : nat) : string :=
  match n with
  | O => EmptyString
  | S n' =>
      match get (draw i) letterBytes with
      | Some c => String c (rand_chars draw (S i) n')
      | None => rand_chars draw (S i) n'   (* unreachable: draws are < 36 *)
      end
  end.

Definition getRandString (draw : nat -> nat) (n : nat) : string :=
  rand_chars draw 0 n.

(** [strings.ToUpper(string(hex.EncodeToString(md5(secret + s))[0]))],
    written out identically in [Generate] and in [Verify]. *)
Definition md5_check_char (secret s : string) : string :=
  match hex_encode (MD5.sum (bytes (secret ++ s))) with
  | String c _ => toUpper (String c EmptyString)
  | EmptyString => EmptyString
  end.

Definition Generate (now : Z) (draw : nat -> nat)
    (systemIndicator : TypeIndicator)
    (vendor nType nSubType priLocation vendorSecret : string) : result string :=
  timeKey <- getBase32TimeKey now ;;
  let systemIndicator :=
    if negb (isValidIndicator systemIndicator) || (length systemIndicator =? 0)%nat
    then IndicatorEntity else systemIndicator in
  if negb (length vendor =? vendorLength)%nat then Err ErrVendorLength
  else if negb (length nType =? typeElementLength)%nat then Err ErrTypeLength
  else
  let nSubType :=
    if negb (length nSubType =? typeElementLength)%nat then nType else nSubType in
  let priLocation :=
    if negb (length priLocation =? priLocationLength)%nat
    then unknownLocationValue else priLocation in
  let randomString := getRandString draw randLen in
  let preResult :=
    toUpper (timeKey ++ String delimitChar (systemIndicator ++ vendor ++ nType ++
             nSubType ++ String delimitChar (priLocation ++ String delimitChar
             randomString))) in
  if (0 <? length vendorSecret)%nat then
    let preResult := substring 0 (length preResult - 1) preResult in
    Ok (preResult ++ md5_check_char vendorSecret preResult)
  else Ok preResult.

(** ** [idRegex] = [[A-Z0-9=]{9}-[A-Z0-9=]{8}-[A-Z0-9=]{5}-[A-Z0-9=]{7}\z] *)

(** The character class [[A-Z0-9=]]. *)
Definition in_class (c : ascii) : bool :=
  let b := byte_of c in
  ((65 <=? b)%Z && (b <=? 90)%Z) || ((48 <=? b)%Z && (b <=? 57)%Z) || (b =? 61)%Z.

Definition obind (o : option string) (k : string -> option string) : option string :=
  match o with Some s => k s | None => None end.

(** [[A-Z0-9=]{n}]: consume [n] class bytes, return what is left. *)
Fixpoint class_n (n : nat) (s : string) : option string :=
  match n, s with
  | O, _ => Some s
  | S n', String c r => if in_class c then class_n n' r else None
  | S _, EmptyString => None
  end.

(** A literal byte. *)
Definition lit (x : ascii) (s : string) : option string :=
  match s with
  | String c r => if Ascii.eqb c x then Some r else None
  | EmptyString => None
  end.

(** The pattern matched starting at the beginning of [s], up to [\z]. *)
Definition regex_at (s : string) : bool :=
  match obind (obind (obind (obind (obind (obind (class_n 9 s)
          (lit "-")) (class_n 8)) (lit "-")) (class_n 5)) (lit "-")) (class_n 7)
  with
  | Some EmptyString => true
  | _ => false
  end.

(** [FindStringSubmatch] finds a match (a one-element slice) iff the
    unanchored pattern matches at some start position. *)
Fixpoint regex_find (s : string) : bool :=
  regex_at s ||
  match s with
  | EmptyString => false
  | String _ r => regex_find r
  end.

(** [Verify]: a Go [(bool, error)] pair. *)
Definition Verify (id vendorSecret : string) : bool * option error :=
  if negb (length id =? idLength)%nat then (false, Some ErrInvalidLength)
  else if negb (regex_find id) then (false, Some ErrInvalidFormat)
  else if negb (List.length (split delimitChar id) =? idElements)%nat
  then (false, Some ErrElementCount)
  else if negb (String.eqb vendorSecret "") then
    let checkChar := substring (length id - 1) 1 id in
    let idMinusCS := substring 0 (length id - 1) id in
    if negb (String.eqb (md5_check_char vendorSecret idMinusCS) checkChar)
    then (false, Some ErrChecksum)
    else (true, None)
  else (true, None).

(** The decoding part of [GetTimeFromID] on the time component: strip every
    padding byte, [ParseInt(_, 36, 64)], then [msInt * int64(time.Millisecond)]
    in [int64]. The result is the nanosecond count given to [time.Unix(0, _)]. *)
Definition timeFromKey (miliseconds : string) : result Z :=
  msInt <- parseInt (remove_all paddingChar miliseconds) ;;
  Ok (wrap64 (msInt * 1000000)).

Definition GetTimeFromID (id : string) : result Z :=
  match Verify id "" with
  | (true, _) =>
      let components := split delimitChar id in
      timeFromKey (nth 0 components EmptyString)
  | (false, Some e) => Err e
  | (false, None) => Err ErrInvalidFormat  (* unreachable *)
  end.

Record Description := {
  Indicator : TypeIndicator;
  VendorKey : string;
  Type' : string;
  SubType : string;
  Location : string;
  TimeKey : string;
  Time : Z;
  RandomString : string }.

(** Modelled from the spec: [Describe] of the current revision of the
    package (the source only keeps the earlier revision's [Describe],
    written for the earlier layout with the type component first).  Per the spec it runs the
    no-secret [Verify], takes indicator (1), vendor (3), type (2) and
    subtype (2) from the second component, the location from the third, the
    time text from the first and the random text from the fourth, and
    decodes the time as [GetTimeFromID] does. *)
Definition Describe (id : string) : result Description :=
  match Verify id "" with
  | (false, Some e) => Err e
  | (false, None) => Err ErrInvalidFormat
  | (true, _) =>
      let components := split delimitChar id in
      let indicatorCom := nth 1 components EmptyString in
      t <- GetTimeFromID id ;;
      Ok {| Indicator := substring 0 1 indicatorCom;
            VendorKey := substring 1 3 indicatorCom;
            Type' := substring 4 2 indicatorCom;
            SubType := substring 6 2 indicatorCom;
            Location := nth 2 components EmptyString;
            TimeKey := nth 0 components EmptyString;
            Time := t;
            RandomString := nth 3 components EmptyString |}
  end.

(** The layout [Verify] is meant to accept: 32 bytes, [-] at positions 9,
    18 and 24, a byte of [[A-Z0-9=]] everywhere else. *)
Definition dash_pos (i : nat) : bool := (i =? 9)%nat || (i =? 18)%nat || (i =? 24)%nat.

Fixpoint canon_from (i : nat) (s : string) : bool :=
  match s with
  | EmptyString => (i =? idLength)%nat
  | String c r =>
      (i <? idLength)%nat &&
      (if dash_pos i then Ascii.eqb c delimitChar else in_class c) &&
      canon_from (S i) r
  end.

Definition canonical (s : string) : bool := canon_from 0 s.

(** ** Auxiliary definitions of the proofs *)

(** Every byte of [s] is in [[A-Z0-9=]]. *)
Fixpoint all_class (s : string) : bool :=
  match s with
  | EmptyString => true
  | String c r => in_class c && all_class r
  end.

(** A field the caller passes in is acceptable in an identifier: its bytes
    are ASCII letters, digits or [=] (ASCII, and in [[A-Z0-9=]] once
    upper-cased). *)
Definition fieldable (s : string) : bool := is_ascii s && all_class (upper_ascii s).

(** A segment of the identifier: [n] bytes of the class. *)
Definition seg_ok (n : nat) (s : string) : Prop := length s = n /\ all_class s = true.

(** Four segments joined by the delimiter. *)
Definition mk_id (a b c d : string) : string :=
  a ++ String delimitChar (b ++ String delimitChar (c ++ String delimitChar d)).

Definition dval (c : ascii) : Z :=
  match digit_val c with Some d => d | None => 0%Z end.

(** The value of a digit string read left to right. *)
Fixpoint val_acc (s : string) (acc : Z) : Z :=
  match s with
  | EmptyString => acc
  | String c r => val_acc r (acc * timeKeyBase + dval c)%Z
  end.

(** Bytes that are class characters, not padding, and base-36 digits. *)
Fixpoint digits_ok (s : string) : bool :=
  match s with
  | EmptyString => true
  | String c r =>
      in_class c && negb (Ascii.eqb c paddingChar) &&
      match digit_val c with Some d => (d <? timeKeyBase)%Z | None => false end &&
      digits_ok r
  end.

Definition pads (n : nat) : string := repeat_str n (String paddingChar EmptyString).

(** The three normalisations of [Generate], as written there. *)
Definition norm_indicator (systemIndicator : TypeIndicator) : TypeIndicator :=
  if negb (isValidIndicator systemIndicator) || (length systemIndicator =? 0)%nat
  then IndicatorEntity else systemIndicator.

Definition norm_subtype (nType nSubType : string) : string :=
  if negb (length nSubType =? typeElementLength)%nat then nType else nSubType.

Definition norm_location (priLocation : string) : string :=
  if negb (length priLocation =? priLocationLength)%nat
  then unknownLocationValue else priLocation.

(** The final step of [Generate]. *)
Definition with_checksum (vendorSecret preResult : string) : result string :=
  if (0 <? length vendorSecret)%nat then
    let preResult := substring 0 (length preResult - 1) preResult in
    Ok (preResult ++ md5_check_char vendorSecret preResult)
  else Ok preResult.

Definition mk_pre (a b c : string) : string :=
  a ++ String delimitChar (b ++ String delimitChar (c ++ String delimitChar EmptyString)).

(** Upper-case hexadecimal digits [0-9A-F]. *)
Definition hex_upper (c : ascii) : bool :=
  ((48 <=? byte_of c)%Z && (byte_of c <=? 57)%Z) ||
  ((65 <=? byte_of c)%Z && (byte_of c <=? 70)%Z).

End Codec.

(** ** The earlier revision of the package (source lines 1-255)

    It has the type component first ([indicator vendor app type]), then
    a reversed time key: [maxTimestampValBase10] minus the milliseconds,
    in base 36, left-padded with [0] to nine bytes. *)
Module V1.

Section Earlier.
Context {UT : UnicodeTables}.

Definition appElementLength : nat := 2.
Definition maxTimestampValBase10 : Z := 101559956668415.

(** The results of [Generate]: an identifier, an error the current revision
    also has, or the app-length error ["App must be of length '2'"]. *)
Inductive gen_result :=
| GenOk (id : string)
| GenErr (e : error)
| GenErrAppLength.

(** [getBase36TimeKey]: [now] is [time.UnixNano()]. *)
Definition getBase36TimeKey (now : Z) : result string :=
  let miliTime := Z.quot now 1000000 in
  let revMiliTime := wrap64 (maxTimestampValBase10 - miliTime) in
  let timeKey := toUpper (formatInt revMiliTime) in
  let paddingLen := (Z.of_nat timeKeyLength - Z.of_nat (length timeKey))%Z in
  let timeKey :=
    if (0 <? paddingLen)%Z
    then repeat_str (Z.to_nat paddingLen) "0" ++ timeKey
    else timeKey in
  if (paddingLen <? 0)%Z then Err ErrInvalidTimeKey else Ok timeKey.

Definition Generate (now : Z) (draw : nat -> nat)
    (systemIndicator : TypeIndicator)
    (vendor app nType priLocation vendorSecret : string) : gen_result :=
  match getBase36TimeKey now with
  | Err e => GenErr e
  | Ok timeKey =>
  let systemIndicator :=
    if negb (isValidIndicator systemIndicator) || (length systemIndicator =? 0)%nat
    then IndicatorEntity else systemIndicator in
  if negb (length vendor =? vendorLength)%nat then GenErr ErrVendorLength
  else if negb (length app =? typeElementLength)%nat then GenErrAppLength
  else if negb (length nType =? typeElementLength)%nat then GenErr ErrTypeLength
  else
  let priLocation :=
    if negb (length priLocation =? priLocationLength)%nat
    then unknownLocationValue else priLocation in
  let randomString := getRandString draw randLen in
  let preResult :=
    toUpper (systemIndicator ++ vendor ++ app ++ nType ++ String delimitChar (timeKey ++
             String delimitChar (priLocation ++ String delimitChar randomString))) in
  if (0 <? length vendorSecret)%nat then
    let preResult := substring 0 (length preResult - 1) preResult in
    GenOk (preResult ++ md5_check_char vendorSecret preResult)
  else GenOk preResult
  end.

(** [idRegex] = [[A-Z0-9=]{8}-[A-Z0-9=]{9}-[A-Z0-9=]{5}-[A-Z0-9=]{7}\z] *)
Definition regex_at (s : string) : bool :=
  match obind (obind (obind (obind (obind (obind (class_n 8 s)
          (lit "-")) (class_n 9)) (lit "-")) (class_n 5)) (lit "-")) (class_n 7)
  with
  | Some EmptyString => true
  | _ => false
  end.

Fixpoint regex_find (s : string) : bool :=
  regex_at s ||
  match s with
  | EmptyString => false
  | String _ r => regex_find r
  end.

Definition Verify (id vendorSecret : string) : bool * option error :=
  if negb (length id =? idLength)%nat then (false, Some ErrInvalidLength)
  else if negb (regex_find id) then (false, Some ErrInvalidFormat)
  else if negb (List.length (split delimitChar id) =? idElements)%nat
  then (false, Some ErrElementCount)
  else if negb (String.eqb vendorSecret "") then
    let checkChar := substring (length id - 1) 1 id in
    let idMinusCS := substring 0 (length id - 1) id in
    if negb (String.eqb (md5_check_char vendorSecret idMinusCS) checkChar)
    then (false, Some ErrChecksum)
    else (true, None)
  else (true, None).

(** [getTimeFromID]: [ParseInt] of the second component as it stands (no
    padding is removed), subtracted from [maxTimestampValBase10], then
    multiplied into nanoseconds, all in [int64]. *)
Definition getTimeFromID (id : string) : result Z :=
  match Verify id "" with
  | (true, _) =>
      let components := split delimitChar id in
      msInt <- parseInt (nth 1 components EmptyString) ;;
      let msSinceEpoch := wrap64 (maxTimestampValBase10 - msInt) in
      Ok (wrap64 (msSinceEpoch * 1000000))
  | (false, Some e) => Err e
  | (false, None) => Err ErrInvalidFormat  (* unreachable *)
  end.

Record Description := {
  Indicator : TypeIndicator;
  VendorKey : string;
  App : string;
  Type' : string;
  Location : string;
  TimeKey : string;
  Time : Z;
  RandomString : string }.

Definition Describe (id : string) : result Description :=
  match Verify id "" with
  | (false, Some e) => Err e
  | (false, None) => Err ErrInvalidFormat  (* unreachable *)
  | (true, _) =>
      let components := split delimitChar id in
      let indicatorCom := nth 0 components EmptyString in
      t <- getTimeFromID id ;;
      Ok {| Indicator := substring 0 1 indicatorCom;
            VendorKey := substring 1 3 indicatorCom;
            App := substring 4 2 indicatorCom;
            Type' := substring 6 2 indicatorCom;
            Location := nth 2 components EmptyString;
            TimeKey := nth 1 components EmptyString;
            Time := t;
            RandomString := nth 3 components EmptyString |}
  end.

End Earlier.

End V1.

Ltac no_dash := intros ? ?; unfold dash_pos;
  repeat rewrite (proj2 (Nat.eqb_neq _ _)) by lia; reflexivity.

(** * Proofs *)

Section Proofs.
Context {UT : UnicodeTables}.

(** ** MD5 test vectors *)

Example md5_abc :
  hex_encode (MD5.sum (bytes "abc")) = "900150983cd24fb0d6963f7d28e17f72".
Proof. vm_compute. reflexivity. Qed.

Example md5_empty :
  hex_encode (MD5.sum (bytes "")) = "d41d8cd98f00b204e9800998ecf8427e".
Proof. vm_compute. reflexivity. Qed.

Example md5_two_blocks :
  hex_encode (MD5.sum (bytes "aaaaaaaaaaaaaaaaaaaaaaaaaaaaaaaaaaaaaaaaaaaaaaaaaaaaaaaaaaaaaaaaaaaaaa"))
  = "0f5c6c4e740bfcc08c3c26ccb2673d46".
Proof. vm_compute. reflexivity. Qed.

(** ** String lemmas *)

Lemma app_assoc_str (a b c : string) : (a ++ b) ++ c = a ++ (b ++ c).
Proof. induction a as [|x a IH]; simpl; [reflexivity | now rewrite IH]. Qed.

Lemma app_nil_str (a : string) : a ++ EmptyString = a.
Proof. induction a as [|x a IH]; simpl; [reflexivity | now rewrite IH]. Qed.

Lemma length_app_str (a b : string) : length (a ++ b) = length a + length b.
Proof. induction a as [|x a IH]; simpl; [reflexivity | now rewrite IH]. Qed.

Lemma upper_ascii_app (a b : string) :
  upper_ascii (a ++ b) = upper_ascii a ++ upper_ascii b.
Proof. induction a as [|x a IH]; simpl; [reflexivity | now rewrite IH]. Qed.

Lemma upper_ascii_length (a : string) : length (upper_ascii a) = length a.
Proof. induction a as [|x a IH]; simpl; [reflexivity | now rewrite IH]. Qed.

Lemma is_ascii_app (a b : string) : is_ascii (a ++ b) = is_ascii a && is_ascii b.
Proof.
  induction a as [|x a IH]; simpl; [reflexivity|].
  rewrite IH. now rewrite andb_assoc.
Qed.

Lemma upper_char_byte (c : ascii) : (byte_of (upper_char c) <? 128)%Z = (byte_of c <? 128)%Z.
Proof. destruct c as [[] [] [] [] [] [] [] []]; reflexivity. Qed.

Lemma is_ascii_upper (s : string) : is_ascii (upper_ascii s) = is_ascii s.
Proof. induction s as [|x s IH]; simpl; [reflexivity | now rewrite upper_char_byte, IH]. Qed.

(** On ASCII input, [strings.ToUpper] works byte by byte. *)
Lemma toUpper_ascii (s : string) : is_ascii s = true -> toUpper s = upper_ascii s.
Proof. intros H. unfold toUpper. now rewrite H. Qed.

Lemma chr_byte_of (c : ascii) : chr (byte_of c) = c.
Proof. unfold chr, byte_of. rewrite N2Z.id. apply ascii_N_embedding. Qed.

Lemma decodeRune_ascii (c : ascii) (r : string) :
  (byte_of c < 128)%Z -> decodeRune (String c r) = (byte_of c, 1%nat).
Proof.
  intros H. unfold decodeRune. cbn [bytes nth].
  destruct (Z.ltb_spec (byte_of c) 128); [reflexivity | lia].
Qed.

Lemma unicode_ToUpper_ascii (c : ascii) :
  (byte_of c < 128)%Z -> unicode_ToUpper (byte_of c) = byte_of (upper_char c).
Proof.
  destruct c as [[] [] [] [] [] [] [] []]; intros H; vm_compute in H;
    try discriminate; reflexivity.
Qed.

Lemma encodeRune_ascii (v : Z) : (0 <= v <= 127)%Z -> encodeRune v = String (chr v) EmptyString.
Proof.
  intros H. unfold encodeRune.
  destruct (Z.leb_spec 0 v), (Z.leb_spec v 127); try lia. reflexivity.
Qed.

Lemma byte_of_range (c : ascii) : (0 <= byte_of c < 256)%Z.
Proof. destruct c as [[] [] [] [] [] [] [] []]; vm_compute; split; congruence. Qed.

Lemma map_runes_ascii (f : nat) (c : ascii) (r : string) :
  (byte_of c < 128)%Z ->
  map_runes (S f) unicode_ToUpper (String c r) =
  String (upper_char c) (map_runes f unicode_ToUpper r).
Proof.
  intros H. cbn [map_runes]. rewrite decodeRune_ascii by exact H.
  rewrite unicode_ToUpper_ascii by exact H.
  pose proof (byte_of_range (upper_char c)) as R.
  pose proof (upper_char_byte c) as U. rewrite (proj2 (Z.ltb_lt _ _) H) in U.
  apply Z.ltb_lt in U.
  destruct (Z.leb_spec 0 (byte_of (upper_char c))); [|lia].
  rewrite encodeRune_ascii by lia. rewrite chr_byte_of. reflexivity.
Qed.

(** [strings.Map] of [unicode.ToUpper] goes byte by byte over an ASCII
    prefix. *)
Lemma Map_ascii_app (a b : string) :
  is_ascii a = true ->
  Map unicode_ToUpper (a ++ b) = upper_ascii a ++ Map unicode_ToUpper b.
Proof.
  unfold Map. induction a as [|x a IH]; intros H; [reflexivity|].
  simpl in H. apply andb_true_iff in H as [H1 H2]. apply Z.ltb_lt in H1.
  cbn [String.append length]. rewrite map_runes_ascii by exact H1.
  cbn [upper_ascii String.append]. now rewrite <- IH.
Qed.

(** An ASCII prefix is upper-cased byte by byte, whatever follows it. *)
Lemma toUpper_ascii_app (a b : string) :
  is_ascii a = true -> toUpper (a ++ b) = upper_ascii a ++ toUpper b.
Proof.
  intros Ha. unfold toUpper. rewrite is_ascii_app, Ha. cbn [andb].
  destruct (is_ascii b).
  - apply upper_ascii_app.
  - apply Map_ascii_app, Ha.
Qed.

Lemma substring_app_l (a b : string) : substring 0 (length a) (a ++ b) = a.
Proof. induction a as [|x a IH]; simpl; [now destruct b | now rewrite IH]. Qed.

Lemma substring_app_r (a b : string) (m : nat) :
  substring (length a) m (a ++ b) = substring 0 m b.
Proof. induction a as [|x a IH]; simpl; [reflexivity | exact IH]. Qed.

Lemma substring_full (a : string) : substring 0 (length a) a = a.
Proof. rewrite <- (app_nil_str a) at 2. apply substring_app_l. Qed.

Lemma all_class_app (a b : string) :
  all_class (a ++ b) = all_class a && all_class b.
Proof.
  induction a as [|x a IH]; simpl; [reflexivity|].
  rewrite IH. now rewrite andb_assoc.
Qed.

Lemma upper_char_class (c : ascii) : in_class c = true -> upper_char c = c.
Proof.
  unfold in_class, upper_char. intros H.
  destruct ((97 <=? byte_of c)%Z && (byte_of c <=? 122)%Z) eqn:E; [|reflexivity].
  apply andb_true_iff in E as [E1 E2]. apply Z.leb_le in E1. apply Z.leb_le in E2.
  repeat (apply orb_true_iff in H as [H|H]);
    try (apply andb_true_iff in H as [H1 H2]; apply Z.leb_le in H1;
         apply Z.leb_le in H2; lia).
  apply Z.eqb_eq in H. lia.
Qed.

Lemma upper_ascii_class (s : string) : all_class s = true -> upper_ascii s = s.
Proof.
  induction s as [|x s IH]; simpl; [reflexivity|].
  intros H. apply andb_true_iff in H as [H1 H2].
  rewrite upper_char_class, IH; auto.
Qed.

Lemma upper_char_idem (c : ascii) : upper_char (upper_char c) = upper_char c.
Proof. destruct c as [[] [] [] [] [] [] [] []]; reflexivity. Qed.

Lemma upper_ascii_idem (s : string) : upper_ascii (upper_ascii s) = upper_ascii s.
Proof. induction s as [|x s IH]; simpl; [reflexivity | now rewrite upper_char_idem, IH]. Qed.

Lemma in_class_ascii (c : ascii) : in_class c = true -> (byte_of c < 128)%Z.
Proof.
  unfold in_class. intros H.
  repeat (apply orb_true_iff in H as [H|H]);
    try (apply andb_true_iff in H as [H1 H2]; apply Z.leb_le in H2; lia).
  apply Z.eqb_eq in H. lia.
Qed.

Lemma all_class_ascii (s : string) : all_class s = true -> is_ascii s = true.
Proof.
  induction s as [|x s IH]; simpl; [reflexivity|].
  intros H. apply andb_true_iff in H as [H1 H2].
  rewrite (proj2 (Z.ltb_lt _ _) (in_class_ascii x H1)). auto.
Qed.

Lemma upper_class_ascii (c : ascii) : in_class (upper_char c) = true -> (byte_of c < 128)%Z.
Proof.
  intros H. apply in_class_ascii in H. apply Z.ltb_lt in H.
  rewrite upper_char_byte in H. apply Z.ltb_lt, H.
Qed.

Lemma toUpper_char (c : ascii) :
  (byte_of c < 128)%Z -> toUpper (String c EmptyString) = String (upper_char c) EmptyString.
Proof.
  intros H. rewrite toUpper_ascii; [reflexivity|].
  simpl. rewrite (proj2 (Z.ltb_lt _ _) H). reflexivity.
Qed.

Lemma is_ascii_delim (r : string) : is_ascii (String delimitChar r) = is_ascii r.
Proof. reflexivity. Qed.

Lemma upper_ascii_delim (r : string) :
  upper_ascii (String delimitChar r) = String delimitChar (upper_ascii r).
Proof. reflexivity. Qed.

Lemma is_ascii_char (x : ascii) : in_class x = true -> is_ascii (String x EmptyString) = true.
Proof. intros H. simpl. now rewrite (proj2 (Z.ltb_lt _ _) (in_class_ascii x H)). Qed.

Lemma upper_ascii_char (x : ascii) :
  in_class x = true -> upper_ascii (String x EmptyString) = String x EmptyString.
Proof. intros H. simpl. now rewrite (upper_char_class x H). Qed.

(** Class bytes are left as they are. *)
Lemma toUpper_class (s : string) : all_class s = true -> toUpper s = s.
Proof.
  intros H. rewrite toUpper_ascii by (apply all_class_ascii, H).
  apply upper_ascii_class, H.
Qed.

(** *** Runes that are not ASCII *)

Lemma lor_lower (a b : Z) :
  (0 <= a)%Z -> (0 <= b)%Z -> (a <= Z.lor a b)%Z /\ (b <= Z.lor a b)%Z.
Proof.
  assert (K : forall x y, (0 <= x)%Z -> (0 <= y)%Z -> (x <= Z.lor x y)%Z).
  { intros x y Hx Hy.
    assert (E : Z.lor x y = Z.lxor x (Z.ldiff y x)).
    { apply Z.bits_inj'. intros n _. rewrite Z.lor_spec, Z.lxor_spec, Z.ldiff_spec.
      now destruct (Z.testbit x n), (Z.testbit y n). }
    assert (D : Z.land x (Z.ldiff y x) = 0%Z).
    { apply Z.bits_inj'. intros n _. rewrite Z.land_spec, Z.ldiff_spec, Z.bits_0.
      now destruct (Z.testbit x n), (Z.testbit y n). }
    rewrite E, <- (Z.add_nocarry_lxor _ _ D).
    assert (0 <= Z.ldiff y x)%Z by (apply Z.ldiff_nonneg; now left). lia. }
  intros Ha Hb. split; [now apply K|]. rewrite Z.lor_comm. now apply K.
Qed.

Lemma lor_nonneg (a b : Z) : (0 <= a)%Z -> (0 <= b)%Z -> (0 <= Z.lor a b)%Z.
Proof. intros Ha Hb. apply Z.lor_nonneg. now split. Qed.

Lemma land_mask (x : Z) (k : Z) : (0 <= k)%Z -> Z.land x (Z.ones k) = (x mod 2 ^ k)%Z.
Proof. intros Hk. now apply Z.land_ones. Qed.

Lemma range_check (P : Z -> bool) (n : nat) :
  forallb (fun k => P (Z.of_nat k)) (seq 0 n) = true ->
  forall w, (0 <= w < Z.of_nat n)%Z -> P w = true.
Proof.
  intros H w Hw. rewrite forallb_forall in H.
  rewrite <- (Z2Nat.id w) by lia. apply H, in_seq. lia.
Qed.

Lemma first_info_spec (b lo hi : Z) (sz : nat) :
  first_info b = Some (sz, lo, hi) ->
  ((sz = 2%nat /\ 194 <= b <= 223 /\ lo = 128) \/
  (sz = 3%nat /\ (b = 224 /\ lo = 160 /\ hi = 191 \/ 225 <= b <= 239 /\ lo = 128)) \/
  (sz = 4%nat /\ (b = 240 /\ lo = 144 /\ hi = 191 \/ 241 <= b <= 244 /\ lo = 128)))%Z.
Proof.
  unfold first_info. intros H.
  repeat match type of H with
  | context [if ?c then _ else _] => let E := fresh "E" in destruct c eqn:E
  end; try discriminate; injection H as <- <- <-;
  rewrite ?Bool.andb_true_iff, ?Z.leb_le, ?Z.eqb_eq in *; lia.
Qed.

(** A first byte of [0x80] or above decodes to [RuneError] or to a rune
    above [0x7F]. *)
Lemma decodeRune_high (c : ascii) (r : string) :
  (128 <= byte_of c)%Z -> (128 <= fst (decodeRune (String c r)))%Z.
Proof.
  intros Hc. pose proof (byte_of_range c) as Rc. unfold decodeRune. cbn [bytes nth].
  set (s0 := byte_of c) in *.
  rewrite (proj2 (Z.ltb_ge s0 128)) by lia.
  assert (RE : (128 <= RuneError)%Z) by (unfold RuneError; lia).
  destruct (first_info s0) as [[[sz lo] hi]|] eqn:F; [|exact RE].
  apply first_info_spec in F.
  destruct (length (String c r) <? sz)%nat; [exact RE|].
  set (s1 := nth 0 (bytes r) 0%Z). set (s2 := nth 1 (bytes r) 0%Z).
  set (s3 := nth 2 (bytes r) 0%Z). clearbody s1 s2 s3.
  destruct ((s1 <? lo) || (hi <? s1))%Z eqn:B1; [exact RE|].
  apply Bool.orb_false_iff in B1 as [B1 B1']. apply Z.ltb_ge in B1, B1'.
  assert (M : forall x k, (0 <= k)%Z -> (0 <= x mod 2 ^ k < 2 ^ k)%Z)
    by (intros; apply Z.mod_pos_bound; lia).
  assert (S63 := M s1 6%Z ltac:(lia)).
  change 63%Z with (Z.ones 6). change 31%Z with (Z.ones 5).
  change 15%Z with (Z.ones 4). change 7%Z with (Z.ones 3).
  rewrite !land_mask by lia. rewrite !Z.shiftl_mul_pow2 by lia.
  cbn [fst]. change (2 ^ 6)%Z with 64%Z in *. change (2 ^ 12)%Z with 4096%Z.
  change (2 ^ 18)%Z with 262144%Z.
  destruct (sz <=? 2)%nat eqn:Z2.
  { apply Nat.leb_le in Z2. cbn [fst].
    assert (S31 := M s0 5%Z ltac:(lia)). change (2 ^ 5)%Z with 32%Z in *. clear M.
    destruct F as [(_ & Hs & _)|[(E & _)|(E & _)]]; [|lia|lia].
    assert (2 <= s0 mod 32)%Z by (Z.div_mod_to_equations; lia).
    destruct (lor_lower (s0 mod 32 * 64) (s1 mod 64)) as [L _]; lia. }
  apply Nat.leb_gt in Z2.
  destruct ((s2 <? 128) || (191 <? s2))%Z eqn:B2; [exact RE|].
  apply Bool.orb_false_iff in B2 as [B2 _]. apply Z.ltb_ge in B2.
  assert (S2 := M s2 6%Z ltac:(lia)). change (2 ^ 6)%Z with 64%Z in *.
  destruct (sz <=? 3)%nat eqn:Z3.
  { apply Nat.leb_le in Z3. cbn [fst].
    assert (S15 := M s0 4%Z ltac:(lia)). change (2 ^ 4)%Z with 16%Z in *. clear M.
    destruct (lor_lower (s0 mod 16 * 4096) (s1 mod 64 * 64)) as [L1 L2]; [lia|lia|].
    destruct (lor_lower (Z.lor (s0 mod 16 * 4096) (s1 mod 64 * 64)) (s2 mod 64))
      as [L3 _]; [lia|lia|].
    destruct F as [(E & _)|[(_ & [(-> & -> & ->)|(Hs & _)])|(E & _)]]; [lia| | |lia].
    - assert (32 <= s1 mod 64)%Z by (Z.div_mod_to_equations; lia). lia.
    - assert (1 <= s0 mod 16)%Z by (Z.div_mod_to_equations; lia). lia. }
  apply Nat.leb_gt in Z3.
  destruct ((s3 <? 128) || (191 <? s3))%Z; [exact RE|]. cbn [fst].
  assert (S7 := M s0 3%Z ltac:(lia)). change (2 ^ 3)%Z with 8%Z in *.
  assert (S3 := M s3 6%Z ltac:(lia)). change (2 ^ 6)%Z with 64%Z in *. clear M.
  destruct (lor_lower (s0 mod 8 * 262144) (s1 mod 64 * 4096)) as [L1 L2]; [lia|lia|].
  destruct (lor_lower (Z.lor (s0 mod 8 * 262144) (s1 mod 64 * 4096)) (s2 mod 64 * 64))
    as [L3 _]; [lia|lia|].
  destruct (lor_lower (Z.lor (Z.lor (s0 mod 8 * 262144) (s1 mod 64 * 4096))
    (s2 mod 64 * 64)) (s3 mod 64)) as [L4 _]; [lia|lia|].
  destruct F as [(E & _)|[(E & _)|(_ & [(-> & -> & ->)|(Hs & _)])]]; [lia|lia| |].
  - assert (16 <= s1 mod 64)%Z by (Z.div_mod_to_equations; lia). lia.
  - assert (1 <= s0 mod 8)%Z by (Z.div_mod_to_equations; lia). lia.
Qed.

Lemma chr_lor_high (k w : Z) :
  (k = 128 \/ k = 192 \/ k = 224 \/ k = 240)%Z -> (0 <= w < 256)%Z ->
  (128 <=? byte_of (chr (Z.lor k w)))%Z = true.
Proof.
  intros Hk. revert w. change 256%Z with (Z.of_nat 256).
  destruct Hk as [-> | [-> | [-> | ->]]]; apply range_check; vm_compute; reflexivity.
Qed.

Lemma land_byte (x : Z) : (0 <= Z.land x 255 < 256)%Z.
Proof. change 255%Z with (Z.ones 8). rewrite land_mask by lia. apply Z.mod_pos_bound. lia. Qed.

Lemma land_low6 (x : Z) : (0 <= Z.land x 63 < 256)%Z.
Proof.
  change 63%Z with (Z.ones 6). rewrite land_mask by lia.
  pose proof (Z.mod_pos_bound x (2 ^ 6) ltac:(lia)). change (2 ^ 6)%Z with 64%Z in *. lia.
Qed.

(** A rune outside [0, 0x7F] is written as two to four bytes, each
    [0x80] or above. *)
Lemma encodeRune_high (v : Z) :
  ~ (0 <= v <= 127)%Z -> all_high (encodeRune v) = true /\ encodeRune v <> EmptyString.
Proof.
  intros Hv. unfold encodeRune.
  rewrite (proj2 (Bool.andb_false_iff (0 <=? v) (v <=? 127))%Z)
    by (destruct (Z.leb_spec 0 v), (Z.leb_spec v 127); auto; lia).
  assert (H : forall k x, (k = 128 \/ k = 192 \/ k = 224 \/ k = 240)%Z ->
    (0 <= x < 256)%Z -> (128 <=? byte_of (chr (Z.lor k x)))%Z = true)
    by exact chr_lor_high.
  destruct ((0 <=? v) && (v <=? 2047))%Z.
  { cbn [str_of all_high]. rewrite !H by (lia || apply land_byte || apply land_low6).
    split; [reflexivity|discriminate]. }
  cbv zeta.
  generalize (if ((v <? 0) || (MaxRune <? v) || ((55296 <=? v) && (v <=? 57343)))%Z
              then RuneError else v); intros r.
  destruct (r <=? 65535)%Z; cbn [str_of all_high];
    rewrite !H by (lia || apply land_byte || apply land_low6);
    (split; [reflexivity|discriminate]).
Qed.

Lemma upper_ascii_high (s : string) : all_high s = true -> upper_ascii s = s.
Proof.
  induction s as [|x s IH]; cbn [all_high upper_ascii]; [reflexivity|].
  intros H. apply andb_prop in H as [H1 H2]. rewrite IH by exact H2. f_equal.
  revert H1. destruct x as [[] [] [] [] [] [] [] []]; vm_compute; congruence.
Qed.

Lemma has_foreign_high (s : string) :
  all_high s = true -> s <> EmptyString -> has_foreign s = true.
Proof.
  destruct s as [|x s]; [congruence|]. cbn [all_high has_foreign].
  intros H _. apply andb_prop in H as [-> _]. reflexivity.
Qed.

Lemma has_foreign_app (a b : string) :
  has_foreign (a ++ b) = has_foreign a || has_foreign b.
Proof.
  induction a as [|x a IH]; cbn [append has_foreign]; [reflexivity|].
  rewrite IH. now rewrite !Bool.orb_assoc.
Qed.

Lemma has_foreign_not_ascii (s : string) : is_ascii s = false -> has_foreign s = true.
Proof.
  induction s as [|x s IH]; cbn [is_ascii has_foreign]; [discriminate|].
  destruct (Z.ltb_spec (byte_of x) 128) as [Hx|Hx].
  - cbn [andb]. intros H. rewrite IH by exact H. now rewrite Bool.orb_true_r.
  - intros _. rewrite (proj2 (Z.leb_le 128 _)) by lia. reflexivity.
Qed.

(** [unicode.ToUpper] never returns a lower-case ASCII letter. *)
Lemma unicode_ToUpper_not_lower (r : Z) :
  ~ (97 <= unicode_ToUpper r <= 122)%Z.
Proof.
  unfold unicode_ToUpper. destruct (Z.leb_spec r 127).
  - destruct (Z.leb_spec 97 r), (Z.leb_spec r 122); cbn [andb]; lia.
  - destruct (Z.leb_spec (toUpperCase r) 127) as [Hle|]; [|lia].
    destruct (toUpperCase_to_ascii r ltac:(lia) Hle) as [[_ ->]|[_ ->]]; lia.
Qed.

Lemma encodeRune_upper (v : Z) :
  ~ (97 <= v <= 122)%Z -> upper_ascii (encodeRune v) = encodeRune v.
Proof.
  intros Hv. destruct (Z.leb_spec 0 v), (Z.leb_spec v 127).
  - rewrite encodeRune_ascii by lia. cbn [upper_ascii]. f_equal.
    assert (C : forall w, (0 <= w < Z.of_nat 128)%Z ->
      ((97 <=? w) && (w <=? 122) || Ascii.eqb (upper_char (chr w)) (chr w))%Z = true)
      by (apply range_check; vm_compute; reflexivity).
    specialize (C v ltac:(lia)).
    destruct (Z.leb_spec 97 v), (Z.leb_spec v 122); try lia; cbn in C;
      now apply Ascii.eqb_eq in C.
  - apply upper_ascii_high, encodeRune_high. lia.
  - apply upper_ascii_high, encodeRune_high. lia.
  - lia.
Qed.

(** Upper-casing leaves no lower-case ASCII letter. *)
Lemma map_runes_upper (f : nat) (s : string) :
  upper_ascii (map_runes f unicode_ToUpper s) = map_runes f unicode_ToUpper s.
Proof.
  revert s. induction f as [|f IH]; intros s; [destruct s; reflexivity|].
  destruct s as [|c r]; [reflexivity|]. cbn [map_runes].
  destruct (decodeRune (String c r)) as [rr w].
  rewrite upper_ascii_app, IH. f_equal.
  destruct (0 <=? unicode_ToUpper rr)%Z; [|reflexivity].
  apply encodeRune_upper, unicode_ToUpper_not_lower.
Qed.

Lemma upper_ascii_toUpper (s : string) : upper_ascii (toUpper s) = toUpper s.
Proof.
  unfold toUpper. destruct (is_ascii s); [apply upper_ascii_idem | apply map_runes_upper].
Qed.

(** A string with a byte of [0x80] or above upper-cases to one with such a
    byte, or with an [I] or an [S] (from [U+0131] or [U+017F]). *)
Lemma map_runes_foreign (f : nat) (s : string) :
  (length s <= f)%nat -> is_ascii s = false ->
  has_foreign (map_runes f unicode_ToUpper s) = true.
Proof.
  revert s. induction f as [|f IH]; intros s L A.
  { destruct s; [discriminate|cbn in L; lia]. }
  destruct s as [|c r]; [discriminate|]. cbn [map_runes].
  destruct (Z.ltb_spec (byte_of c) 128) as [Hc|Hc].
  - rewrite decodeRune_ascii by exact Hc. cbn [skip].
    rewrite has_foreign_app, IH; [now rewrite Bool.orb_true_r | cbn in L; lia |].
    cbn [is_ascii] in A. now rewrite (proj2 (Z.ltb_lt _ _) Hc) in A.
  - pose proof (decodeRune_high c r Hc) as D.
    destruct (decodeRune (String c r)) as [rr w]. cbn [fst] in D.
    rewrite has_foreign_app. unfold unicode_ToUpper.
    rewrite (proj2 (Z.leb_gt rr 127)) by lia.
    destruct (Z.leb_spec (toUpperCase rr) 127) as [Hle|Hgt].
    + destruct (toUpperCase_to_ascii rr ltac:(lia) Hle) as [[_ ->]|[_ ->]]; reflexivity.
    + rewrite (proj2 (Z.leb_le 0 _)) by lia.
      assert (NA : ~ (0 <= toUpperCase rr <= 127)%Z) by lia.
      destruct (encodeRune_high (toUpperCase rr) NA) as [E1 E2].
      now rewrite has_foreign_high.
Qed.

Lemma is_prefix_foreign (p s : string) :
  is_prefix p s = true -> has_foreign p = true -> has_foreign s = true.
Proof.
  revert s. induction p as [|x p IH]; intros s; [discriminate 2|].
  destruct s as [|y s]; [discriminate|]. cbn [is_prefix has_foreign].
  intros H. apply andb_prop in H as [E H]. apply Ascii.eqb_eq in E as <-.
  destruct ((128 <=? byte_of x)%Z || Ascii.eqb x "I" || Ascii.eqb x "S"); [reflexivity|].
  cbn [orb]. now apply IH.
Qed.

Lemma contains_foreign (s sub : string) :
  contains s sub = true -> has_foreign sub = true -> has_foreign s = true.
Proof.
  induction s as [|x s IH]; cbn [contains]; intros H F.
  - rewrite Bool.orb_false_r in H. exact (is_prefix_foreign _ _ H F).
  - apply Bool.orb_true_iff in H as [H|H].
    + exact (is_prefix_foreign _ _ H F).
    + cbn [has_foreign]. rewrite IH by assumption. now rewrite Bool.orb_true_r.
Qed.

(** No string with a byte of [0x80] or above, an [I] or an [S] is part of
    [IndicatorChecksum]. *)
Lemma contains_checksum_foreign (t : string) :
  has_foreign t = true -> contains IndicatorChecksum t = false.
Proof.
  intros F. destruct (contains IndicatorChecksum t) eqn:C; [|reflexivity].
  pose proof (contains_foreign _ _ C F) as G. vm_compute in G. discriminate.
Qed.

(** A one-byte string of [0x80] or above upper-cases to [RuneError]. *)
Lemma toUpper_high_char (c : ascii) :
  (128 <= byte_of c)%Z -> toUpper (String c EmptyString) = encodeRune RuneError.
Proof.
  intros Hc. unfold toUpper. cbn [is_ascii].
  rewrite (proj2 (Z.ltb_ge _ 128) Hc). cbn [andb]. unfold Map. cbn [length map_runes].
  assert (D : decodeRune (String c EmptyString) = (RuneError, 1%nat)).
  { revert Hc. destruct c as [[] [] [] [] [] [] [] []]; vm_compute;
      (reflexivity || (intros H; exfalso; apply H; reflexivity)). }
  rewrite D. unfold unicode_ToUpper, RuneError. cbn -[toUpperCase encodeRune].
  rewrite toUpperCase_RuneError. cbn -[encodeRune]. now rewrite app_nil_str.
Qed.

Lemma class_not_dash (c : ascii) : in_class c = true -> Ascii.eqb c delimitChar = false.
Proof.
  intros H. destruct (Ascii.eqb_spec c delimitChar); [subst; discriminate | reflexivity].
Qed.

(** ** Splitting and matching a well-formed identifier *)

Lemma split_no_sep (a : string) :
  all_class a = true -> split delimitChar a = [a].
Proof.
  induction a as [|x a IH]; simpl; [reflexivity|].
  intros H. apply andb_true_iff in H as [H1 H2].
  rewrite (class_not_dash x H1), (IH H2). reflexivity.
Qed.

Lemma split_app (a r : string) :
  all_class a = true ->
  split delimitChar (a ++ String delimitChar r) = a :: split delimitChar r.
Proof.
  induction a as [|x a IH]; intros H; simpl.
  - reflexivity.
  - apply andb_true_iff in H as [H1 H2].
    rewrite (class_not_dash x H1), (IH H2). reflexivity.
Qed.

Lemma split_mk_id (a b c d : string) :
  all_class a = true -> all_class b = true -> all_class c = true ->
  all_class d = true ->
  split delimitChar (mk_id a b c d) = [a; b; c; d].
Proof.
  intros Ha Hb Hc Hd. unfold mk_id.
  rewrite (split_app _ _ Ha), (split_app _ _ Hb), (split_app _ _ Hc),
    (split_no_sep _ Hd). reflexivity.
Qed.

Lemma class_n_app (n : nat) (a r : string) :
  seg_ok n a -> class_n n (a ++ r) = Some r.
Proof.
  revert n. induction a as [|x a IH]; intros n [Hl Hc]; simpl in *.
  - subst n. reflexivity.
  - destruct n as [|n]; [discriminate|].
    apply andb_true_iff in Hc as [H1 H2]. simpl. rewrite H1.
    apply IH. split; [lia | exact H2].
Qed.

Lemma obind_some (s : string) (k : string -> option string) :
  obind (Some s) k = k s.
Proof. reflexivity. Qed.

Lemma lit_delim (r : string) : lit "-" (String delimitChar r) = Some r.
Proof. reflexivity. Qed.

Lemma regex_at_mk_id (a b c d : string) :
  seg_ok 9 a -> seg_ok 8 b -> seg_ok 5 c -> seg_ok 7 d ->
  regex_at (mk_id a b c d) = true.
Proof.
  intros Ha Hb Hc Hd. unfold regex_at, mk_id.
  rewrite (class_n_app _ _ _ Ha), obind_some, lit_delim, obind_some,
    (class_n_app _ _ _ Hb), obind_some, lit_delim, obind_some,
    (class_n_app _ _ _ Hc), obind_some, lit_delim, obind_some,
    <- (app_nil_str d), (class_n_app _ _ _ Hd). reflexivity.
Qed.

Lemma regex_find_at (s : string) : regex_at s = true -> regex_find s = true.
Proof. intros H. destruct s; unfold regex_find; rewrite H; reflexivity. Qed.

Lemma length_mk_id (a b c d : string) :
  length (mk_id a b c d) = length a + length b + length c + length d + 3.
Proof.
  unfold mk_id. rewrite length_app_str. simpl. rewrite length_app_str. simpl.
  rewrite length_app_str. simpl. lia.
Qed.

Lemma Verify_mk_id (a b c d secret : string) :
  seg_ok 9 a -> seg_ok 8 b -> seg_ok 5 c -> seg_ok 7 d ->
  Verify (mk_id a b c d) secret =
  if negb (String.eqb secret "") then
    if negb (String.eqb (md5_check_char secret (substring 0 31 (mk_id a b c d)))
                        (substring 31 1 (mk_id a b c d)))
    then (false, Some ErrChecksum) else (true, None)
  else (true, None).
Proof.
  intros Ha Hb Hc Hd.
  assert (R : regex_find (mk_id a b c d) = true).
  { apply regex_find_at, regex_at_mk_id; assumption. }
  destruct Ha as [La Ca], Hb as [Lb Cb], Hc as [Lc Cc], Hd as [Ld Cd].
  unfold Verify. rewrite R, split_mk_id, length_mk_id, La, Lb, Lc, Ld by assumption.
  reflexivity.
Qed.

(** ** Base-36 time keys *)

Lemma digit_char_ok (v : Z) :
  (0 <= v < 36)%Z ->
  digits_ok (String (upper_char (digit_char v)) EmptyString) = true /\
  dval (upper_char (digit_char v)) = v.
Proof.
  intros Hv. rewrite <- (Z2Nat.id v) by lia.
  assert (Hn : (Z.to_nat v < 36)%nat) by lia.
  generalize (Z.to_nat v) Hn. clear v Hv Hn. intros n Hn.
  do 36 (destruct n as [|n]; [split; reflexivity|]). lia.
Qed.

Lemma digits_ok_app (a b : string) :
  digits_ok (a ++ b) = digits_ok a && digits_ok b.
Proof.
  induction a as [|x a IH]; simpl; [reflexivity|].
  rewrite IH. now rewrite !andb_assoc.
Qed.

Lemma val_acc_app (a b : string) (acc : Z) :
  val_acc (a ++ b) acc = val_acc b (val_acc a acc).
Proof. revert acc. induction a as [|x a IH]; intros acc; simpl; auto. Qed.

Lemma get_ascii (s : string) (n : nat) (c : ascii) :
  is_ascii s = true -> get n s = Some c -> (byte_of c < 128)%Z.
Proof.
  revert n. induction s as [|x s IH]; intros n H G; [destruct n; discriminate|].
  simpl in H. apply andb_true_iff in H as [H1 H2].
  destruct n as [|n]; simpl in G.
  - injection G as <-. apply Z.ltb_lt, H1.
  - exact (IH n H2 G).
Qed.

Lemma digit_char_ascii (v : Z) : (byte_of (digit_char v) < 128)%Z.
Proof.
  unfold digit_char. destruct (get (Z.to_nat v) digits) eqn:G.
  - exact (get_ascii digits _ _ eq_refl G).
  - reflexivity.
Qed.

Lemma format_bits_ascii (f : nat) (u : Z) : is_ascii (format_bits f u) = true.
Proof.
  revert u. induction f as [|f IH]; intros u; [reflexivity|].
  simpl. destruct (u <? timeKeyBase)%Z.
  - simpl. rewrite (proj2 (Z.ltb_lt _ _) (digit_char_ascii u)). reflexivity.
  - rewrite is_ascii_app, IH. simpl.
    rewrite (proj2 (Z.ltb_lt _ _) (digit_char_ascii _)). reflexivity.
Qed.

Lemma formatInt_ascii (i : Z) : is_ascii (formatInt i) = true.
Proof.
  unfold formatInt. destruct (i <? 0)%Z; [|apply format_bits_ascii].
  cbn [is_ascii]. rewrite format_bits_ascii. reflexivity.
Qed.

Lemma format_bits_ok (f : nat) (u : Z) :
  f <> O -> (0 <= u < timeKeyBase ^ Z.of_nat f)%Z ->
  digits_ok (upper_ascii (format_bits f u)) = true /\
  val_acc (upper_ascii (format_bits f u)) 0 = u /\
  (1 <= length (format_bits f u))%nat.
Proof.
  revert u. induction f as [|f IH]; intros u Hf Hu; [congruence|].
  - simpl. destruct (u <? timeKeyBase)%Z eqn:E.
    + apply Z.ltb_lt in E. destruct (digit_char_ok u) as [H1 H2];
        [unfold timeKeyBase in E; lia|].
      simpl. simpl in H1. rewrite H1, H2. repeat split; auto.
    + apply Z.ltb_ge in E. unfold timeKeyBase in *.
      assert (Hq : (0 <= u / 36 < 36 ^ Z.of_nat f)%Z).
      { split; [apply Z.div_pos; lia|].
        apply Z.div_lt_upper_bound; [lia|].
        rewrite Nat2Z.inj_succ, Z.pow_succ_r in Hu by lia. lia. }
      assert (Hf' : f <> O).
      { intros ->. simpl in Hu. lia. }
      destruct (IH _ Hf' Hq) as (IH1 & IH2 & IH3).
      destruct (digit_char_ok (u mod 36)) as [D1 D2];
        [apply Z.mod_pos_bound; lia|].
      rewrite upper_ascii_app, digits_ok_app, IH1, val_acc_app, IH2, length_app_str.
      simpl. simpl in D1. rewrite D1, D2.
      split; [reflexivity|split; [|lia]].
      unfold timeKeyBase. rewrite Z.mul_comm, <- Z.div_mod by lia. reflexivity.
Qed.

Lemma format_bits_length (f : nat) (u : Z) (k : nat) :
  (0 <= u)%Z -> (1 <= k)%nat -> (u < timeKeyBase ^ Z.of_nat k)%Z ->
  (length (format_bits f u) <= k)%nat.
Proof.
  revert u k. induction f as [|f IH]; intros u k H0 Hk Hu.
  - simpl. lia.
  - simpl. destruct (u <? timeKeyBase)%Z eqn:E; [simpl; lia|].
    apply Z.ltb_ge in E. unfold timeKeyBase in *. rewrite length_app_str. simpl.
    destruct k as [|k]; [lia|].
    destruct k as [|k]; [simpl in Hu; lia|].
    assert (Hq : (u / 36 < 36 ^ Z.of_nat (S k))%Z).
    { apply Z.div_lt_upper_bound; [lia|].
      rewrite (Nat2Z.inj_succ (S k)), Z.pow_succ_r in Hu by lia. lia. }
    pose proof (IH (u / 36)%Z (S k) ltac:(apply Z.div_pos; lia) ltac:(lia) Hq).
    lia.
Qed.

Lemma digit_val_nonneg (c : ascii) (d : Z) : digit_val c = Some d -> (0 <= d)%Z.
Proof.
  unfold digit_val. intros H.
  destruct ((48 <=? byte_of c)%Z && (byte_of c <=? 57)%Z) eqn:E1.
  - injection H as <-. apply andb_true_iff in E1 as [E1 _]. apply Z.leb_le in E1. lia.
  - destruct ((97 <=? lower (byte_of c))%Z && (lower (byte_of c) <=? 122)%Z) eqn:E2;
      [|discriminate].
    injection H as <-. apply andb_true_iff in E2 as [E2 _]. apply Z.leb_le in E2. lia.
Qed.

Lemma val_acc_mono (s : string) (acc : Z) :
  digits_ok s = true -> (0 <= acc)%Z -> (acc <= val_acc s acc)%Z.
Proof.
  revert acc. induction s as [|x s IH]; intros acc Hs Ha; simpl; [lia|].
  simpl in Hs. apply andb_true_iff in Hs as [Hs Hr].
  apply andb_true_iff in Hs as [_ Hd].
  unfold dval. destruct (digit_val x) as [d|] eqn:Ed; [|discriminate].
  apply Z.ltb_lt in Hd.
  assert (0 <= d)%Z by (eapply digit_val_nonneg; eassumption).
  specialize (IH (acc * timeKeyBase + d)%Z Hr).
  unfold timeKeyBase in *. lia.
Qed.

Lemma parse_loop_ok (s : string) (acc : Z) :
  digits_ok s = true -> (0 <= acc)%Z -> (val_acc s acc <= maxUint64)%Z ->
  parse_loop s acc = Ok (val_acc s acc).
Proof.
  revert acc. induction s as [|x s IH]; intros acc Hs Ha Hm; [reflexivity|].
  simpl in Hs. apply andb_true_iff in Hs as [Hs Hr].
  apply andb_true_iff in Hs as [_ Hd].
  simpl in Hm |- *. unfold dval in Hm.
  destruct (digit_val x) as [d|] eqn:Ed; [|discriminate].
  apply Z.ltb_lt in Hd.
  assert (0 <= d)%Z by (eapply digit_val_nonneg; eassumption).
  pose proof (val_acc_mono s (acc * timeKeyBase + d) Hr ltac:(unfold timeKeyBase; lia)).
  unfold timeKeyBase, maxUint64 in *. unfold dval. rewrite Ed.
  destruct (36 <=? d)%Z eqn:E1; [apply Z.leb_le in E1; lia|].
  destruct (512409557603043101 <=? acc)%Z eqn:E2; [apply Z.leb_le in E2; lia|].
  destruct (18446744073709551615 <? acc * 36 + d)%Z eqn:E3;
    [apply Z.ltb_lt in E3; lia|].
  apply IH; auto. lia.
Qed.

Lemma class_not_sign (c : ascii) :
  in_class c = true -> Ascii.eqb c "+" = false /\ Ascii.eqb c "-" = false.
Proof.
  intros H. split.
  - destruct (Ascii.eqb_spec c "+"); [subst; discriminate | reflexivity].
  - destruct (Ascii.eqb_spec c "-"); [subst; discriminate | reflexivity].
Qed.

Lemma parseInt_digits (s : string) :
  digits_ok s = true -> s <> EmptyString -> (val_acc s 0 <= maxInt64)%Z ->
  parseInt s = Ok (val_acc s 0).
Proof.
  intros Hs Hne Hm. destruct s as [|c r]; [congruence|].
  assert (Hc : in_class c = true).
  { simpl in Hs. now destruct (in_class c). }
  destruct (class_not_sign c Hc) as [P M].
  unfold parseInt. rewrite P, M. unfold parseUint.
  rewrite parse_loop_ok; auto; [| lia | unfold maxInt64, maxUint64 in *; lia].
  unfold maxInt64 in *. simpl in *.
  destruct (9223372036854775808 <=? val_acc r (dval c))%Z eqn:E;
    [apply Z.leb_le in E; lia | reflexivity].
Qed.

Lemma remove_all_app (x : ascii) (a b : string) :
  remove_all x (a ++ b) = remove_all x a ++ remove_all x b.
Proof.
  induction a as [|y a IH]; simpl; [reflexivity|].
  destruct (Ascii.eqb y x); simpl; now rewrite IH.
Qed.

Lemma pads_props (n : nat) :
  length (pads n) = n /\ all_class (pads n) = true /\
  remove_all paddingChar (pads n) = EmptyString.
Proof.
  unfold pads. induction n as [|n IH]; simpl; [auto|].
  destruct IH as (I1 & I2 & I3). rewrite I1, I2, I3. auto.
Qed.

Lemma remove_all_digits (s : string) :
  digits_ok s = true -> remove_all paddingChar s = s.
Proof.
  induction s as [|x s IH]; simpl; [reflexivity|].
  intros H. apply andb_true_iff in H as [H Hr].
  apply andb_true_iff in H as [H _]. apply andb_true_iff in H as [_ H].
  apply negb_true_iff in H. rewrite H, IH; auto.
Qed.

Lemma digits_all_class (s : string) : digits_ok s = true -> all_class s = true.
Proof.
  induction s as [|x s IH]; simpl; [reflexivity|].
  intros H. apply andb_true_iff in H as [H Hr].
  apply andb_true_iff in H as [H _]. apply andb_true_iff in H as [H _].
  rewrite H, IH; auto.
Qed.

(** The time key of an instant at or after the epoch: nine class bytes
    whose decoding is the instant truncated to the millisecond. *)
Lemma time_key_ok (now : Z) :
  (0 <= now <= maxInt64)%Z ->
  exists key, getBase32TimeKey now = Ok key /\ seg_ok 9 key /\
    timeFromKey key = Ok (now / 1000000 * 1000000)%Z.
Proof.
  intros Hn. unfold maxInt64 in Hn.
  assert (Hm : (0 <= now / 1000000 <= 9223372036854)%Z).
  { split; [apply Z.div_pos; lia|].
    assert (now / 1000000 < 9223372036855)%Z by (apply Z.div_lt_upper_bound; lia).
    lia. }
  assert (Hq : Z.quot now 1000000 = (now / 1000000)%Z)
    by (apply Z.quot_div_nonneg; lia).
  remember (now / 1000000)%Z as m eqn:Em.
  assert (Hf : formatInt m = format_bits 64 m).
  { unfold formatInt. destruct (m <? 0)%Z eqn:E; [apply Z.ltb_lt in E; lia|reflexivity]. }
  assert (H64 : (9223372036855 <= timeKeyBase ^ Z.of_nat 64)%Z)
    by (vm_compute; intros H; discriminate).
  assert (H9 : (9223372036855 <= timeKeyBase ^ Z.of_nat 9)%Z)
    by (vm_compute; intros H; discriminate).
  destruct (format_bits_ok 64 m) as (D1 & D2 & D3); [discriminate | lia |].
  pose proof (format_bits_length 64 m 9 ltac:(lia) ltac:(lia) ltac:(lia)) as L.
  clear H64 H9.
  set (T := upper_ascii (format_bits 64 m)) in *.
  assert (LT : length T = length (format_bits 64 m)) by apply upper_ascii_length.
  exists (T ++ pads (9 - length T)).
  destruct (pads_props (9 - length T)) as (P1 & P2 & P3).
  split; [|split; [split|]].
  - unfold getBase32TimeKey. rewrite Hq, Hf, toUpper_ascii by apply format_bits_ascii.
    fold T.
    unfold timeKeyLength.
    destruct (0 <? (Z.of_nat (length T) - Z.of_nat 9) * -1)%Z eqn:E1.
    + replace (Z.to_nat ((Z.of_nat (length T) - Z.of_nat 9) * -1)) with (9 - length T)%nat
        by lia.
      destruct ((Z.of_nat (length T) - Z.of_nat 9) * -1 <? 0)%Z eqn:E2;
        [apply Z.ltb_lt in E2; lia | reflexivity].
    + apply Z.ltb_ge in E1.
      replace (9 - length T)%nat with O by lia. rewrite app_nil_str.
      destruct ((Z.of_nat (length T) - Z.of_nat 9) * -1 <? 0)%Z eqn:E2;
        [apply Z.ltb_lt in E2; lia | reflexivity].
  - rewrite length_app_str. lia.
  - rewrite all_class_app, P2, digits_all_class; auto.
  - unfold timeFromKey. rewrite remove_all_app, P3, app_nil_str, remove_all_digits by auto.
    rewrite parseInt_digits, D2; auto.
    + unfold bind, wrap64. clear - Hm.
      rewrite Z.mod_small by lia.
      destruct (2 ^ 63 <=? m * 1000000)%Z eqn:E; [apply Z.leb_le in E; lia | reflexivity].
    + intros E. assert (length T = 0)%nat by (rewrite E; reflexivity). lia.
    + rewrite D2. unfold maxInt64. lia.
Qed.

(** ** The shape of a generated identifier *)

Lemma Generate_eq now draw ind vendor nType nSubType loc secret key :
  getBase32TimeKey now = Ok key ->
  length vendor = vendorLength -> length nType = typeElementLength ->
  Generate now draw ind vendor nType nSubType loc secret =
  with_checksum secret
    (toUpper (key ++ String delimitChar (norm_indicator ind ++ vendor ++ nType ++
       norm_subtype nType nSubType ++ String delimitChar (norm_location loc ++
       String delimitChar (getRandString draw randLen))))).
Proof.
  intros Hk Hv Ht. unfold Generate, bind. rewrite Hk, Hv, Ht. reflexivity.
Qed.

Lemma letterBytes_get (k : nat) :
  (k < 36)%nat -> exists c, get k letterBytes = Some c /\ in_class c = true.
Proof.
  intros Hk. do 36 (destruct k as [|k]; [eexists; split; reflexivity|]). lia.
Qed.

Lemma rand_chars_ok (draw : nat -> nat) (n i : nat) :
  (forall j, draw j < 36)%nat ->
  length (rand_chars draw i n) = n /\ all_class (rand_chars draw i n) = true.
Proof.
  intros Hd. revert i. induction n as [|n IH]; intros i; [split; reflexivity|].
  cbn [rand_chars]. destruct (letterBytes_get (draw i) (Hd i)) as (c & Hc & Hcl).
  rewrite Hc. cbn [length all_class andb]. destruct (IH (S i)) as [I1 I2]. rewrite I1, I2, Hcl. auto.
Qed.

Lemma hex_digit_class (v : Z) :
  (0 <= v < 16)%Z -> in_class (upper_char (hex_digit v)) = true.
Proof.
  intros Hv. rewrite <- (Z2Nat.id v) by lia.
  assert (Hn : (Z.to_nat v < 16)%nat) by lia.
  generalize (Z.to_nat v) Hn. clear v Hv Hn. intros n Hn.
  do 16 (destruct n as [|n]; [reflexivity|]). lia.
Qed.

Lemma md5_sum_first (msg : list Z) :
  exists x rest, MD5.sum msg = x :: rest /\ (0 <= x < 256)%Z.
Proof.
  unfold MD5.sum. set (st := MD5.blocks _ _ _).
  exists (Z.land (Z.shiftr (MD5.a st) 0) 255). eexists. split; [reflexivity|].
  change 255%Z with (Z.ones 8). rewrite Z.land_ones by lia.
  apply Z.mod_pos_bound. lia.
Qed.

(** The checksum is one class byte (an upper-case hex digit). *)
Lemma md5_check_char_shape (secret s : string) :
  exists x, md5_check_char secret s = String x EmptyString /\ in_class x = true.
Proof.
  unfold md5_check_char.
  destruct (md5_sum_first (bytes (secret ++ s))) as (x & rest & -> & Hx).
  assert (C : in_class (upper_char (hex_digit (Z.shiftr x 4))) = true).
  { apply hex_digit_class. rewrite Z.shiftr_div_pow2 by lia. split.
    - apply Z.div_pos; lia.
    - apply Z.div_lt_upper_bound; simpl; lia. }
  cbn [hex_encode fold_right]. rewrite toUpper_char by (apply upper_class_ascii, C).
  eexists. split; [reflexivity | exact C].
Qed.

Lemma defined_indicator_props (ind : TypeIndicator) :
  defined_indicator ind = true ->
  isValidIndicator ind = true /\ length ind = 1%nat /\ all_class ind = true /\
  toUpper ind = ind.
Proof.
  unfold defined_indicator. intros H. apply existsb_exists in H as (x & Hin & Hx).
  apply String.eqb_eq in Hx. subst x.
  simpl in Hin. repeat destruct Hin as [<-|Hin]; try contradiction;
    repeat split; reflexivity.
Qed.

Lemma substring_prefix (p d : string) (n : nat) :
  substring 0 (length p + n) (p ++ d) = p ++ substring 0 n d.
Proof. induction p as [|x p IH]; simpl; [reflexivity | now rewrite IH]. Qed.

Lemma substring_skip (p d : string) (n m : nat) :
  substring (length p + n) m (p ++ d) = substring n m d.
Proof. induction p as [|x p IH]; simpl; [reflexivity | exact IH]. Qed.

Lemma mk_id_pre (a b c d : string) : mk_id a b c d = mk_pre a b c ++ d.
Proof.
  unfold mk_id, mk_pre. rewrite !app_assoc_str. simpl. rewrite !app_assoc_str.
  simpl. rewrite !app_assoc_str. reflexivity.
Qed.

Lemma length_mk_pre (a b c : string) :
  length (mk_pre a b c) = length a + length b + length c + 3.
Proof.
  pose proof (length_mk_id a b c EmptyString) as H.
  rewrite mk_id_pre, length_app_str in H. simpl in H. lia.
Qed.

Lemma seg7_split (d : string) :
  seg_ok 7 d -> exists s6 x, d = s6 ++ String x EmptyString /\ length s6 = 6%nat /\
                             all_class s6 = true /\ in_class x = true.
Proof.
  intros [Hl Hc].
  destruct d as [|c1 [|c2 [|c3 [|c4 [|c5 [|c6 [|c7 [|c8 d]]]]]]]]; try discriminate.
  exists (String c1 (String c2 (String c3 (String c4 (String c5 (String c6 EmptyString)))))), c7.
  split; [reflexivity|]. split; [reflexivity|]. simpl in *.
  rewrite !andb_true_iff in *. tauto.
Qed.

Lemma toUpper_delim (s : string) :
  toUpper (String delimitChar s) = String delimitChar (toUpper s).
Proof. exact (toUpper_ascii_app (String delimitChar EmptyString) s eq_refl). Qed.

Lemma norm_subtype_ok (nType nSubType : string) :
  length nType = typeElementLength -> fieldable nType = true ->
  (length nSubType = typeElementLength -> fieldable nSubType = true) ->
  length (norm_subtype nType nSubType) = typeElementLength /\
  fieldable (norm_subtype nType nSubType) = true.
Proof.
  intros Hl Hf Hs. unfold norm_subtype.
  destruct (length nSubType =? typeElementLength)%nat eqn:E; simpl; [|auto].
  apply Nat.eqb_eq in E. auto.
Qed.

Lemma norm_location_ok (priLocation : string) :
  (length priLocation = priLocationLength -> fieldable priLocation = true) ->
  length (norm_location priLocation) = priLocationLength /\
  fieldable (norm_location priLocation) = true.
Proof.
  intros Hs. unfold norm_location.
  destruct (length priLocation =? priLocationLength)%nat eqn:E; simpl; [|auto].
  apply Nat.eqb_eq in E. auto.
Qed.

Lemma fieldable_upper (s : string) :
  fieldable s = true ->
  is_ascii s = true /\ toUpper s = upper_ascii s /\ all_class (upper_ascii s) = true.
Proof.
  unfold fieldable. intros H. apply andb_true_iff in H as [H1 H2].
  split; [exact H1|]. split; [apply toUpper_ascii, H1 | exact H2].
Qed.

Lemma fieldable_length (s : string) : fieldable s = true -> length (toUpper s) = length s.
Proof. intros Hf. destruct (fieldable_upper s Hf) as (_ & -> & _). apply upper_ascii_length. Qed.

Lemma seg_upper (n : nat) (s : string) :
  length s = n -> fieldable s = true -> seg_ok n (toUpper s).
Proof.
  intros Hl Hf. destruct (fieldable_upper s Hf) as (_ & -> & C).
  split; [now rewrite upper_ascii_length | exact C].
Qed.

(** The identifier [Generate] returns for well-formed inputs: the time key,
    the upper-cased second and third components, six random bytes and the
    last byte, which is random without a secret and the checksum with one. *)
Lemma Generate_shape now draw ind vendor nType nSubType priLocation secret :
  (0 <= now <= maxInt64)%Z -> (forall j, draw j < 36)%nat ->
  defined_indicator ind = true ->
  length vendor = vendorLength -> fieldable vendor = true ->
  length nType = typeElementLength -> fieldable nType = true ->
  (length nSubType = typeElementLength -> fieldable nSubType = true) ->
  (length priLocation = priLocationLength -> fieldable priLocation = true) ->
  let b := ind ++ toUpper vendor ++ toUpper nType ++ toUpper (norm_subtype nType nSubType) in
  let c := toUpper (norm_location priLocation) in
  exists key s6 x,
    getBase32TimeKey now = Ok key /\ seg_ok 9 key /\
    timeFromKey key = Ok (now / 1000000 * 1000000)%Z /\
    seg_ok 8 b /\ seg_ok 5 c /\
    length s6 = 6%nat /\ all_class s6 = true /\ in_class x = true /\
    Generate now draw ind vendor nType nSubType priLocation secret =
    Ok (mk_id key b c (s6 ++ if (0 <? length secret)%nat
                              then md5_check_char secret (mk_pre key b c ++ s6)
                              else String x EmptyString)).
Proof.
  intros Hnow Hd Hind Hvl Hvf Htl Htf Hst Hloc b c.
  destruct (time_key_ok now Hnow) as (key & Hk & Hkey & Htime).
  destruct (defined_indicator_props ind Hind) as (Hiv & Hi1 & Hic & Hiu).
  destruct (rand_chars_ok draw randLen 0 Hd) as [Hrl Hrc].
  destruct (seg7_split (getRandString draw randLen) (conj Hrl Hrc))
    as (s6 & x & Hr & H6 & H6c & Hx).
  destruct (norm_subtype_ok nType nSubType Htl Htf Hst) as [Hsl Hsf].
  destruct (norm_location_ok priLocation Hloc) as [Hll Hlf].
  assert (Hb : seg_ok 8 b).
  { destruct (seg_upper _ _ Hvl Hvf) as [V1 V2].
    destruct (seg_upper _ _ Htl Htf) as [T1 T2].
    destruct (seg_upper _ _ Hsl Hsf) as [S1 S2].
    split; unfold b.
    - rewrite !length_app_str, Hi1, V1, T1, S1. reflexivity.
    - rewrite !all_class_app, Hic, V2, T2, S2. reflexivity. }
  assert (Hc : seg_ok 5 c) by (apply seg_upper; assumption).
  exists key, s6, x. do 8 (split; [assumption|]).
  rewrite (Generate_eq now draw ind vendor nType nSubType priLocation secret key Hk Hvl Htl).
  assert (Hn : norm_indicator ind = ind).
  { unfold norm_indicator. rewrite Hiv, Hi1. reflexivity. }
  rewrite Hn, Hr.
  assert (Hu : toUpper (key ++ String delimitChar (ind ++ vendor ++ nType ++
      norm_subtype nType nSubType ++ String delimitChar (norm_location priLocation ++
      String delimitChar (s6 ++ String x EmptyString))))
      = mk_pre key b c ++ (s6 ++ String x EmptyString)).
  { destruct (fieldable_upper _ Hvf) as (Va & Vu & _).
    destruct (fieldable_upper _ Htf) as (Ta & Tu & _).
    destruct (fieldable_upper _ Hsf) as (Sa & Su & _).
    destruct (fieldable_upper _ Hlf) as (La & Lu & _).
    rewrite <- mk_id_pre. unfold mk_id, b, c. rewrite Vu, Tu, Su, Lu.
    rewrite toUpper_ascii.
    2:{ repeat (rewrite is_ascii_app || rewrite is_ascii_delim).
        rewrite (all_class_ascii key (proj2 Hkey)), (all_class_ascii ind Hic),
          (all_class_ascii s6 H6c), (is_ascii_char x Hx), Va, Ta, Sa, La. reflexivity. }
    repeat (rewrite upper_ascii_app || rewrite upper_ascii_delim).
    rewrite (upper_ascii_class key (proj2 Hkey)), (upper_ascii_class ind Hic),
      (upper_ascii_class s6 H6c), (upper_ascii_char x Hx).
    rewrite !app_assoc_str. reflexivity. }
  rewrite Hu. unfold with_checksum.
  destruct (0 <? length secret)%nat.
  - assert (Hs : substring 0 (length (mk_pre key b c ++ (s6 ++ String x EmptyString)) - 1)
                   (mk_pre key b c ++ (s6 ++ String x EmptyString)) = mk_pre key b c ++ s6).
    { replace (length (mk_pre key b c ++ (s6 ++ String x EmptyString)) - 1)%nat
        with (length (mk_pre key b c) + (length s6 + 0))%nat
        by (rewrite !length_app_str; simpl; lia).
      rewrite !substring_prefix. cbn [substring]. rewrite app_nil_str. reflexivity. }
    cbv zeta. rewrite Hs, mk_id_pre, app_assoc_str. reflexivity.
  - rewrite mk_id_pre. reflexivity.
Qed.

(** ** Verify, GetTimeFromID and Describe on well-formed identifiers *)

Lemma Verify_mk_id_empty (a b c d : string) :
  seg_ok 9 a -> seg_ok 8 b -> seg_ok 5 c -> seg_ok 7 d ->
  Verify (mk_id a b c d) "" = (true, None).
Proof. intros. rewrite Verify_mk_id by assumption. reflexivity. Qed.

Lemma GetTimeFromID_mk_id (a b c d : string) :
  seg_ok 9 a -> seg_ok 8 b -> seg_ok 5 c -> seg_ok 7 d ->
  GetTimeFromID (mk_id a b c d) = timeFromKey a.
Proof.
  intros Ha Hb Hc Hd. unfold GetTimeFromID.
  rewrite Verify_mk_id_empty, split_mk_id by (apply Ha || apply Hb || apply Hc || apply Hd || assumption).
  reflexivity.
Qed.

Lemma Describe_mk_id (a b c d : string) :
  seg_ok 9 a -> seg_ok 8 b -> seg_ok 5 c -> seg_ok 7 d ->
  Describe (mk_id a b c d) =
  (t <- timeFromKey a ;;
   Ok {| Indicator := substring 0 1 b; VendorKey := substring 1 3 b;
         Type' := substring 4 2 b; SubType := substring 6 2 b;
         Location := c; TimeKey := a; Time := t; RandomString := d |}).
Proof.
  intros Ha Hb Hc Hd. unfold Describe.
  rewrite Verify_mk_id_empty, GetTimeFromID_mk_id, split_mk_id
    by (apply Ha || apply Hb || apply Hc || apply Hd || assumption).
  reflexivity.
Qed.

(** The last byte of a generated identifier sits at position 31, after the
    31 bytes the checksum is computed over. *)
Lemma mk_id_last (a b c s6 : string) (y : ascii) :
  length a = 9%nat -> length b = 8%nat -> length c = 5%nat -> length s6 = 6%nat ->
  substring 0 31 (mk_id a b c (s6 ++ String y EmptyString)) = mk_pre a b c ++ s6 /\
  substring 31 1 (mk_id a b c (s6 ++ String y EmptyString)) = String y EmptyString.
Proof.
  intros La Lb Lc L6. rewrite mk_id_pre.
  replace 31%nat with (length (mk_pre a b c) + (length s6 + 0))%nat
    by (rewrite length_mk_pre; lia).
  split.
  - rewrite !substring_prefix. cbn [substring]. now rewrite app_nil_str.
  - rewrite !substring_skip. reflexivity.
Qed.

Lemma seg7_app (s6 : string) (y : ascii) :
  length s6 = 6%nat -> all_class s6 = true -> in_class y = true ->
  seg_ok 7 (s6 ++ String y EmptyString).
Proof.
  intros L C Y. split.
  - rewrite length_app_str, L. reflexivity.
  - rewrite all_class_app, C. simpl. now rewrite Y.
Qed.

Lemma seg_ok_length (n : nat) (s : string) : seg_ok n s -> length s = n.
Proof. now intros [L _]. Qed.

(** [Generate] depends on the indicator, subtype and location only through
    their normalised forms. *)
Lemma Generate_unfold now draw ind vendor nType nSubType priLocation secret :
  Generate now draw ind vendor nType nSubType priLocation secret =
  match getBase32TimeKey now with
  | Err e => Err e
  | Ok key =>
      if negb (length vendor =? vendorLength)%nat then Err ErrVendorLength
      else if negb (length nType =? typeElementLength)%nat then Err ErrTypeLength
      else with_checksum secret
        (toUpper (key ++ String delimitChar (norm_indicator ind ++ vendor ++ nType ++
           norm_subtype nType nSubType ++ String delimitChar (norm_location priLocation ++
           String delimitChar (getRandString draw randLen)))))
  end.
Proof. unfold Generate, bind. destruct (getBase32TimeKey now); reflexivity. Qed.

Lemma is_ascii_repeat (n : nat) (s : string) :
  is_ascii s = true -> is_ascii (repeat_str n s) = true.
Proof.
  intros H. induction n as [|n IH]; [reflexivity|].
  cbn [repeat_str]. now rewrite is_ascii_app, H, IH.
Qed.

(** A time key is ASCII. *)
Lemma key_ascii (now : Z) (key : string) :
  getBase32TimeKey now = Ok key -> is_ascii key = true.
Proof.
  unfold getBase32TimeKey. rewrite toUpper_ascii by apply formatInt_ascii.
  assert (A : is_ascii (upper_ascii (formatInt (Z.quot now 1000000))) = true)
    by (rewrite is_ascii_upper; apply formatInt_ascii).
  destruct (_ <? 0)%Z; [discriminate|]. intros H. injection H as <-.
  destruct (0 <? _)%Z; [|exact A].
  rewrite is_ascii_app, A. now apply is_ascii_repeat.
Qed.

Lemma Generate_congr now draw vendor nType secret i1 i2 s1 s2 l1 l2 :
  (norm_indicator i1 = norm_indicator i2 \/
   is_ascii (norm_indicator i1) = true /\ is_ascii (norm_indicator i2) = true /\
   upper_ascii (norm_indicator i1) = upper_ascii (norm_indicator i2)) ->
  norm_subtype nType s1 = norm_subtype nType s2 ->
  norm_location l1 = norm_location l2 ->
  Generate now draw i1 vendor nType s1 l1 secret =
  Generate now draw i2 vendor nType s2 l2 secret.
Proof.
  intros Hi Hs Hl. rewrite !Generate_unfold, Hs, Hl.
  destruct (getBase32TimeKey now) as [key|e] eqn:K; [|reflexivity].
  do 2 (destruct (negb _); [reflexivity|]).
  f_equal. destruct Hi as [Hi|(A1 & A2 & Hi)]; [now rewrite Hi|].
  apply key_ascii in K.
  set (R := vendor ++ _).
  change (String delimitChar (?n ++ R)) with (String delimitChar n ++ R).
  rewrite <- !app_assoc_str, !toUpper_ascii_app
    by (rewrite !is_ascii_app, K; cbn [is_ascii]; rewrite ?A1, ?A2; reflexivity).
  rewrite !upper_ascii_app, upper_ascii_delim, Hi. reflexivity.
Qed.

(** An indicator [isValidIndicator] accepts is ASCII: upper-casing
    anything else leaves a byte that is not in [IndicatorChecksum]. *)
Lemma isValidIndicator_ascii (ind : string) : isValidIndicator ind = true -> is_ascii ind = true.
Proof.
  unfold isValidIndicator. intros H. destruct (is_ascii ind) eqn:A; [reflexivity|].
  exfalso. revert H. unfold toUpper. rewrite A. unfold Map.
  rewrite contains_checksum_foreign; [discriminate|].
  apply map_runes_foreign; [lia | exact A].
Qed.

Lemma norm_indicator_ascii (ind : string) : is_ascii (norm_indicator ind) = true.
Proof.
  unfold norm_indicator. destruct (isValidIndicator ind) eqn:V; cbn [negb orb]; [|reflexivity].
  destruct (length ind =? 0)%nat; [reflexivity|]. now apply isValidIndicator_ascii.
Qed.

Lemma rand_chars_ascii (draw : nat -> nat) (i n : nat) : is_ascii (rand_chars draw i n) = true.
Proof.
  revert i. induction n as [|n IH]; intros i; [reflexivity|]. cbn [rand_chars].
  destruct (get (draw i) letterBytes) as [c|] eqn:G; [|apply IH].
  cbn [is_ascii]. rewrite IH, (proj2 (Z.ltb_lt _ _) (get_ascii letterBytes _ c eq_refl G)).
  reflexivity.
Qed.

(** The string [Generate] upper-cases is ASCII when the caller's vendor,
    type, and the subtype and location it keeps, are. *)
Lemma pre_ascii (draw : nat -> nat) key ind vendor nType nSubType priLocation :
  is_ascii key = true -> is_ascii vendor = true -> is_ascii nType = true ->
  (length nSubType = typeElementLength -> is_ascii nSubType = true) ->
  (length priLocation = priLocationLength -> is_ascii priLocation = true) ->
  is_ascii (key ++ String delimitChar (norm_indicator ind ++ vendor ++ nType ++
     norm_subtype nType nSubType ++ String delimitChar (norm_location priLocation ++
     String delimitChar (getRandString draw randLen)))) = true.
Proof.
  intros Hk Hv Ht Hs Hl.
  assert (S : is_ascii (norm_subtype nType nSubType) = true).
  { unfold norm_subtype. destruct (Nat.eqb_spec (length nSubType) typeElementLength);
      cbn [negb]; auto. }
  assert (L : is_ascii (norm_location priLocation) = true).
  { unfold norm_location. destruct (Nat.eqb_spec (length priLocation) priLocationLength);
      cbn [negb]; auto. }
  rewrite !is_ascii_app, Hk, is_ascii_delim, !is_ascii_app, norm_indicator_ascii, Hv, Ht, S,
    is_ascii_delim, is_ascii_app, L, is_ascii_delim.
  apply rand_chars_ascii.
Qed.

Lemma isValidIndicator_char (x : ascii) :
  isValidIndicator (String x EmptyString) =
  defined_indicator (String (upper_char x) EmptyString).
Proof.
  unfold isValidIndicator. destruct (Z.ltb_spec (byte_of x) 128) as [Hx|Hx].
  - rewrite toUpper_char by exact Hx. clear Hx.
    destruct x as [[] [] [] [] [] [] [] []]; reflexivity.
  - rewrite toUpper_high_char by exact Hx.
    rewrite contains_checksum_foreign by reflexivity. revert Hx.
    destruct x as [[] [] [] [] [] [] [] []]; vm_compute;
      (reflexivity || (intros H; exfalso; apply H; reflexivity)).
Qed.

(** ** The regular expression only matches well-formed identifiers *)

Lemma class_n_some (n : nat) (s r : string) :
  class_n n s = Some r -> exists p, s = p ++ r /\ seg_ok n p.
Proof.
  revert s. induction n as [|n IH]; intros s H.
  - simpl in H. injection H as <-. exists EmptyString. split; [reflexivity|split; reflexivity].
  - destruct s as [|x s]; [discriminate|]. cbn [class_n] in H.
    destruct (in_class x) eqn:X; [|discriminate].
    destruct (IH s H) as (p & -> & Lp & Cp). exists (String x p).
    split; [reflexivity|]. split; simpl; [now rewrite Lp | now rewrite X, Cp].
Qed.

Lemma lit_some (s r : string) : lit "-" s = Some r -> s = String delimitChar r.
Proof.
  destruct s as [|x s]; [discriminate|]. cbn [lit].
  destruct (Ascii.eqb_spec x "-"); [|discriminate]. intros H. injection H as <-.
  subst x. reflexivity.
Qed.

Lemma regex_at_inv (s : string) :
  regex_at s = true ->
  exists a b c d, s = mk_id a b c d /\ seg_ok 9 a /\ seg_ok 8 b /\ seg_ok 5 c /\ seg_ok 7 d.
Proof.
  unfold regex_at.
  destruct (class_n 9 s) as [r1|] eqn:E1; cbn [obind]; [|discriminate].
  destruct (lit "-" r1) as [r2|] eqn:E2; cbn [obind]; [|discriminate].
  destruct (class_n 8 r2) as [r3|] eqn:E3; cbn [obind]; [|discriminate].
  destruct (lit "-" r3) as [r4|] eqn:E4; cbn [obind]; [|discriminate].
  destruct (class_n 5 r4) as [r5|] eqn:E5; cbn [obind]; [|discriminate].
  destruct (lit "-" r5) as [r6|] eqn:E6; cbn [obind]; [|discriminate].
  destruct (class_n 7 r6) as [[|y r7]|] eqn:E7; intros H; try discriminate.
  apply class_n_some in E1 as (a & -> & Ha). apply lit_some in E2 as ->.
  apply class_n_some in E3 as (b & -> & Hb). apply lit_some in E4 as ->.
  apply class_n_some in E5 as (c & -> & Hc). apply lit_some in E6 as ->.
  apply class_n_some in E7 as (d & -> & Hd).
  exists a, b, c, d. rewrite app_nil_str. auto.
Qed.

Lemma regex_find_long (s : string) : regex_find s = true -> (32 <= length s)%nat.
Proof.
  induction s as [|x s IH]; simpl regex_find.
  - discriminate.
  - intros H. apply orb_true_iff in H as [H|H].
    + destruct (regex_at_inv _ H) as (a & b & c & d & -> & Ha & Hb & Hc & Hd).
      rewrite length_mk_id, (seg_ok_length _ _ Ha), (seg_ok_length _ _ Hb),
        (seg_ok_length _ _ Hc), (seg_ok_length _ _ Hd). lia.
    + simpl. specialize (IH H). lia.
Qed.

Lemma regex_find_32 (s : string) :
  length s = 32%nat -> regex_find s = true -> regex_at s = true.
Proof.
  intros L. destruct s as [|x r]; [discriminate|]. simpl regex_find.
  intros H. apply orb_true_iff in H as [H|H]; [exact H|].
  apply regex_find_long in H. simpl in L. lia.
Qed.

Lemma canon_block (i : nat) (p q : string) :
  all_class p = true ->
  (forall j, (i <= j < i + length p)%nat -> dash_pos j = false /\ (j < idLength)%nat) ->
  canon_from i (p ++ q) = canon_from (i + length p) q.
Proof.
  revert i. induction p as [|x p IH]; intros i Cp Hj.
  - simpl. now rewrite Nat.add_0_r.
  - simpl in Cp |- *. apply andb_true_iff in Cp as [Cx Cp].
    destruct (Hj i) as [D L]; [simpl; lia|].
    rewrite D, Cx, (proj2 (Nat.ltb_lt _ _) L). simpl.
    rewrite IH by (assumption || (intros j Hj'; apply Hj; simpl; lia)).
    f_equal. lia.
Qed.

Lemma canonical_mk_id (a b c d : string) :
  seg_ok 9 a -> seg_ok 8 b -> seg_ok 5 c -> seg_ok 7 d ->
  canonical (mk_id a b c d) = true.
Proof.
  intros [La Ca] [Lb Cb] [Lc Cc] [Ld Cd].
  assert (R : forall lo hi j, (lo <= j < hi)%nat -> (hi <= 32)%nat ->
                (9 < lo \/ hi <= 9)%nat -> (18 < lo \/ hi <= 18)%nat ->
                (24 < lo \/ hi <= 24)%nat ->
                dash_pos j = false /\ (j < idLength)%nat).
  { intros lo hi j Hj H32 H9 H18 H24. unfold dash_pos, idLength. split; [|lia].
    rewrite (proj2 (Nat.eqb_neq j 9)), (proj2 (Nat.eqb_neq j 18)),
      (proj2 (Nat.eqb_neq j 24)) by lia. reflexivity. }
  unfold canonical, mk_id. rewrite <- (app_nil_str d).
  rewrite canon_block by (assumption || (intros j Hj; apply (R 0 9); lia)).
  rewrite La. cbn [canon_from]. simpl (_ && _).
  rewrite canon_block by (assumption || (intros j Hj; apply (R 10 18); lia)).
  rewrite Lb. cbn [canon_from]. simpl (_ && _).
  rewrite canon_block by (assumption || (intros j Hj; apply (R 19 24); lia)).
  rewrite Lc. cbn [canon_from]. simpl (_ && _).
  rewrite canon_block by (assumption || (intros j Hj; apply (R 25 32); lia)).
  rewrite Ld. reflexivity.
Qed.

(** ** Consequences for generated identifiers *)

Lemma fields_8 (i v t s : string) :
  length i = 1%nat -> length v = 3%nat -> length t = 2%nat -> length s = 2%nat ->
  substring 0 1 (i ++ v ++ t ++ s) = i /\ substring 1 3 (i ++ v ++ t ++ s) = v /\
  substring 4 2 (i ++ v ++ t ++ s) = t /\ substring 6 2 (i ++ v ++ t ++ s) = s.
Proof.
  intros Li Lv Lt Ls.
  destruct i as [|i1 [|]]; try discriminate.
  destruct v as [|v1 [|v2 [|v3 [|]]]]; try discriminate.
  destruct t as [|t1 [|t2 [|]]]; try discriminate.
  destruct s as [|s1 [|s2 [|]]]; try discriminate.
  repeat split; reflexivity.
Qed.

Lemma suffix_ok (s6 : string) (x : ascii) (secret p : string) :
  length s6 = 6%nat -> all_class s6 = true -> in_class x = true ->
  seg_ok 7 (s6 ++ if (0 <? length secret)%nat then md5_check_char secret p
                   else String x EmptyString).
Proof.
  intros L C X. destruct (0 <? length secret)%nat.
  - destruct (md5_check_char_shape secret p) as (y & -> & Y). now apply seg7_app.
  - now apply seg7_app.
Qed.

Lemma Generate_decode now draw ind vendor nType nSubType priLocation secret :
  (0 <= now <= maxInt64)%Z -> (forall j, draw j < 36)%nat ->
  defined_indicator ind = true ->
  length vendor = vendorLength -> fieldable vendor = true ->
  length nType = typeElementLength -> fieldable nType = true ->
  (length nSubType = typeElementLength -> fieldable nSubType = true) ->
  (length priLocation = priLocationLength -> fieldable priLocation = true) ->
  exists id, Generate now draw ind vendor nType nSubType priLocation secret = Ok id /\
             GetTimeFromID id = Ok (now / 1000000 * 1000000)%Z.
Proof.
  intros Hn Hd Hi Hvl Hvf Htl Htf Hs Hl.
  pose proof (Generate_shape now draw ind vendor nType nSubType priLocation secret
                Hn Hd Hi Hvl Hvf Htl Htf Hs Hl) as G. cbv zeta in G.
  destruct G as (key & s6 & x & _ & Hk & Ht & Hb & Hc & H6 & H6c & Hx & Hg).
  eexists. split; [exact Hg|].
  rewrite GetTimeFromID_mk_id by (assumption || now apply suffix_ok). exact Ht.
Qed.

Lemma Z_trunc_ms (now : Z) : (0 <= now - now / 1000000 * 1000000 < 1000000)%Z.
Proof.
  pose proof (Z.mod_pos_bound now 1000000) as M. pose proof (Z.div_mod now 1000000) as D.
  lia.
Qed.

(** * The claims *)


(** C2 (amended): with a non-empty secret, [Verify] with that secret accepts
    the identifier [Generate] returns, provided the vendor, type, subtype and
    location are made of ASCII letters, digits and [=] (the pattern check of
    [Verify] comes before the checksum) and the instant is representable. *)
Theorem C2_checksum_roundtrip now draw ind vendor nType nSubType priLocation secret :
  (0 <= now <= maxInt64)%Z -> (forall j, draw j < 36)%nat ->
  defined_indicator ind = true ->
  length vendor = vendorLength -> fieldable vendor = true ->
  length nType = typeElementLength -> fieldable nType = true ->
  (length nSubType = typeElementLength -> fieldable nSubType = true) ->
  (length priLocation = priLocationLength -> fieldable priLocation = true) ->
  (0 < length secret)%nat ->
  exists id, Generate now draw ind vendor nType nSubType priLocation secret = Ok id /\
             Verify id secret = (true, None).
Proof.
  intros Hn Hd Hi Hvl Hvf Htl Htf Hs Hl Hsec.
  pose proof (Generate_shape now draw ind vendor nType nSubType priLocation secret
                Hn Hd Hi Hvl Hvf Htl Htf Hs Hl) as G. cbv zeta in G.
  destruct G as (key & s6 & x & _ & Hk & Ht & Hb & Hc & H6 & H6c & Hx & Hg).
  apply Nat.ltb_lt in Hsec. rewrite Hsec in Hg.
  set (b := ind ++ _) in Hg, Hb. set (c := toUpper _) in Hg, Hc.
  destruct (md5_check_char_shape secret (mk_pre key b c ++ s6)) as (y & Hm & Hy).
  rewrite Hm in Hg. eexists. split; [exact Hg|].
  rewrite Verify_mk_id by (assumption || now apply seg7_app).
  destruct (mk_id_last key b c s6 y (proj1 Hk) (proj1 Hb) (proj1 Hc) H6) as [E1 E2].
  rewrite E1, E2, Hm, String.eqb_refl.
  destruct secret; [discriminate | reflexivity].
Qed.

(** C3: the indicator ["EL"] is a substring of [IndicatorChecksum], so
    [isValidIndicator] accepts it and [Generate] keeps both bytes: it
    succeeds with a 33-byte string, which [Verify] rejects for its length. *)
Theorem C3_two_byte_indicator :
  isValidIndicator "EL" = true /\
  Generate 1760000000000000000 (fun i => i) "EL" "FOR" "TE" "ST" "" ""
    = Ok "MGJ6K3CW=-ELFORTEST-MISCR-0123456" /\
  length "MGJ6K3CW=-ELFORTEST-MISCR-0123456" = 33%nat /\
  Verify "MGJ6K3CW=-ELFORTEST-MISCR-0123456" "" = (false, Some ErrInvalidLength).
Proof. repeat split; vm_compute; reflexivity. Qed.

(** C4 (amended): normalisation for indicators of at most one byte.  The
    empty indicator and a one-byte indicator whose upper-case form is not a
    defined indicator give the same result as [IndicatorEntity]; a one-byte
    indicator whose upper-case form is defined gives the same result as that
    upper-case form (so a lower-case indicator is kept, not replaced); a
    subtype not 2 bytes long gives the same result as the type; a location
    not 5 bytes long gives the same result as ["MISCR"]; and none of these
    makes [Generate] fail: with a representable instant, a 3-byte vendor and
    a 2-byte type it always succeeds. *)
Theorem C4_normalization (now : Z) (draw : nat -> nat) (vendor nType secret : string) :
  (forall ind nSubType priLocation,
     (ind = EmptyString \/ (length ind = 1%nat /\ defined_indicator (toUpper ind) = false)) ->
     Generate now draw ind vendor nType nSubType priLocation secret =
     Generate now draw IndicatorEntity vendor nType nSubType priLocation secret) /\
  (forall ind nSubType priLocation,
     length ind = 1%nat -> defined_indicator (toUpper ind) = true ->
     Generate now draw ind vendor nType nSubType priLocation secret =
     Generate now draw (toUpper ind) vendor nType nSubType priLocation secret) /\
  (forall ind nSubType priLocation,
     length nSubType <> typeElementLength ->
     Generate now draw ind vendor nType nSubType priLocation secret =
     Generate now draw ind vendor nType nType priLocation secret) /\
  (forall ind nSubType priLocation,
     length priLocation <> priLocationLength ->
     Generate now draw ind vendor nType nSubType priLocation secret =
     Generate now draw ind vendor nType nSubType unknownLocationValue secret) /\
  ((0 <= now <= maxInt64)%Z -> length vendor = vendorLength ->
   length nType = typeElementLength ->
   forall ind nSubType priLocation,
     exists id, Generate now draw ind vendor nType nSubType priLocation secret = Ok id).
Proof.
  split; [|split; [|split; [|split]]].
  - intros ind st loc H. apply Generate_congr; [left|reflexivity|reflexivity].
    destruct H as [->|[L D]]; [reflexivity|].
    destruct ind as [|x [|]]; try discriminate.
    unfold norm_indicator. rewrite isValidIndicator_char.
    destruct (Z.ltb_spec (byte_of x) 128) as [Hx|Hx].
    + rewrite toUpper_char in D by exact Hx. rewrite D. reflexivity.
    + replace (defined_indicator (String (upper_char x) EmptyString)) with false;
        [reflexivity|].
      revert Hx. destruct x as [[] [] [] [] [] [] [] []]; vm_compute;
        (reflexivity || (intros H; exfalso; apply H; reflexivity)).
  - intros ind st loc L D. apply Generate_congr; [right|reflexivity|reflexivity].
    destruct ind as [|x [|]]; try discriminate.
    destruct (Z.ltb_spec (byte_of x) 128) as [Hx|Hx];
      [|rewrite toUpper_high_char in D by exact Hx; discriminate D].
    rewrite toUpper_char in D |- * by exact Hx.
    unfold norm_indicator. rewrite !isValidIndicator_char, upper_char_idem, D. cbn [negb orb].
    cbn [length Nat.eqb]. cbn [is_ascii upper_ascii].
    rewrite upper_char_idem, !upper_char_byte, (proj2 (Z.ltb_lt _ _) Hx). auto.
  - intros ind st loc L. apply Generate_congr; [left; reflexivity| |reflexivity].
    unfold norm_subtype. rewrite (proj2 (Nat.eqb_neq _ _) L).
    now destruct (length nType =? typeElementLength)%nat.
  - intros ind st loc L. apply Generate_congr; [left; reflexivity|reflexivity|].
    unfold norm_location. rewrite (proj2 (Nat.eqb_neq _ _) L). reflexivity.
  - intros Hn Hv Ht ind st loc.
    destruct (time_key_ok now Hn) as (key & Hk & _ & _).
    rewrite (Generate_eq now draw ind vendor nType st loc secret key Hk Hv Ht).
    unfold with_checksum. destruct (0 <? length secret)%nat; eexists; reflexivity.
Qed.

(** C5: for the structurally valid identifier whose time component is
    ["ZZZZZZZZZ"] the parsed millisecond count is 101559956668415, but
    [GetTimeFromID] multiplies it by [time.Millisecond] in [int64], which
    wraps, and returns a negative instant instead of that count of
    milliseconds. *)
Theorem C5_time_overflow :
  Verify "ZZZZZZZZZ-EABCCDEF-MISCR-AAAAAAA" "" = (true, None) /\
  parseInt (remove_all paddingChar "ZZZZZZZZZ") = Ok 101559956668415%Z /\
  GetTimeFromID "ZZZZZZZZZ-EABCCDEF-MISCR-AAAAAAA" = Ok (-9120507773842309696)%Z /\
  (-9120507773842309696 <> 101559956668415 * 1000000)%Z.
Proof.
  split; [vm_compute; reflexivity|]. split; [vm_compute; reflexivity|].
  split; [vm_compute; reflexivity|]. lia.
Qed.

(** C6 (amended): the checksum is one hex digit of the digest, so another
    secret is rejected exactly when its checksum digit over the same 31 bytes
    differs from the one of the generating secret; otherwise it is accepted.
    The fields are as in C1: ASCII letters, digits and [=]. *)
Theorem C6_wrong_secret now draw ind vendor nType nSubType priLocation secret secret' :
  (0 <= now <= maxInt64)%Z -> (forall j, draw j < 36)%nat ->
  defined_indicator ind = true ->
  length vendor = vendorLength -> fieldable vendor = true ->
  length nType = typeElementLength -> fieldable nType = true ->
  (length nSubType = typeElementLength -> fieldable nSubType = true) ->
  (length priLocation = priLocationLength -> fieldable priLocation = true) ->
  (0 < length secret)%nat -> (0 < length secret')%nat ->
  exists id, Generate now draw ind vendor nType nSubType priLocation secret = Ok id /\
    Verify id secret' =
      if String.eqb (md5_check_char secret' (substring 0 31 id))
                    (md5_check_char secret (substring 0 31 id))
      then (true, None) else (false, Some ErrChecksum).
Proof.
  intros Hn Hd Hi Hvl Hvf Htl Htf Hs Hl Hsec Hsec'.
  pose proof (Generate_shape now draw ind vendor nType nSubType priLocation secret
                Hn Hd Hi Hvl Hvf Htl Htf Hs Hl) as G. cbv zeta in G.
  destruct G as (key & s6 & x & _ & Hk & Ht & Hb & Hc & H6 & H6c & Hx & Hg).
  apply Nat.ltb_lt in Hsec. rewrite Hsec in Hg.
  set (b := ind ++ _) in Hg, Hb. set (c := toUpper _) in Hg, Hc.
  destruct (md5_check_char_shape secret (mk_pre key b c ++ s6)) as (y & Hm & Hy).
  rewrite Hm in Hg. eexists. split; [exact Hg|].
  rewrite Verify_mk_id by (assumption || now apply seg7_app).
  destruct (mk_id_last key b c s6 y (proj1 Hk) (proj1 Hb) (proj1 Hc) H6) as [E1 E2].
  rewrite E1, E2, Hm.
  destruct secret' as [|z secret']; [simpl in Hsec'; lia|]. cbn [String.eqb negb].
  now destruct (String.eqb _ _).
Qed.

(** C7 (amended): for instants [t1 <= t2] in [[0, maxInt64]] nanoseconds, the
    identifiers [Generate] returns decode to the instants truncated to the
    millisecond; the decoded times never decrease, and they strictly
    increase when [t1] and [t2] fall in different milliseconds.  The fields
    are as in C1: ASCII letters, digits and [=]. *)
Theorem C7_time_monotone t1 t2 draw1 draw2 ind vendor nType nSubType priLocation secret :
  (0 <= t1)%Z -> (t1 <= t2)%Z -> (t2 <= maxInt64)%Z ->
  (forall j, draw1 j < 36)%nat -> (forall j, draw2 j < 36)%nat ->
  defined_indicator ind = true ->
  length vendor = vendorLength -> fieldable vendor = true ->
  length nType = typeElementLength -> fieldable nType = true ->
  (length nSubType = typeElementLength -> fieldable nSubType = true) ->
  (length priLocation = priLocationLength -> fieldable priLocation = true) ->
  exists id1 id2 m1 m2,
    Generate t1 draw1 ind vendor nType nSubType priLocation secret = Ok id1 /\
    Generate t2 draw2 ind vendor nType nSubType priLocation secret = Ok id2 /\
    GetTimeFromID id1 = Ok m1 /\ GetTimeFromID id2 = Ok m2 /\
    m1 = (t1 / 1000000 * 1000000)%Z /\ m2 = (t2 / 1000000 * 1000000)%Z /\
    (m1 <= m2)%Z /\ (t1 / 1000000 < t2 / 1000000 -> m1 < m2)%Z.
Proof.
  intros H1 H12 H2 Hd1 Hd2 Hi Hvl Hvf Htl Htf Hs Hl.
  destruct (Generate_decode t1 draw1 ind vendor nType nSubType priLocation secret)
    as (id1 & G1 & D1); try assumption; [lia|].
  destruct (Generate_decode t2 draw2 ind vendor nType nSubType priLocation secret)
    as (id2 & G2 & D2); try assumption; [lia|].
  exists id1, id2, (t1 / 1000000 * 1000000)%Z, (t2 / 1000000 * 1000000)%Z.
  do 6 (split; [assumption || reflexivity|]).
  pose proof (Z.div_le_mono t1 t2 1000000 ltac:(lia) H12). split; lia.
Qed.

(** C8: a string that is not [canonical] (not 32 bytes, or a [-] missing at
    position 9, 18 or 24, or a byte outside [[A-Z0-9=]] at another position)
    is rejected by [Verify], with any secret, with the length, format or
    element-count error.  [Verify] is a total function of its inputs: it
    returns a result on every string. *)
Theorem C8_reject_malformed (s secret : string) :
  canonical s = false ->
  exists e, Verify s secret = (false, Some e) /\
            (e = ErrInvalidLength \/ e = ErrInvalidFormat \/ e = ErrElementCount).
Proof.
  intros Hc. unfold Verify.
  destruct (length s =? idLength)%nat eqn:L; cbn [negb];
    [|eexists; split; [reflexivity | auto]].
  destruct (regex_find s) eqn:R; cbn [negb];
    [|eexists; split; [reflexivity | auto]].
  exfalso. apply Nat.eqb_eq in L. apply regex_find_32 in R; [|exact L].
  destruct (regex_at_inv _ R) as (a & b & c & d & -> & Ha & Hb & Hc' & Hd).
  rewrite canonical_mk_id in Hc by assumption. discriminate.
Qed.

(** C9: the literal identifier passes [Verify] with the empty secret. *)
Theorem C9_literal :
  Verify "IPIH7MI2=-EABCCDEF-MISCR-V669VFQ" "" = (true, None).
Proof. vm_compute. reflexivity. Qed.

(** C10: an identifier whose time component is nine padding bytes and whose
    other components are class bytes of the right widths passes [Verify]
    with the empty secret, while [GetTimeFromID] fails (removing every
    padding byte leaves the empty string, a syntax error for [ParseInt]) and
    so does [Describe]. *)
Theorem C10_all_padding_time (b c d : string) :
  seg_ok 8 b -> seg_ok 5 c -> seg_ok 7 d ->
  Verify (mk_id "=========" b c d) "" = (true, None) /\
  GetTimeFromID (mk_id "=========" b c d) = Err ErrSyntax /\
  is_err (Describe (mk_id "=========" b c d)) = true.
Proof.
  intros Hb Hc Hd.
  assert (Ha : seg_ok 9 "=========") by (split; reflexivity).
  split; [now apply Verify_mk_id_empty|].
  split; [rewrite GetTimeFromID_mk_id by assumption; reflexivity|].
  rewrite Describe_mk_id by assumption. reflexivity.
Qed.

(** * Further properties of the current revision *)

(** ** Helpers *)

Lemma key_length (now : Z) (key : string) :
  getBase32TimeKey now = Ok key -> length key = timeKeyLength.
Proof.
  unfold getBase32TimeKey. cbv zeta.
  generalize (toUpper (formatInt (Z.quot now 1000000))) as T. intros T.
  destruct ((Z.of_nat (length T) - Z.of_nat timeKeyLength) * -1 <? 0)%Z eqn:E1;
    [discriminate|].
  intros H. injection H as <-. apply Z.ltb_ge in E1. unfold timeKeyLength in *.
  destruct (0 <? _)%Z eqn:E2.
  - rewrite length_app_str. destruct (pads_props (Z.to_nat ((Z.of_nat (length T) - 9) * -1)))
      as [P _]. unfold pads in P. rewrite P. lia.
  - apply Z.ltb_ge in E2. lia.
Qed.

Lemma substring_length (n : nat) (s : string) :
  (n <= length s)%nat -> length (substring 0 n s) = n.
Proof.
  revert n. induction s as [|x s IH]; intros n H; destruct n as [|n]; simpl in *;
    [reflexivity | lia | reflexivity | rewrite IH; lia].
Qed.

Lemma upper_ascii_substring (n m : nat) (s : string) :
  upper_ascii (substring n m s) = substring n m (upper_ascii s).
Proof.
  revert n m. induction s as [|x s IH]; intros n m; destruct n as [|n], m as [|m];
    simpl; try reflexivity; try (now rewrite IH); apply IH.
Qed.

Lemma is_ascii_substring (n m : nat) (s : string) :
  is_ascii s = true -> is_ascii (substring n m s) = true.
Proof.
  revert n m. induction s as [|x s IH]; intros n m H; destruct n as [|n], m as [|m];
    simpl in *; try reflexivity; apply andb_true_iff in H as [H1 H2]; auto.
  now rewrite H1, IH.
Qed.

Lemma md5_check_char_upper (secret s : string) :
  is_ascii (md5_check_char secret s) = true /\
  upper_ascii (md5_check_char secret s) = md5_check_char secret s.
Proof.
  destruct (md5_check_char_shape secret s) as (y & -> & C).
  split; [now apply is_ascii_char | now apply upper_ascii_char].
Qed.

Lemma md5_check_char_len (secret s : string) : length (md5_check_char secret s) = 1%nat.
Proof. destruct (md5_check_char_shape secret s) as (y & -> & _). reflexivity. Qed.

Lemma with_checksum_length (secret p id : string) :
  with_checksum secret p = Ok id -> (1 <= length p)%nat -> length id = length p.
Proof.
  unfold with_checksum. destruct (0 <? length secret)%nat; intros H L;
    injection H as <-; [|reflexivity].
  rewrite length_app_str, md5_check_char_len, substring_length by lia. lia.
Qed.

Lemma with_checksum_upper (secret p id : string) :
  with_checksum secret p = Ok id -> is_ascii p = true -> upper_ascii p = p ->
  toUpper id = id.
Proof.
  unfold with_checksum. destruct (md5_check_char_upper secret (substring 0 (length p - 1) p))
    as [M1 M2].
  destruct (0 <? length secret)%nat; intros H A U; injection H as <-.
  - rewrite toUpper_ascii by (rewrite is_ascii_app, M1, is_ascii_substring by exact A;
      reflexivity).
    rewrite upper_ascii_app, upper_ascii_substring, U, M2. reflexivity.
  - now rewrite toUpper_ascii.
Qed.

Lemma with_checksum_head (secret q id : string) (c : ascii) :
  with_checksum secret (String c q) = Ok id -> (1 <= length q)%nat ->
  exists r, id = String c r.
Proof.
  unfold with_checksum. destruct (0 <? length secret)%nat; intros H L;
    injection H as <-; [|eexists; reflexivity].
  destruct q as [|y q]; [simpl in L; lia|].
  cbn [length Nat.sub substring String.append]. eexists. reflexivity.
Qed.

Lemma norm_indicator_length (ind : TypeIndicator) :
  (length ind <= 1)%nat -> length (norm_indicator ind) = 1%nat.
Proof.
  intros H. unfold norm_indicator.
  destruct ind as [|x [|y r]]; [reflexivity | | simpl in H; lia].
  destruct (_ || _); reflexivity.
Qed.

Lemma norm_subtype_length (nType nSubType : string) :
  length nType = typeElementLength -> length (norm_subtype nType nSubType) = typeElementLength.
Proof.
  intros H. unfold norm_subtype.
  destruct (length nSubType =? typeElementLength)%nat eqn:E; simpl; [|exact H].
  now apply Nat.eqb_eq.
Qed.

Lemma norm_location_length (priLocation : string) :
  length (norm_location priLocation) = priLocationLength.
Proof.
  unfold norm_location.
  destruct (length priLocation =? priLocationLength)%nat eqn:E; simpl; [|reflexivity].
  now apply Nat.eqb_eq.
Qed.

Lemma regex_at_dash (r : string) : regex_at (String delimitChar r) = false.
Proof. reflexivity. Qed.

Lemma Verify_dash_head (r secret : string) : fst (Verify (String delimitChar r) secret) = false.
Proof.
  unfold Verify.
  destruct (length (String delimitChar r) =? idLength)%nat eqn:L; cbn [negb]; [|reflexivity].
  apply Nat.eqb_eq in L. simpl in L.
  destruct (regex_find (String delimitChar r)) eqn:R; cbn [negb]; [|reflexivity].
  exfalso. cbn [regex_find] in R. rewrite regex_at_dash in R. cbn [orb] in R.
  apply regex_find_long in R. unfold idLength in L. lia.
Qed.

Lemma key_head_neg (now : Z) (key : string) :
  (now <= -1000000)%Z -> getBase32TimeKey now = Ok key -> exists r, key = String delimitChar r.
Proof.
  intros Hn. unfold getBase32TimeKey, formatInt. cbv zeta.
  assert (Hq : (Z.quot now 1000000 < 0)%Z).
  { rewrite <- (Z.opp_involutive now), Z.quot_opp_l by lia.
    assert (1 <= Z.quot (- now) 1000000)%Z.
    { rewrite Z.quot_div_nonneg by lia. apply Z.div_le_lower_bound; lia. }
    lia. }
  apply Z.ltb_lt in Hq. rewrite Hq.
  generalize (format_bits 64 (- Z.quot now 1000000)). intros F.
  change (String "-" F) with (String delimitChar F). rewrite toUpper_delim.
  set (p := ((Z.of_nat (length (String delimitChar (toUpper F))) -
              Z.of_nat timeKeyLength) * -1)%Z).
  destruct (p <? 0)%Z; [intros H; discriminate H|].
  destruct (0 <? p)%Z; intros H; injection H as <-; eexists; reflexivity.
Qed.

Lemma class_digit_char (c : ascii) :
  in_class c = true -> Ascii.eqb c paddingChar = false ->
  digits_ok (String c EmptyString) = true.
Proof.
  destruct c as [[] [] [] [] [] [] [] []]; intros H1 H2;
    first [reflexivity | discriminate H1 | discriminate H2].
Qed.

Lemma remove_pad_digits (s : string) :
  all_class s = true -> digits_ok (remove_all paddingChar s) = true.
Proof.
  induction s as [|x s IH]; [reflexivity|]. simpl. intros H.
  apply andb_true_iff in H as [Hx Hs].
  destruct (Ascii.eqb x paddingChar) eqn:E; [now apply IH|].
  pose proof (class_digit_char x Hx E) as D. simpl in D |- *.
  rewrite andb_true_r in D. rewrite D. now apply IH.
Qed.

Lemma remove_all_length (x : ascii) (s : string) :
  (length (remove_all x s) <= length s)%nat.
Proof.
  induction s as [|y s IH]; simpl; [lia|]. destruct (Ascii.eqb y x); simpl; lia.
Qed.

Lemma val_acc_bound (s : string) (acc : Z) :
  digits_ok s = true -> (0 <= acc)%Z ->
  (val_acc s acc < (acc + 1) * timeKeyBase ^ Z.of_nat (length s))%Z.
Proof.
  revert acc. induction s as [|x s IH]; intros acc Hs Ha; cbn [val_acc length];
    [simpl; lia|].
  simpl in Hs. apply andb_true_iff in Hs as [Hs Hr].
  apply andb_true_iff in Hs as [_ Hd].
  unfold dval. destruct (digit_val x) as [d|] eqn:Ed; [|discriminate].
  apply Z.ltb_lt in Hd. pose proof (digit_val_nonneg x d Ed) as D0.
  specialize (IH (acc * timeKeyBase + d)%Z Hr ltac:(unfold timeKeyBase in *; lia)).
  rewrite Nat2Z.inj_succ, Z.pow_succ_r by lia.
  assert (0 < timeKeyBase ^ Z.of_nat (length s))%Z by (apply Z.pow_pos_nonneg; unfold timeKeyBase; lia).
  unfold timeKeyBase in *. nia.
Qed.

Lemma hex_digit_upper (v : Z) :
  (0 <= v < 16)%Z -> hex_upper (upper_char (hex_digit v)) = true.
Proof.
  intros Hv. rewrite <- (Z2Nat.id v) by lia.
  assert (Hn : (Z.to_nat v < 16)%nat) by lia.
  generalize (Z.to_nat v) Hn. clear v Hv Hn. intros n Hn.
  do 16 (destruct n as [|n]; [reflexivity|]). lia.
Qed.

Lemma md5_check_char_hex (secret s : string) :
  exists x, md5_check_char secret s = String x EmptyString /\ hex_upper x = true.
Proof.
  unfold md5_check_char.
  destruct (md5_sum_first (bytes (secret ++ s))) as (x & rest & -> & Hx).
  assert (Hv : (0 <= Z.shiftr x 4 < 16)%Z).
  { rewrite Z.shiftr_div_pow2 by lia. split.
    - apply Z.div_pos; lia.
    - apply Z.div_lt_upper_bound; simpl; lia. }
  cbn [hex_encode fold_right].
  rewrite toUpper_char by (apply upper_class_ascii, hex_digit_class, Hv).
  eexists. split; [reflexivity|]. apply hex_digit_upper, Hv.
Qed.

Lemma canon_from_len (i : nat) (s : string) :
  canon_from i s = true -> (i + length s = idLength)%nat.
Proof.
  revert i. induction s as [|x s IH]; intros i H; simpl in H |- *.
  - apply Nat.eqb_eq in H. lia.
  - apply andb_true_iff in H as [_ H]. apply IH in H. lia.
Qed.

Lemma noncanonical_rejected (s secret : string) :
  canonical s = false ->
  exists e, Verify s secret = (false, Some e) /\
            (e = ErrInvalidLength \/ e = ErrInvalidFormat \/ e = ErrElementCount).
Proof.
  intros Hc. unfold Verify.
  destruct (length s =? idLength)%nat eqn:L; cbn [negb];
    [|eexists; split; [reflexivity | auto]].
  destruct (regex_find s) eqn:R; cbn [negb];
    [|eexists; split; [reflexivity | auto]].
  exfalso. apply Nat.eqb_eq in L. apply regex_find_32 in R; [|exact L].
  destruct (regex_at_inv _ R) as (a & b & c & d & -> & Ha & Hb & Hc' & Hd).
  rewrite canonical_mk_id in Hc by assumption. discriminate.
Qed.

Lemma canon_take (n i : nat) (s : string) :
  (i + n <= idLength)%nat ->
  (forall j, (i <= j < i + n)%nat -> dash_pos j = false) ->
  canon_from i s = true ->
  exists p q, s = p ++ q /\ seg_ok n p /\ canon_from (i + n) q = true.
Proof.
  revert i s. induction n as [|n IH]; intros i s Hn Hj H.
  - exists EmptyString, s. rewrite Nat.add_0_r. repeat split; auto.
  - destruct s as [|x s].
    + cbn [canon_from] in H. apply Nat.eqb_eq in H. unfold idLength in *. lia.
    + cbn [canon_from] in H. rewrite (Hj i) in H by lia.
      apply andb_true_iff in H as [H Hr]. apply andb_true_iff in H as [_ Hx].
      destruct (IH (S i) s) as (p & q & -> & [Lp Cp] & Hq);
        [lia | intros j Hj'; apply Hj; lia | exact Hr |].
      exists (String x p), q. split; [reflexivity|].
      split; [split; simpl; [now rewrite Lp | now rewrite Hx, Cp]|].
      now replace (i + S n)%nat with (S i + n)%nat by lia.
Qed.

Lemma canon_dash (i : nat) (s : string) :
  dash_pos i = true -> canon_from i s = true ->
  exists q, s = String delimitChar q /\ canon_from (S i) q = true.
Proof.
  intros Hd H. destruct s as [|x s].
  - cbn [canon_from] in H. apply Nat.eqb_eq in H. subst i. discriminate Hd.
  - cbn [canon_from] in H. rewrite Hd in H.
    apply andb_true_iff in H as [H Hr]. apply andb_true_iff in H as [_ Hx].
    apply Ascii.eqb_eq in Hx. subst x. eexists. split; [reflexivity | exact Hr].
Qed.

(** A canonical string is four class segments of widths 9, 8, 5 and 7
    joined by the delimiter. *)
Lemma canonical_inv (s : string) :
  canonical s = true ->
  exists a b c d, s = mk_id a b c d /\ seg_ok 9 a /\ seg_ok 8 b /\ seg_ok 5 c /\ seg_ok 7 d.
Proof.
  unfold canonical. intros H.
  destruct (canon_take 9 0 s) as (a & s1 & -> & Ha & H1); [unfold idLength; lia | no_dash | exact H |].
  destruct (canon_dash 9 s1) as (s2 & -> & H2); [reflexivity | exact H1 |].
  destruct (canon_take 8 10 s2) as (b & s3 & -> & Hb & H3); [unfold idLength; lia | no_dash | exact H2 |].
  destruct (canon_dash 18 s3) as (s4 & -> & H4); [reflexivity | exact H3 |].
  destruct (canon_take 5 19 s4) as (c & s5 & -> & Hc & H5); [unfold idLength; lia | no_dash | exact H4 |].
  destruct (canon_dash 24 s5) as (s6 & -> & H6); [reflexivity | exact H5 |].
  destruct (canon_take 7 25 s6) as (d & s7 & -> & Hd & H7); [unfold idLength; lia | no_dash | exact H6 |].
  apply canon_from_len in H7. destruct s7 as [|y s7]; [|simpl in H7; unfold idLength in H7; lia].
  exists a, b, c, d. rewrite app_nil_str. auto.
Qed.

Lemma Verify_canonical (s secret : string) :
  canonical s = true ->
  Verify s secret =
  if negb (String.eqb secret "") then
    if negb (String.eqb (md5_check_char secret (substring 0 31 s)) (substring 31 1 s))
    then (false, Some ErrChecksum) else (true, None)
  else (true, None).
Proof.
  intros H. destruct (canonical_inv s H) as (a & b & c & d & -> & Ha & Hb & Hc & Hd).
  now apply Verify_mk_id.
Qed.

Lemma get_substring1 (n : nat) (s : string) (x : ascii) :
  get n s = Some x -> substring n 1 s = String x EmptyString.
Proof.
  revert n. induction s as [|y s IH]; intros n H; [discriminate|].
  destruct n as [|n]; simpl in H |- *.
  - injection H as ->. now destruct s.
  - now apply IH.
Qed.

Lemma key_err_iff (now : Z) :
  (forall e, getBase32TimeKey now = Err e -> e = ErrInvalidTimeKey) /\
  is_err (getBase32TimeKey now) =
  (timeKeyLength <? length (toUpper (formatInt (Z.quot now 1000000))))%nat.
Proof.
  unfold getBase32TimeKey. cbv zeta.
  generalize (toUpper (formatInt (Z.quot now 1000000))) as T. intros T.
  destruct ((Z.of_nat (length T) - Z.of_nat timeKeyLength) * -1 <? 0)%Z eqn:E1.
  - apply Z.ltb_lt in E1. split; [intros e H; now injection H|].
    symmetry. apply Nat.ltb_lt. lia.
  - apply Z.ltb_ge in E1. split; [intros e H; destruct (0 <? _)%Z; discriminate|].
    destruct (0 <? _)%Z; symmetry; apply Nat.ltb_ge; lia.
Qed.

Lemma format_bits_len_iff (u : Z) (k : nat) :
  (0 <= u < timeKeyBase ^ 64)%Z -> (1 <= k)%nat ->
  ((length (format_bits 64 u) <= k)%nat <-> (u < timeKeyBase ^ Z.of_nat k)%Z).
Proof.
  intros Hu Hk.
  destruct (format_bits_ok 64 u) as (D1 & D2 & _); [discriminate | exact Hu |].
  split.
  - intros L. pose proof (val_acc_bound _ 0 D1 (Z.le_refl 0)) as B.
    rewrite D2, upper_ascii_length in B.
    eapply Z.lt_le_trans; [exact B|]. rewrite Z.mul_1_l.
    apply Z.pow_le_mono_r; unfold timeKeyBase; lia.
  - intros. apply format_bits_length; lia.
Qed.

Lemma rand_chars_get (draw : nat -> nat) (n k i : nat) :
  (forall j, draw j < 36)%nat -> (i < n)%nat ->
  get i (rand_chars draw k n) = get (draw (k + i)) letterBytes.
Proof.
  intros Hd. revert k i. induction n as [|n IH]; intros k i Hi; [lia|].
  cbn [rand_chars]. destruct (letterBytes_get (draw k) (Hd k)) as (c & Hc & _).
  rewrite Hc. destruct i as [|i].
  - now rewrite Nat.add_0_r, Hc.
  - cbn [get]. rewrite IH by lia. now replace (S k + i)%nat with (k + S i)%nat by lia.
Qed.

Lemma letterBytes_digit (k : nat) :
  (k < 36)%nat -> exists c, get k letterBytes = Some c /\ digits_ok (String c EmptyString) = true.
Proof.
  intros Hk. do 36 (destruct k as [|k]; [eexists; split; reflexivity|]). lia.
Qed.

Lemma rand_chars_digits (draw : nat -> nat) (n k : nat) :
  (forall j, draw j < 36)%nat -> digits_ok (rand_chars draw k n) = true.
Proof.
  intros Hd. revert k. induction n as [|n IH]; intros k; [reflexivity|].
  cbn [rand_chars]. destruct (letterBytes_digit (draw k) (Hd k)) as (c & Hc & D).
  rewrite Hc. change (String c (rand_chars draw (S k) n))
    with (String c EmptyString ++ rand_chars draw (S k) n).
  rewrite digits_ok_app, D, IH. reflexivity.
Qed.

Lemma GetTimeFromID_mk_id_val (a b c d : string) :
  seg_ok 9 a -> seg_ok 8 b -> seg_ok 5 c -> seg_ok 7 d ->
  GetTimeFromID (mk_id a b c d) =
  match remove_all paddingChar a with
  | EmptyString => Err ErrSyntax
  | k => Ok (wrap64 (val_acc k 0 * 1000000))
  end.
Proof.
  intros Ha Hb Hc Hd. rewrite GetTimeFromID_mk_id by assumption.
  unfold timeFromKey. destruct Ha as [La Ca].
  pose proof (remove_pad_digits a Ca) as D. pose proof (remove_all_length paddingChar a) as L.
  destruct (remove_all paddingChar a) as [|x k] eqn:E; [reflexivity|].
  rewrite parseInt_digits; [reflexivity | exact D | discriminate |].
  pose proof (val_acc_bound _ 0 D (Z.le_refl 0)) as B.
  assert (P : (timeKeyBase ^ Z.of_nat (length (String x k)) <= timeKeyBase ^ 9)%Z)
    by (apply Z.pow_le_mono_r; unfold timeKeyBase; lia).
  unfold timeKeyBase, maxInt64 in *. lia.
Qed.

(** ** [getBase32TimeKey] *)

(** [getBase32TimeKey] fails only with [ErrInvalidTimeKey], and for every
    [int64] nanosecond count it fails exactly when the millisecond count is
    at most [-36^8] (the sign and eight digits no longer fit in nine bytes)
    or at least [36^9] (ten digits). *)
Theorem getBase32TimeKey_range (now : Z) :
  (- 2 ^ 63 <= now <= maxInt64)%Z ->
  (forall e, getBase32TimeKey now = Err e -> e = ErrInvalidTimeKey) /\
  (is_err (getBase32TimeKey now) = true <->
   (Z.quot now 1000000 <= - timeKeyBase ^ 8 \/ timeKeyBase ^ 9 <= Z.quot now 1000000)%Z).
Proof.
  intros Hn. destruct (key_err_iff now) as [E L]. split; [exact E|]. rewrite L.
  unfold maxInt64 in Hn. change (2 ^ 63)%Z with 9223372036854775808%Z in Hn.
  assert (Hb : (9223372036855 < timeKeyBase ^ 64)%Z) by (vm_compute; reflexivity).
  change (timeKeyBase ^ 8)%Z with 2821109907456%Z.
  change (timeKeyBase ^ 9)%Z with 101559956668416%Z.
  unfold formatInt, timeKeyLength.
  destruct (Z.quot now 1000000 <? 0)%Z eqn:Sg.
  - apply Z.ltb_lt in Sg.
    assert (Hneg : (now < 0)%Z).
    { destruct (Z.le_gt_cases 0 now) as [P|P]; [|exact P].
      pose proof (Z.quot_pos now 1000000 P ltac:(lia)). lia. }
    assert (Hq : (- 9223372036855 <= Z.quot now 1000000)%Z).
    { rewrite <- (Z.opp_involutive now), Z.quot_opp_l by lia.
      assert (Z.quot (- now) 1000000 < 9223372036855)%Z.
      { rewrite Z.quot_div_nonneg by lia. apply Z.div_lt_upper_bound; lia. }
      lia. }
    generalize (format_bits_len_iff (- Z.quot now 1000000) 8 ltac:(lia) ltac:(lia)).
    change (timeKeyBase ^ Z.of_nat 8)%Z with 2821109907456%Z.
    rewrite toUpper_ascii by exact (format_bits_ascii _ _).
    generalize (format_bits 64 (- Z.quot now 1000000)). intros T F.
    rewrite upper_ascii_length. cbn [length].
    destruct (Nat.ltb_spec 9 (S (length T))) as [K|K].
    + split; [intros _|reflexivity].
      destruct (Z.le_gt_cases (Z.quot now 1000000) (- 2821109907456)) as [C|C]; [auto|].
      assert (length T <= 8)%nat by (apply F; lia). lia.
    + split; [discriminate|]. assert (- Z.quot now 1000000 < 2821109907456)%Z
        by (apply F; lia). lia.
  - apply Z.ltb_ge in Sg.
    assert (Hq : (Z.quot now 1000000 < 9223372036855)%Z).
    { destruct (Z.le_gt_cases 0 now) as [P|P].
      - rewrite Z.quot_div_nonneg by lia. apply Z.div_lt_upper_bound; lia.
      - rewrite <- (Z.opp_involutive now), Z.quot_opp_l by lia.
        pose proof (Z.quot_pos (- now) 1000000 ltac:(lia) ltac:(lia)). lia. }
    generalize (format_bits_len_iff (Z.quot now 1000000) 9 ltac:(lia) ltac:(lia)).
    change (timeKeyBase ^ Z.of_nat 9)%Z with 101559956668416%Z.
    rewrite toUpper_ascii by exact (format_bits_ascii _ _).
    generalize (format_bits 64 (Z.quot now 1000000)). intros T F.
    rewrite upper_ascii_length.
    destruct (Nat.ltb_spec 9 (length T)) as [K|K].
    + split; [intros _|reflexivity].
      destruct (Z.le_gt_cases 101559956668416 (Z.quot now 1000000)) as [C|C]; [auto|].
      assert (length T <= 9)%nat by (apply F; lia). lia.
    + split; [discriminate|]. assert (Z.quot now 1000000 < 101559956668416)%Z
        by (apply F; lia). lia.
Qed.

(** ** [Generate] *)

(** [Generate] fails exactly in three ways, checked in this order: the time
    key cannot be built, the vendor is not 3 bytes long, the type is not 2
    bytes long.  The indicator, subtype, location and secret never make it
    fail. *)
Theorem Generate_errors now draw ind vendor nType nSubType priLocation secret e :
  Generate now draw ind vendor nType nSubType priLocation secret = Err e <->
  getBase32TimeKey now = Err e \/
  (is_err (getBase32TimeKey now) = false /\ length vendor <> vendorLength /\
   e = ErrVendorLength) \/
  (is_err (getBase32TimeKey now) = false /\ length vendor = vendorLength /\
   length nType <> typeElementLength /\ e = ErrTypeLength).
Proof.
  rewrite Generate_unfold.
  destruct (getBase32TimeKey now) as [key|e'] eqn:K; cbn [is_err].
  - destruct (Nat.eqb_spec (length vendor) vendorLength) as [Hv|Hv]; cbn [negb].
    + destruct (Nat.eqb_spec (length nType) typeElementLength) as [Ht|Ht]; cbn [negb].
      * unfold with_checksum. split; [intros H; destruct (0 <? length secret)%nat; discriminate H|].
        intros [H|[(_ & H & _)|(_ & _ & H & _)]]; congruence.
      * split; [intros H; injection H as <-; right; right; auto|].
        intros [H|[(_ & H & _)|(_ & _ & _ & H)]]; congruence.
    + split; [intros H; injection H as <-; right; left; auto|].
      intros [H|[(_ & _ & H)|(_ & H & _)]]; congruence.
  - split; [auto|]. intros [H|[(H & _)|(H & _)]]; congruence.
Qed.

(** For an indicator of at most one byte and an ASCII vendor and type (and
    subtype and location, where [Generate] keeps them), every identifier
    [Generate] returns is 32 bytes long, whatever the instant (also before
    the epoch) and the secret.  Upper-casing other runes can change the
    byte count. *)
Theorem Generate_length now draw ind vendor nType nSubType priLocation secret id :
  (length ind <= 1)%nat -> (forall j, draw j < 36)%nat ->
  is_ascii vendor = true -> is_ascii nType = true ->
  (length nSubType = typeElementLength -> is_ascii nSubType = true) ->
  (length priLocation = priLocationLength -> is_ascii priLocation = true) ->
  Generate now draw ind vendor nType nSubType priLocation secret = Ok id ->
  length id = idLength.
Proof.
  intros Hi Hd Av At As Al H. rewrite Generate_unfold in H.
  destruct (getBase32TimeKey now) as [key|e] eqn:K; [|discriminate].
  destruct (Nat.eqb_spec (length vendor) vendorLength) as [Hv|Hv]; cbn [negb] in H;
    [|discriminate].
  destruct (Nat.eqb_spec (length nType) typeElementLength) as [Ht|Ht]; cbn [negb] in H;
    [|discriminate].
  destruct (rand_chars_ok draw randLen 0 Hd) as [R _].
  rewrite toUpper_ascii in H by (apply pre_ascii; auto; exact (key_ascii _ _ K)).
  apply with_checksum_length in H; rewrite ?H; rewrite upper_ascii_length;
    repeat (first [rewrite length_app_str | progress cbn [length]]); unfold getRandString;
    rewrite (key_length now key K), norm_indicator_length, Hv, Ht, norm_subtype_length,
      norm_location_length, R by assumption;
    unfold timeKeyLength, vendorLength, typeElementLength, priLocationLength, randLen, idLength;
    lia.
Qed.

(** For an ASCII vendor and type (and subtype and location, where
    [Generate] keeps them), every identifier [Generate] returns is upper
    case: [strings.ToUpper] leaves it unchanged, the checksum byte
    included. *)
Theorem Generate_upper now draw ind vendor nType nSubType priLocation secret id :
  is_ascii vendor = true -> is_ascii nType = true ->
  (length nSubType = typeElementLength -> is_ascii nSubType = true) ->
  (length priLocation = priLocationLength -> is_ascii priLocation = true) ->
  Generate now draw ind vendor nType nSubType priLocation secret = Ok id ->
  toUpper id = id.
Proof.
  intros Av At As Al H. rewrite Generate_unfold in H.
  destruct (getBase32TimeKey now) as [key|e] eqn:K; [|discriminate].
  destruct (negb _); [discriminate|]. destruct (negb _); [discriminate|].
  rewrite toUpper_ascii in H by (apply pre_ascii; auto; exact (key_ascii _ _ K)).
  eapply with_checksum_upper; [exact H | rewrite is_ascii_upper | apply upper_ascii_idem].
  apply pre_ascii; auto. exact (key_ascii _ _ K).
Qed.

(** The secret only decides the last byte: with a non-empty secret,
    [Generate] returns the identifier it returns without a secret with its
    last byte replaced by the checksum of the bytes before it. *)
Theorem Generate_secret_last now draw ind vendor nType nSubType priLocation secret id0 :
  Generate now draw ind vendor nType nSubType priLocation "" = Ok id0 ->
  secret <> EmptyString ->
  Generate now draw ind vendor nType nSubType priLocation secret =
  Ok (substring 0 (length id0 - 1) id0 ++
      md5_check_char secret (substring 0 (length id0 - 1) id0)).
Proof.
  intros H Hs. rewrite Generate_unfold in H |- *.
  destruct (getBase32TimeKey now) as [key|e]; [|discriminate].
  destruct (negb _); [discriminate|]. destruct (negb _); [discriminate|].
  unfold with_checksum in H |- *. cbn [length Nat.ltb Nat.leb] in H. injection H as <-.
  destruct secret as [|x secret]; [congruence|]. reflexivity.
Qed.

(** An instant at least a millisecond before the epoch gives a time key
    that starts with [-]; [Generate] still returns an identifier, and
    [Verify] rejects it, with any secret. *)
Theorem Generate_negative_rejected now draw ind vendor nType nSubType priLocation secret
    secret' id :
  (now <= -1000000)%Z ->
  Generate now draw ind vendor nType nSubType priLocation secret = Ok id ->
  fst (Verify id secret') = false.
Proof.
  intros Hn H. rewrite Generate_unfold in H.
  destruct (getBase32TimeKey now) as [key|e] eqn:K; [|discriminate].
  destruct (key_head_neg now key Hn K) as (r & ->).
  pose proof (key_ascii _ _ K) as KA. rewrite is_ascii_delim in KA.
  destruct (negb _); [discriminate|]. destruct (negb _); [discriminate|].
  cbn [String.append] in H. rewrite toUpper_delim in H.
  apply with_checksum_head in H as (r' & ->).
  - apply Verify_dash_head.
  - rewrite toUpper_ascii_app, toUpper_delim, length_app_str by exact KA.
    cbn [length]. lia.
Qed.

(** ** [Verify] *)

(** Without a secret, [Verify] accepts exactly the [canonical] strings:
    32 bytes, [-] at positions 9, 18 and 24, [[A-Z0-9=]] elsewhere. *)
Theorem Verify_empty_canonical (s : string) :
  Verify s "" = (true, None) <-> canonical s = true.
Proof.
  split.
  - intros H. destruct (canonical s) eqn:C; [reflexivity|].
    destruct (noncanonical_rejected s "" C) as (e & E & _). congruence.
  - intros C. rewrite Verify_canonical by exact C. reflexivity.
Qed.

(** With a non-empty secret, a canonical string passes the structural
    checks and [Verify] only compares its last byte with the checksum of
    its first 31 bytes. *)
Theorem Verify_canonical_checksum (s secret : string) :
  canonical s = true -> secret <> EmptyString ->
  Verify s secret =
  if String.eqb (md5_check_char secret (substring 0 31 s)) (substring 31 1 s)
  then (true, None) else (false, Some ErrChecksum).
Proof.
  intros C Hs. rewrite Verify_canonical by exact C.
  destruct (String.eqb_spec secret "") as [E|E]; [contradiction|]. cbn [negb].
  now destruct (String.eqb _ _).
Qed.

(** The checksum byte is an upper-case hex digit, so with a non-empty
    secret [Verify] rejects every string whose byte 31 is not in [0-9A-F]
    (for instance any identifier ending in [G]..[Z] or [=]). *)
Theorem Verify_non_hex_last (s secret : string) (x : ascii) :
  secret <> EmptyString -> get 31 s = Some x -> hex_upper x = false ->
  fst (Verify s secret) = false.
Proof.
  intros Hs Hx Hh. destruct (canonical s) eqn:C.
  - rewrite Verify_canonical by exact C.
    destruct (String.eqb_spec secret "") as [E|E]; [contradiction|]. cbn [negb].
    rewrite (get_substring1 31 s x Hx).
    destruct (md5_check_char_hex secret (substring 0 31 s)) as (y & -> & Hy).
    destruct (String.eqb_spec (String y EmptyString) (String x EmptyString)) as [Q|Q].
    + injection Q as ->. congruence.
    + reflexivity.
  - destruct (noncanonical_rejected s secret C) as (e & -> & _). reflexivity.
Qed.

(** [Verify] returns [(true, nil)] or [false] with an error, never a
    mixture; and it reports a checksum mismatch only for a string that
    passes every structural check (that [Verify] accepts without a
    secret). *)
Theorem Verify_result_shape (s secret : string) :
  (Verify s secret = (true, None) \/ exists e, Verify s secret = (false, Some e)) /\
  (Verify s secret = (false, Some ErrChecksum) -> Verify s "" = (true, None)).
Proof.
  unfold Verify.
  destruct (negb (length s =? idLength)%nat); [split; [eauto | discriminate]|].
  destruct (negb (regex_find s)); [split; [eauto | discriminate]|].
  destruct (negb (List.length (split delimitChar s) =? idElements)%nat);
    [split; [eauto | discriminate]|].
  destruct (negb (String.eqb secret "")); [|split; [auto | discriminate]].
  destruct (negb (String.eqb _ _)); split; eauto; discriminate.
Qed.

(** ** [GetTimeFromID] *)

(** On an identifier [Verify] accepts, [GetTimeFromID] drops every [=] of
    the time component, wherever it stands, and reads the rest as a base-36
    number (at most nine digits, so never a range error) of milliseconds,
    multiplied into nanoseconds in [int64]; a time component of padding
    only is a syntax error. *)
Theorem GetTimeFromID_value (a b c d : string) :
  seg_ok 9 a -> seg_ok 8 b -> seg_ok 5 c -> seg_ok 7 d ->
  GetTimeFromID (mk_id a b c d) =
  match remove_all paddingChar a with
  | EmptyString => Err ErrSyntax
  | k => Ok (wrap64 (val_acc k 0 * 1000000))
  end.
Proof. exact (GetTimeFromID_mk_id_val a b c d). Qed.

(** [GetTimeFromID] fails only with the structural errors of [Verify] or
    with [strconv]'s syntax error; it never returns the range error nor the
    checksum error. *)
Theorem GetTimeFromID_errors (s : string) (e : error) :
  GetTimeFromID s = Err e ->
  e = ErrInvalidLength \/ e = ErrInvalidFormat \/ e = ErrElementCount \/ e = ErrSyntax.
Proof.
  destruct (canonical s) eqn:C.
  - destruct (canonical_inv s C) as (a & b & c & d & -> & Ha & Hb & Hc & Hd).
    rewrite GetTimeFromID_mk_id_val by assumption.
    destruct (remove_all paddingChar a); intros H; [|discriminate].
    injection H as <-. auto.
  - destruct (noncanonical_rejected s "" C) as (e' & E & He).
    unfold GetTimeFromID. rewrite E. intros H. injection H as <-. tauto.
Qed.

(** ** [isValidIndicator] and [getRandString] *)

(** [isValidIndicator] accepts a one-byte string exactly when its upper-case
    form is one of the ten defined indicators, accepts the empty string,
    and does not depend on case. *)
Theorem isValidIndicator_props :
  (forall x, isValidIndicator (String x EmptyString) =
             defined_indicator (String (upper_char x) EmptyString)) /\
  isValidIndicator EmptyString = true /\
  (forall s, isValidIndicator (toUpper s) = isValidIndicator s).
Proof.
  split; [exact isValidIndicator_char|]. split; [reflexivity|].
  intros s. unfold isValidIndicator.
  destruct (is_ascii (toUpper s)) eqn:A.
  - rewrite (toUpper_ascii (toUpper s) A), upper_ascii_toUpper. reflexivity.
  - rewrite (contains_checksum_foreign (toUpper s)) by (apply has_foreign_not_ascii, A).
    apply contains_checksum_foreign. unfold toUpper at 1. rewrite A.
    apply map_runes_foreign; [lia | exact A].
Qed.

(** [getRandString n] has [n] bytes; byte [i] is [letterBytes[draw i]], so
    every byte is a base-36 digit [0-9A-Z]. *)
Theorem getRandString_props (draw : nat -> nat) (n : nat) :
  (forall j, draw j < 36)%nat ->
  length (getRandString draw n) = n /\
  (forall i, (i < n)%nat -> get i (getRandString draw n) = get (draw i) letterBytes) /\
  digits_ok (getRandString draw n) = true.
Proof.
  intros Hd. unfold getRandString. split; [apply (rand_chars_ok draw n 0 Hd)|].
  split; [intros i Hi; apply (rand_chars_get draw n 0 i Hd Hi)|].
  apply rand_chars_digits, Hd.
Qed.

(** * The earlier revision *)

(** ** Helpers *)

Lemma wrap64_small (x : Z) : (- 2 ^ 63 <= x < 2 ^ 63)%Z -> wrap64 x = x.
Proof.
  unfold wrap64. change (2 ^ 63)%Z with 9223372036854775808%Z.
  change (2 ^ 64)%Z with 18446744073709551616%Z. intros H.
  destruct (Z.le_gt_cases 0 x) as [P|P].
  - rewrite Z.mod_small by lia.
    destruct (9223372036854775808 <=? x)%Z eqn:E; [apply Z.leb_le in E; lia | reflexivity].
  - rewrite <- (Z.mod_unique_pos x 18446744073709551616 (-1) (x + 18446744073709551616))
      by lia.
    destruct (9223372036854775808 <=? x + 18446744073709551616)%Z eqn:E;
      [lia | apply Z.leb_gt in E; lia].
Qed.

Lemma quot_ms_bounds (now : Z) :
  (- 2 ^ 63 <= now <= maxInt64)%Z ->
  (- 9223372036855 < Z.quot now 1000000 < 9223372036855)%Z.
Proof.
  unfold maxInt64. change (2 ^ 63)%Z with 9223372036854775808%Z. intros Hn.
  destruct (Z.le_gt_cases 0 now) as [P|P].
  - rewrite Z.quot_div_nonneg by lia. split; [pose proof (Z.div_pos now 1000000); lia|].
    apply Z.div_lt_upper_bound; lia.
  - rewrite <- (Z.opp_involutive now), Z.quot_opp_l by lia.
    rewrite Z.quot_div_nonneg by lia.
    assert (- now / 1000000 < 9223372036855)%Z by (apply Z.div_lt_upper_bound; lia).
    pose proof (Z.div_pos (- now) 1000000). lia.
Qed.

Lemma v1_key_err_iff (now : Z) :
  (forall e, V1.getBase36TimeKey now = Err e -> e = ErrInvalidTimeKey) /\
  is_err (V1.getBase36TimeKey now) =
  (timeKeyLength <? length (toUpper (formatInt
     (wrap64 (V1.maxTimestampValBase10 - Z.quot now 1000000)))))%nat.
Proof.
  unfold V1.getBase36TimeKey. cbv zeta.
  generalize (toUpper (formatInt (wrap64 (V1.maxTimestampValBase10 - Z.quot now 1000000))))
    as T. intros T.
  destruct (Z.of_nat timeKeyLength - Z.of_nat (length T) <? 0)%Z eqn:E1.
  - apply Z.ltb_lt in E1. split; [intros e H; now injection H|].
    symmetry. apply Nat.ltb_lt. lia.
  - apply Z.ltb_ge in E1. split; [intros e H; destruct (0 <? _)%Z; discriminate|].
    destruct (0 <? _)%Z; symmetry; apply Nat.ltb_ge; lia.
Qed.

(** The reversed time key of an instant at or after the epoch: nine digit
    bytes (no padding is ever needed) whose value is
    [maxTimestampValBase10] minus the milliseconds. *)
Lemma v1_key_ok (now : Z) :
  (0 <= now <= maxInt64)%Z ->
  exists key, V1.getBase36TimeKey now = Ok key /\ length key = 9%nat /\
    digits_ok key = true /\ val_acc key 0 = (V1.maxTimestampValBase10 - now / 1000000)%Z.
Proof.
  intros Hn. unfold maxInt64 in Hn.
  assert (Hm : (0 <= now / 1000000 <= 9223372036854)%Z).
  { split; [apply Z.div_pos; lia|].
    assert (now / 1000000 < 9223372036855)%Z by (apply Z.div_lt_upper_bound; lia).
    lia. }
  assert (Hq : Z.quot now 1000000 = (now / 1000000)%Z)
    by (apply Z.quot_div_nonneg; lia).
  remember (now / 1000000)%Z as m eqn:Em.
  set (r := (V1.maxTimestampValBase10 - m)%Z).
  assert (Hr : (2821109907456 <= r < 101559956668416)%Z)
    by (unfold r, V1.maxTimestampValBase10; lia).
  assert (Hw : wrap64 r = r)
    by (apply wrap64_small; change (2 ^ 63)%Z with 9223372036854775808%Z; lia).
  assert (Hf : formatInt r = format_bits 64 r).
  { unfold formatInt. destruct (r <? 0)%Z eqn:E; [apply Z.ltb_lt in E; lia|reflexivity]. }
  assert (Hb : (9223372036855 < timeKeyBase ^ 64)%Z) by (vm_compute; reflexivity).
  destruct (format_bits_ok 64 r) as (D1 & D2 & _);
    [discriminate | unfold timeKeyBase in *; lia |].
  pose proof (format_bits_len_iff r 9 ltac:(unfold timeKeyBase in *; lia) ltac:(lia)) as F9.
  pose proof (format_bits_len_iff r 8 ltac:(unfold timeKeyBase in *; lia) ltac:(lia)) as F8.
  change (timeKeyBase ^ Z.of_nat 9)%Z with 101559956668416%Z in F9.
  change (timeKeyBase ^ Z.of_nat 8)%Z with 2821109907456%Z in F8.
  assert (L : length (format_bits 64 r) = 9%nat).
  { assert (length (format_bits 64 r) <= 9)%nat by (apply F9; lia).
    destruct (Nat.le_gt_cases (length (format_bits 64 r)) 8) as [C|C];
      [apply F8 in C; lia | lia]. }
  exists (upper_ascii (format_bits 64 r)).
  split; [|split; [now rewrite upper_ascii_length | split; assumption]].
  unfold V1.getBase36TimeKey. rewrite Hq. fold r.
  rewrite Hw, Hf, toUpper_ascii, upper_ascii_length, L by apply format_bits_ascii.
  reflexivity.
Qed.

Lemma v1_regex_at_mk_id (a b c d : string) :
  seg_ok 8 a -> seg_ok 9 b -> seg_ok 5 c -> seg_ok 7 d ->
  V1.regex_at (mk_id a b c d) = true.
Proof.
  intros Ha Hb Hc Hd. unfold V1.regex_at, mk_id.
  rewrite (class_n_app _ _ _ Ha), obind_some, lit_delim, obind_some,
    (class_n_app _ _ _ Hb), obind_some, lit_delim, obind_some,
    (class_n_app _ _ _ Hc), obind_some, lit_delim, obind_some,
    <- (app_nil_str d), (class_n_app _ _ _ Hd). reflexivity.
Qed.

Lemma v1_regex_at_inv (s : string) :
  V1.regex_at s = true ->
  exists a b c d, s = mk_id a b c d /\ seg_ok 8 a /\ seg_ok 9 b /\ seg_ok 5 c /\ seg_ok 7 d.
Proof.
  unfold V1.regex_at.
  destruct (class_n 8 s) as [r1|] eqn:E1; cbn [obind]; [|discriminate].
  destruct (lit "-" r1) as [r2|] eqn:E2; cbn [obind]; [|discriminate].
  destruct (class_n 9 r2) as [r3|] eqn:E3; cbn [obind]; [|discriminate].
  destruct (lit "-" r3) as [r4|] eqn:E4; cbn [obind]; [|discriminate].
  destruct (class_n 5 r4) as [r5|] eqn:E5; cbn [obind]; [|discriminate].
  destruct (lit "-" r5) as [r6|] eqn:E6; cbn [obind]; [|discriminate].
  destruct (class_n 7 r6) as [[|y r7]|] eqn:E7; intros H; try discriminate.
  apply class_n_some in E1 as (a & -> & Ha). apply lit_some in E2 as ->.
  apply class_n_some in E3 as (b & -> & Hb). apply lit_some in E4 as ->.
  apply class_n_some in E5 as (c & -> & Hc). apply lit_some in E6 as ->.
  apply class_n_some in E7 as (d & -> & Hd).
  exists a, b, c, d. rewrite app_nil_str. auto.
Qed.

Lemma v1_regex_find_long (s : string) : V1.regex_find s = true -> (32 <= length s)%nat.
Proof.
  induction s as [|x s IH]; simpl V1.regex_find.
  - discriminate.
  - intros H. apply orb_true_iff in H as [H|H].
    + destruct (v1_regex_at_inv _ H) as (a & b & c & d & -> & Ha & Hb & Hc & Hd).
      rewrite length_mk_id, (seg_ok_length _ _ Ha), (seg_ok_length _ _ Hb),
        (seg_ok_length _ _ Hc), (seg_ok_length _ _ Hd). lia.
    + simpl. specialize (IH H). lia.
Qed.

Lemma v1_regex_find_32 (s : string) :
  length s = 32%nat -> V1.regex_find s = true -> V1.regex_at s = true.
Proof.
  intros L. destruct s as [|x r]; [discriminate|]. simpl V1.regex_find.
  intros H. apply orb_true_iff in H as [H|H]; [exact H|].
  apply v1_regex_find_long in H. simpl in L. lia.
Qed.

Lemma v1_Verify_mk_id (a b c d secret : string) :
  seg_ok 8 a -> seg_ok 9 b -> seg_ok 5 c -> seg_ok 7 d ->
  V1.Verify (mk_id a b c d) secret =
  if negb (String.eqb secret "") then
    if negb (String.eqb (md5_check_char secret (substring 0 31 (mk_id a b c d)))
                        (substring 31 1 (mk_id a b c d)))
    then (false, Some ErrChecksum) else (true, None)
  else (true, None).
Proof.
  intros Ha Hb Hc Hd.
  assert (R : V1.regex_find (mk_id a b c d) = true).
  { pose proof (v1_regex_at_mk_id a b c d Ha Hb Hc Hd) as H.
    destruct (mk_id a b c d); unfold V1.regex_find; rewrite H; reflexivity. }
  destruct Ha as [La Ca], Hb as [Lb Cb], Hc as [Lc Cc], Hd as [Ld Cd].
  unfold V1.Verify. rewrite R, split_mk_id, length_mk_id, La, Lb, Lc, Ld by assumption.
  reflexivity.
Qed.

Lemma v1_accept_inv (s secret : string) :
  fst (V1.Verify s secret) = true ->
  exists a b c d, s = mk_id a b c d /\ seg_ok 8 a /\ seg_ok 9 b /\ seg_ok 5 c /\ seg_ok 7 d.
Proof.
  unfold V1.Verify.
  destruct (Nat.eqb_spec (length s) idLength) as [L|L]; cbn [negb]; [|discriminate].
  destruct (V1.regex_find s) eqn:R; cbn [negb]; [|discriminate].
  intros _. apply v1_regex_at_inv, v1_regex_find_32; assumption.
Qed.

Lemma accept_inv (s secret : string) :
  fst (Verify s secret) = true ->
  exists a b c d, s = mk_id a b c d /\ seg_ok 9 a /\ seg_ok 8 b /\ seg_ok 5 c /\ seg_ok 7 d.
Proof.
  unfold Verify.
  destruct (Nat.eqb_spec (length s) idLength) as [L|L]; cbn [negb]; [|discriminate].
  destruct (regex_find s) eqn:R; cbn [negb]; [|discriminate].
  intros _. apply regex_at_inv, regex_find_32; assumption.
Qed.

Lemma get_app_ge (a r : string) (k : nat) : get (length a + k) (a ++ r) = get k r.
Proof. induction a as [|x a IH]; [reflexivity | exact IH]. Qed.

Lemma get_app_lt (a r : string) (k : nat) : (k < length a)%nat -> get k (a ++ r) = get k a.
Proof.
  revert k. induction a as [|x a IH]; intros k H; [simpl in H; lia|].
  destruct k as [|k]; [reflexivity|]. apply IH. simpl in H. lia.
Qed.

Lemma all_class_get (a : string) (k : nat) :
  all_class a = true -> (k < length a)%nat -> exists y, get k a = Some y /\ in_class y = true.
Proof.
  revert k. induction a as [|x a IH]; intros k C H; [simpl in H; lia|].
  simpl in C. apply andb_true_iff in C as [Cx Ca].
  destruct k as [|k]; [eexists; split; [reflexivity | exact Cx]|].
  apply IH; [exact Ca | simpl in H; lia].
Qed.

Lemma v1_getTimeFromID_mk_id (a b c d : string) :
  seg_ok 8 a -> seg_ok 9 b -> seg_ok 5 c -> seg_ok 7 d ->
  V1.getTimeFromID (mk_id a b c d) =
  (msInt <- parseInt b ;;
   Ok (wrap64 (wrap64 (V1.maxTimestampValBase10 - msInt) * 1000000))).
Proof.
  intros Ha Hb Hc Hd. unfold V1.getTimeFromID.
  rewrite v1_Verify_mk_id by assumption. cbn [String.eqb negb].
  rewrite split_mk_id by (apply Ha || apply Hb || apply Hc || apply Hd). reflexivity.
Qed.

Lemma v1_Describe_mk_id (a b c d : string) :
  seg_ok 8 a -> seg_ok 9 b -> seg_ok 5 c -> seg_ok 7 d ->
  V1.Describe (mk_id a b c d) =
  (t <- V1.getTimeFromID (mk_id a b c d) ;;
   Ok {| V1.Indicator := substring 0 1 a; V1.VendorKey := substring 1 3 a;
         V1.App := substring 4 2 a; V1.Type' := substring 6 2 a;
         V1.Location := c; V1.TimeKey := b; V1.Time := t; V1.RandomString := d |}).
Proof.
  intros Ha Hb Hc Hd. unfold V1.Describe.
  rewrite v1_Verify_mk_id by assumption. cbn [String.eqb negb].
  rewrite split_mk_id by (apply Ha || apply Hb || apply Hc || apply Hd). reflexivity.
Qed.

Lemma v1_Generate_shape now draw ind vendor app nType priLocation secret :
  (0 <= now <= maxInt64)%Z -> (forall j, draw j < 36)%nat ->
  defined_indicator ind = true ->
  length vendor = vendorLength -> fieldable vendor = true ->
  length app = typeElementLength -> fieldable app = true ->
  length nType = typeElementLength -> fieldable nType = true ->
  (length priLocation = priLocationLength -> fieldable priLocation = true) ->
  let a := ind ++ toUpper vendor ++ toUpper app ++ toUpper nType in
  let c := toUpper (norm_location priLocation) in
  exists key s6 x,
    V1.getBase36TimeKey now = Ok key /\ length key = 9%nat /\ digits_ok key = true /\
    val_acc key 0 = (V1.maxTimestampValBase10 - now / 1000000)%Z /\
    seg_ok 8 a /\ seg_ok 5 c /\
    length s6 = 6%nat /\ all_class s6 = true /\ in_class x = true /\
    V1.Generate now draw ind vendor app nType priLocation secret =
    V1.GenOk (mk_id a key c (s6 ++ if (0 <? length secret)%nat
                                    then md5_check_char secret (mk_pre a key c ++ s6)
                                    else String x EmptyString)).
Proof.
  intros Hnow Hd Hind Hvl Hvf Hal Haf Htl Htf Hloc a c.
  destruct (v1_key_ok now Hnow) as (key & Hk & Hkl & Hkd & Hkv).
  destruct (defined_indicator_props ind Hind) as (Hiv & Hi1 & Hic & Hiu).
  destruct (rand_chars_ok draw randLen 0 Hd) as [Hrl Hrc].
  destruct (seg7_split (getRandString draw randLen) (conj Hrl Hrc))
    as (s6 & x & Hr & H6 & H6c & Hx).
  destruct (norm_location_ok priLocation Hloc) as [Hll Hlf].
  assert (Ha : seg_ok 8 a).
  { destruct (seg_upper _ _ Hvl Hvf) as [V1 V2].
    destruct (seg_upper _ _ Hal Haf) as [A1 A2].
    destruct (seg_upper _ _ Htl Htf) as [T1 T2].
    split; unfold a.
    - rewrite !length_app_str, Hi1, V1, A1, T1. reflexivity.
    - rewrite !all_class_app, Hic, V2, A2, T2. reflexivity. }
  assert (Hc : seg_ok 5 c) by (apply seg_upper; assumption).
  assert (Hkc : all_class key = true) by (now apply digits_all_class).
  exists key, s6, x. do 9 (split; [assumption|]).
  unfold V1.Generate. rewrite Hk, Hvl, Hal, Htl, Hiv, Hi1, !Nat.eqb_refl. cbn [negb orb Nat.eqb].
  fold (norm_location priLocation). rewrite Hr.
  assert (Hu : toUpper (ind ++ vendor ++ app ++ nType ++ String delimitChar (key ++
      String delimitChar (norm_location priLocation ++
      String delimitChar (s6 ++ String x EmptyString))))
      = mk_pre a key c ++ (s6 ++ String x EmptyString)).
  { destruct (fieldable_upper _ Hvf) as (Va & Vu & _).
    destruct (fieldable_upper _ Haf) as (Aa & Au & _).
    destruct (fieldable_upper _ Htf) as (Ta & Tu & _).
    destruct (fieldable_upper _ Hlf) as (La & Lu & _).
    rewrite <- mk_id_pre. unfold mk_id, a, c. rewrite Vu, Au, Tu, Lu.
    rewrite toUpper_ascii.
    2:{ repeat (rewrite is_ascii_app || rewrite is_ascii_delim).
        rewrite (all_class_ascii key Hkc), (all_class_ascii ind Hic),
          (all_class_ascii s6 H6c), (is_ascii_char x Hx), Va, Aa, Ta, La. reflexivity. }
    repeat (rewrite upper_ascii_app || rewrite upper_ascii_delim).
    rewrite (upper_ascii_class key Hkc), (upper_ascii_class ind Hic),
      (upper_ascii_class s6 H6c), (upper_ascii_char x Hx).
    rewrite !app_assoc_str. reflexivity. }
  rewrite Hu.
  destruct (0 <? length secret)%nat.
  - assert (Hs : substring 0 (length (mk_pre a key c ++ (s6 ++ String x EmptyString)) - 1)
                   (mk_pre a key c ++ (s6 ++ String x EmptyString)) = mk_pre a key c ++ s6).
    { replace (length (mk_pre a key c ++ (s6 ++ String x EmptyString)) - 1)%nat
        with (length (mk_pre a key c) + (length s6 + 0))%nat
        by (rewrite !length_app_str; simpl; lia).
      rewrite !substring_prefix. cbn [substring]. rewrite app_nil_str. reflexivity. }
    cbv zeta. rewrite Hs, mk_id_pre, app_assoc_str. reflexivity.
  - rewrite mk_id_pre. reflexivity.
Qed.

Lemma digit_byte (c : ascii) :
  digits_ok (String c EmptyString) = true ->
  ((byte_of c =? (if dval c <? 10 then 48 + dval c else 55 + dval c)) &&
   (0 <=? dval c) && (dval c <? 36))%Z = true.
Proof.
  destruct c as [[] [] [] [] [] [] [] []]; intros H; first [discriminate H | reflexivity].
Qed.

(** On base-36 digit bytes the byte order is the order of the digit values. *)
Lemma ascii_compare_digits (c1 c2 : ascii) :
  digits_ok (String c1 EmptyString) = true -> digits_ok (String c2 EmptyString) = true ->
  Ascii.compare c1 c2 = Z.compare (dval c1) (dval c2).
Proof.
  intros H1 H2. apply digit_byte in H1, H2.
  rewrite !andb_true_iff, Z.eqb_eq, Z.leb_le, Z.ltb_lt in H1, H2.
  destruct H1 as [[B1 L1] U1], H2 as [[B2 L2] U2].
  unfold Ascii.compare. rewrite <- N2Z.inj_compare.
  change (Z.of_N (N_of_ascii c1)) with (byte_of c1).
  change (Z.of_N (N_of_ascii c2)) with (byte_of c2).
  rewrite B1, B2.
  destruct (Z.ltb_spec (dval c1) 10), (Z.ltb_spec (dval c2) 10);
    destruct (Z.compare_spec (dval c1) (dval c2)) as [E|E|E];
    first [apply Z.compare_eq_iff | apply Z.compare_lt_iff | apply Z.compare_gt_iff]; lia.
Qed.

Lemma val_acc_shift (s : string) (acc : Z) :
  val_acc s acc = (acc * timeKeyBase ^ Z.of_nat (length s) + val_acc s 0)%Z.
Proof.
  revert acc. induction s as [|x s IH]; intros acc; cbn [val_acc length].
  - simpl. lia.
  - rewrite (IH (acc * timeKeyBase + dval x)%Z), (IH (0 * timeKeyBase + dval x)%Z).
    rewrite Nat2Z.inj_succ, Z.pow_succ_r by lia. ring.
Qed.

Lemma digits_ok_cons (c : ascii) (r : string) :
  digits_ok (String c r) = true ->
  digits_ok (String c EmptyString) = true /\ digits_ok r = true.
Proof.
  change (String c r) with (String c EmptyString ++ r). rewrite digits_ok_app.
  apply andb_true_iff.
Qed.

(** Strings of base-36 digits of one length compare as their values. *)
Lemma compare_digits (s1 s2 : string) :
  digits_ok s1 = true -> digits_ok s2 = true -> length s1 = length s2 ->
  String.compare s1 s2 = Z.compare (val_acc s1 0) (val_acc s2 0).
Proof.
  revert s2. induction s1 as [|c1 r1 IH]; intros s2 D1 D2 L.
  - destruct s2; [reflexivity | discriminate].
  - destruct s2 as [|c2 r2]; [discriminate|]. injection L as L.
    apply digits_ok_cons in D1 as [C1 R1], D2 as [C2 R2].
    cbn [String.compare val_acc]. rewrite (ascii_compare_digits c1 c2 C1 C2).
    rewrite (val_acc_shift r1), (val_acc_shift r2), <- L.
    pose proof (val_acc_bound r1 0 R1 (Z.le_refl 0)) as B1.
    pose proof (val_acc_bound r2 0 R2 (Z.le_refl 0)) as B2.
    pose proof (val_acc_mono r1 0 R1 (Z.le_refl 0)) as M1.
    pose proof (val_acc_mono r2 0 R2 (Z.le_refl 0)) as M2.
    rewrite <- L in B2. rewrite !Z.mul_0_l, !Z.add_0_l, Z.mul_1_l in *.
    set (P := (timeKeyBase ^ Z.of_nat (length r1))%Z) in *.
    assert (HP : (0 < P)%Z) by (apply Z.pow_pos_nonneg; unfold timeKeyBase; lia).
    destruct (Z.compare_spec (dval c1) (dval c2)) as [E|E|E].
    + rewrite IH by assumption. rewrite E, Z.add_compare_mono_l. reflexivity.
    + symmetry. apply Z.compare_lt_iff.
      assert ((dval c1 + 1) * P <= dval c2 * P)%Z by (apply Z.mul_le_mono_nonneg_r; lia).
      nia.
    + symmetry. apply Z.compare_gt_iff.
      assert ((dval c2 + 1) * P <= dval c1 * P)%Z by (apply Z.mul_le_mono_nonneg_r; lia).
      nia.
Qed.

(** [ParseUint] of class bytes that are not all digits: at most nine bytes
    never overflow, so the first [=] is a syntax error. *)
Lemma parse_loop_pad (s : string) (acc : Z) :
  all_class s = true -> digits_ok s = false -> (0 <= acc)%Z ->
  ((acc + 1) * timeKeyBase ^ Z.of_nat (length s) <= timeKeyBase ^ 9)%Z ->
  parse_loop s acc = Err ErrSyntax.
Proof.
  revert acc. induction s as [|c r IH]; intros acc C D A B; [discriminate D|].
  simpl in C. apply andb_true_iff in C as [Cc Cr].
  destruct (Ascii.eqb c paddingChar) eqn:E.
  - apply Ascii.eqb_eq in E. subst c. reflexivity.
  - pose proof (class_digit_char c Cc E) as Dc.
    assert (Dr : digits_ok r = false).
    { change (String c r) with (String c EmptyString ++ r) in D.
      rewrite digits_ok_app, Dc in D. exact D. }
    cbn [digits_ok] in Dc. destruct (digit_val c) as [d|] eqn:Ed;
      [|rewrite !andb_false_r in Dc; discriminate Dc].
    rewrite andb_true_r in Dc. apply andb_true_iff in Dc as [_ Dd]. apply Z.ltb_lt in Dd.
    pose proof (digit_val_nonneg c d Ed) as D0.
    cbn [length] in B. rewrite Nat2Z.inj_succ, Z.pow_succ_r in B by lia.
    assert (HP : (1 <= timeKeyBase ^ Z.of_nat (length r))%Z).
    { assert (0 < timeKeyBase ^ Z.of_nat (length r))%Z
        by (apply Z.pow_pos_nonneg; unfold timeKeyBase; lia). lia. }
    set (P := (timeKeyBase ^ Z.of_nat (length r))%Z) in *.
    change (timeKeyBase ^ 9)%Z with 101559956668416%Z in B.
    unfold timeKeyBase in *.
    assert (Ha : (acc + 1 <= 2821109907456)%Z) by nia.
    cbn [parse_loop]. rewrite Ed. unfold timeKeyBase, maxUint64.
    destruct (36 <=? d)%Z eqn:E1; [apply Z.leb_le in E1; lia|].
    destruct (18446744073709551615 / 36 + 1 <=? acc)%Z eqn:E2;
      [apply Z.leb_le in E2; change (18446744073709551615 / 36)%Z with 512409557603043100%Z in E2;
       lia|].
    destruct (18446744073709551615 <? acc * 36 + d)%Z eqn:E3;
      [apply Z.ltb_lt in E3; lia|].
    apply IH; [exact Cr | exact Dr | lia |].
    change (timeKeyBase ^ 9)%Z with 101559956668416%Z. fold P. nia.
Qed.

(** ** Properties of the earlier revision *)

(** [getBase36TimeKey] fails only with [ErrInvalidTimeKey], and for an
    [int64] nanosecond count it fails exactly for instants at least a
    millisecond before the epoch: the reversed value then exceeds
    [maxTimestampValBase10 = 36^9 - 1] and needs ten digits. *)
Theorem v1_getBase36TimeKey_range (now : Z) :
  (- 2 ^ 63 <= now <= maxInt64)%Z ->
  (forall e, V1.getBase36TimeKey now = Err e -> e = ErrInvalidTimeKey) /\
  (is_err (V1.getBase36TimeKey now) = true <-> (Z.quot now 1000000 < 0)%Z).
Proof.
  intros Hn. destruct (v1_key_err_iff now) as [E L]. split; [exact E|]. rewrite L.
  pose proof (quot_ms_bounds now Hn) as Q.
  set (m := Z.quot now 1000000) in *.
  set (r := (V1.maxTimestampValBase10 - m)%Z).
  assert (Hr : (0 <= r < 9223372036854775808)%Z)
    by (unfold r, V1.maxTimestampValBase10; lia).
  assert (Hw : wrap64 r = r)
    by (apply wrap64_small; change (2 ^ 63)%Z with 9223372036854775808%Z; lia).
  assert (Hf : formatInt r = format_bits 64 r).
  { unfold formatInt. destruct (r <? 0)%Z eqn:Er; [apply Z.ltb_lt in Er; lia|reflexivity]. }
  assert (Hb : (9223372036854775808 < timeKeyBase ^ 64)%Z) by (vm_compute; reflexivity).
  pose proof (format_bits_len_iff r 9 ltac:(lia) ltac:(lia)) as F.
  change (timeKeyBase ^ Z.of_nat 9)%Z with 101559956668416%Z in F.
  fold r. rewrite Hw, Hf, toUpper_ascii, upper_ascii_length by apply format_bits_ascii.
  unfold timeKeyLength.
  destruct (Nat.ltb_spec 9 (length (format_bits 64 r))) as [K|K].
  - split; [intros _|reflexivity].
    destruct (Z.lt_ge_cases m 0) as [C|C]; [exact C|].
    assert (length (format_bits 64 r) <= 9)%nat
      by (apply F; unfold r, V1.maxTimestampValBase10; lia). lia.
  - split; [discriminate|]. apply F in K. unfold r, V1.maxTimestampValBase10 in K. lia.
Qed.

(** The errors of the earlier [Generate], in the order it checks them: the
    time key, the vendor length, the app length (its own error), the type
    length.  The indicator, location and secret never make it fail. *)
Theorem v1_Generate_errors now draw ind vendor app nType priLocation secret :
  (forall e, V1.Generate now draw ind vendor app nType priLocation secret = V1.GenErr e <->
    V1.getBase36TimeKey now = Err e \/
    (is_err (V1.getBase36TimeKey now) = false /\ length vendor <> vendorLength /\
     e = ErrVendorLength) \/
    (is_err (V1.getBase36TimeKey now) = false /\ length vendor = vendorLength /\
     length app = typeElementLength /\ length nType <> typeElementLength /\
     e = ErrTypeLength)) /\
  (V1.Generate now draw ind vendor app nType priLocation secret = V1.GenErrAppLength <->
    is_err (V1.getBase36TimeKey now) = false /\ length vendor = vendorLength /\
    length app <> typeElementLength).
Proof.
  unfold V1.Generate.
  destruct (V1.getBase36TimeKey now) as [key|e'] eqn:K; cbn [is_err].
  - destruct (Nat.eqb_spec (length vendor) vendorLength) as [Hv|Hv]; cbn [negb].
    + destruct (Nat.eqb_spec (length app) typeElementLength) as [Ha|Ha]; cbn [negb].
      * destruct (Nat.eqb_spec (length nType) typeElementLength) as [Ht|Ht]; cbn [negb].
        -- split.
           ++ intros e. split; [intros H; destruct (0 <? length secret)%nat; discriminate H|].
              intros [H|[(_ & H & _)|(_ & _ & _ & H & _)]]; congruence.
           ++ split; [intros H; destruct (0 <? length secret)%nat; discriminate H|].
              intros (_ & _ & H). contradiction.
        -- split.
           ++ intros e. split; [intros H; injection H as <-; right; right; auto|].
              intros [H|[(_ & H & _)|(_ & _ & _ & _ & H)]]; congruence.
           ++ split; [discriminate|]. intros (_ & _ & H). contradiction.
      * split.
        -- intros e. split; [discriminate|].
           intros [H|[(_ & H & _)|(_ & _ & H & _)]]; congruence.
        -- split; [auto|]. reflexivity.
    + split.
      * intros e. split; [intros H; injection H as <-; right; left; auto|].
        intros [H|[(_ & _ & H)|(_ & H & _)]]; congruence.
      * split; [discriminate|]. intros (_ & H & _). contradiction.
  - split.
    + intros e. split; [intros H; injection H as <-; auto|].
      intros [H|[(H & _)|(H & _)]]; congruence.
    + split; [discriminate|]. intros (H & _). discriminate.
Qed.

(** Round trip of the earlier revision: for a vendor, app, type and
    location made of ASCII letters, digits and [=], [Describe] of a generated
    identifier gives back the indicator, the vendor, app and type
    upper-cased, the location upper-cased (or ["MISCR"] when it is not 5
    bytes long), and the instant truncated to the millisecond. *)
Theorem v1_roundtrip now draw ind vendor app nType priLocation secret :
  (0 <= now <= maxInt64)%Z -> (forall j, draw j < 36)%nat ->
  defined_indicator ind = true ->
  length vendor = vendorLength -> fieldable vendor = true ->
  length app = typeElementLength -> fieldable app = true ->
  length nType = typeElementLength -> fieldable nType = true ->
  (length priLocation = priLocationLength -> fieldable priLocation = true) ->
  exists id d,
    V1.Generate now draw ind vendor app nType priLocation secret = V1.GenOk id /\
    V1.Describe id = Ok d /\
    V1.Indicator d = ind /\ V1.VendorKey d = toUpper vendor /\ V1.App d = toUpper app /\
    V1.Type' d = toUpper nType /\ V1.Location d = toUpper (norm_location priLocation) /\
    V1.Time d = (now / 1000000 * 1000000)%Z.
Proof.
  intros Hn Hd Hi Hvl Hvf Hal Haf Htl Htf Hl.
  pose proof (v1_Generate_shape now draw ind vendor app nType priLocation secret
                Hn Hd Hi Hvl Hvf Hal Haf Htl Htf Hl) as G. cbv zeta in G.
  destruct G as (key & s6 & x & Hk & Hkl & Hkd & Hkv & Ha & Hc & H6 & H6c & Hx & Hg).
  set (d := s6 ++ (if (0 <? length secret)%nat
                   then md5_check_char secret
                          (mk_pre (ind ++ toUpper vendor ++ toUpper app ++ toUpper nType) key
                             (toUpper (norm_location priLocation)) ++ s6)
                   else String x EmptyString)) in Hg.
  assert (Hdd : seg_ok 7 d) by (now apply suffix_ok).
  assert (Hkey : seg_ok 9 key) by (split; [exact Hkl | now apply digits_all_class]).
  destruct (defined_indicator_props ind Hi) as (_ & Hi1 & _ & _).
  unfold maxInt64 in Hn.
  assert (Hm : (0 <= now / 1000000 <= 9223372036854)%Z).
  { split; [apply Z.div_pos; lia|].
    assert (now / 1000000 < 9223372036855)%Z by (apply Z.div_lt_upper_bound; lia). lia. }
  pose proof (Z_trunc_ms now) as Tr.
  eexists. eexists. split; [exact Hg|].
  rewrite v1_Describe_mk_id, v1_getTimeFromID_mk_id by assumption.
  rewrite parseInt_digits; [| exact Hkd | intros E; rewrite E in Hkl; discriminate
                           | rewrite Hkv; unfold V1.maxTimestampValBase10, maxInt64; lia].
  cbn [bind]. rewrite Hkv.
  replace (V1.maxTimestampValBase10 - (V1.maxTimestampValBase10 - now / 1000000))%Z
    with (now / 1000000)%Z by lia.
  rewrite (wrap64_small (now / 1000000))
    by (change (2 ^ 63)%Z with 9223372036854775808%Z; lia).
  rewrite (wrap64_small (now / 1000000 * 1000000))
    by (change (2 ^ 63)%Z with 9223372036854775808%Z; lia).
  split; [reflexivity|]. cbn [V1.Indicator V1.VendorKey V1.App V1.Type' V1.Location V1.Time].
  destruct (fields_8 ind (toUpper vendor) (toUpper app) (toUpper nType)) as (F1 & F2 & F3 & F4);
    try (rewrite fieldable_length by assumption); try assumption.
  rewrite F1, F2, F3, F4. repeat split.
Qed.

(** Keys of the earlier revision sort in reverse chronological order: for
    instants [t1 <= t2] from the epoch on, the key of [t2] is at most the
    key of [t1] in byte order, and strictly smaller when [t2] falls in a
    later millisecond. *)
Theorem v1_key_order (t1 t2 : Z) (k1 k2 : string) :
  (0 <= t1)%Z -> (t1 <= t2)%Z -> (t2 <= maxInt64)%Z ->
  V1.getBase36TimeKey t1 = Ok k1 -> V1.getBase36TimeKey t2 = Ok k2 ->
  String.leb k2 k1 = true /\ (t1 / 1000000 < t2 / 1000000 -> String.ltb k2 k1 = true)%Z.
Proof.
  intros H0 H12 H2 K1 K2.
  destruct (v1_key_ok t1 ltac:(lia)) as (key1 & E1 & L1 & D1 & V1').
  destruct (v1_key_ok t2 ltac:(lia)) as (key2 & E2 & L2 & D2 & V2').
  rewrite K1 in E1. injection E1 as <-. rewrite K2 in E2. injection E2 as <-.
  pose proof (Z.div_le_mono t1 t2 1000000 ltac:(lia) H12) as M.
  unfold String.leb, String.ltb. rewrite compare_digits by (assumption || congruence).
  rewrite V1', V2'.
  destruct (Z.compare_spec (V1.maxTimestampValBase10 - t2 / 1000000)
                           (V1.maxTimestampValBase10 - t1 / 1000000)) as [C|C|C];
    split; try reflexivity; try lia.
Qed.

(** The two revisions accept disjoint sets of identifiers: a string the
    earlier [Verify] accepts (with any secret) has [-] at position 8, where
    the current [Verify] wants a class byte, so it rejects it (with any
    secret); and the other way round. *)
Theorem revisions_disjoint (s secret secret' : string) :
  fst (V1.Verify s secret) = true -> fst (Verify s secret') = false.
Proof.
  intros H1. destruct (fst (Verify s secret')) eqn:H2; [exfalso|reflexivity].
  destruct (v1_accept_inv s secret H1) as (a & b & c & d & E & [La _] & _).
  destruct (accept_inv s secret' H2) as (a' & b' & c' & d' & E' & [La' Ca'] & _).
  destruct (all_class_get a' 8 Ca' ltac:(lia)) as (y & Gy & Cy).
  assert (G1 : get 8 s = Some delimitChar).
  { rewrite E. unfold mk_id. rewrite <- La, <- (Nat.add_0_r (length a)).
    rewrite get_app_ge. reflexivity. }
  assert (G2 : get 8 s = Some y).
  { rewrite E'. unfold mk_id. rewrite get_app_lt by lia. exact Gy. }
  rewrite G1 in G2. injection G2 as <-. discriminate Cy.
Qed.

(** [getTimeFromID] of the earlier revision parses the time component as it
    stands: a [=] anywhere in it is a syntax error; otherwise the result is
    [maxTimestampValBase10] minus its base-36 value, in milliseconds,
    multiplied into nanoseconds in [int64]. *)
Theorem v1_getTimeFromID_value (a b c d : string) :
  seg_ok 8 a -> seg_ok 9 b -> seg_ok 5 c -> seg_ok 7 d ->
  V1.getTimeFromID (mk_id a b c d) =
  if digits_ok b
  then Ok (wrap64 ((V1.maxTimestampValBase10 - val_acc b 0) * 1000000))
  else Err ErrSyntax.
Proof.
  intros Ha Hb Hc Hd. rewrite v1_getTimeFromID_mk_id by assumption.
  destruct Hb as [Lb Cb].
  destruct (digits_ok b) eqn:D.
  - pose proof (val_acc_bound b 0 D (Z.le_refl 0)) as B.
    pose proof (val_acc_mono b 0 D (Z.le_refl 0)) as M.
    rewrite Lb in B. change (timeKeyBase ^ Z.of_nat 9)%Z with 101559956668416%Z in B.
    rewrite parseInt_digits; [| exact D | intros E; rewrite E in Lb; discriminate
                             | unfold maxInt64; lia].
    cbn [bind]. rewrite (wrap64_small (V1.maxTimestampValBase10 - val_acc b 0))
      by (unfold V1.maxTimestampValBase10; change (2 ^ 63)%Z with 9223372036854775808%Z; lia).
    reflexivity.
  - destruct b as [|x r]; [discriminate Lb|].
    assert (Cx : in_class x = true) by (simpl in Cb; now destruct (in_class x)).
    destruct (class_not_sign x Cx) as [P N].
    unfold parseInt. rewrite P, N. unfold parseUint.
    rewrite parse_loop_pad; [reflexivity | exact Cb | exact D | lia |].
    rewrite Lb. lia.
Qed.

End Proofs.

(** * Witnesses and counterexamples

    At concrete inputs, with the table [sample_tables]: the inputs are
    ASCII, or use only U+0131 among the runes above U+007F. *)

#[local] Existing Instance sample_tables.



Lemma C2_witness :
  exists id, Generate 1760000000000000000 (fun _ => 0%nat) IndicatorEntity "FOR" "TE" "ST" ""
               "secr3t" = Ok id /\ Verify id "secr3t" = (true, None).
Proof.
  apply C2_checksum_roundtrip; first [reflexivity | unfold maxInt64; lia | intros; simpl; lia | intros; reflexivity].
Defined.

(** C2 counterexample: vendor ["F_R"] has length 3, [Generate] succeeds with
    the secret, and [Verify] with the same secret rejects the result at the
    pattern check. *)
Lemma C2_counterexample :
  Generate 1760000000000000000 (fun i => i) IndicatorEntity "F_R" "TE" "ST" "" "secr3t"
    = Ok "MGJ6K3CW=-EF_RTEST-MISCR-012345B" /\
  Verify "MGJ6K3CW=-EF_RTEST-MISCR-012345B" "secr3t" = (false, Some ErrInvalidFormat).
Proof. split; vm_compute; reflexivity. Qed.

Lemma C4_witness :
  Generate 1760000000000000000 (fun _ => 0%nat) "" "FOR" "TE" "" "" "" =
  Generate 1760000000000000000 (fun _ => 0%nat) IndicatorEntity "FOR" "TE" "" "" "" /\
  Generate 1760000000000000000 (fun _ => 0%nat) "c" "FOR" "TE" "" "" "" =
  Generate 1760000000000000000 (fun _ => 0%nat) (toUpper "c") "FOR" "TE" "" "" "" /\
  Generate 1760000000000000000 (fun _ => 0%nat) "c" "FOR" "TE" "" "" "" =
  Generate 1760000000000000000 (fun _ => 0%nat) "c" "FOR" "TE" "TE" "" "" /\
  Generate 1760000000000000000 (fun _ => 0%nat) "c" "FOR" "TE" "" "" "" =
  Generate 1760000000000000000 (fun _ => 0%nat) "c" "FOR" "TE" "" unknownLocationValue "" /\
  exists id, Generate 1760000000000000000 (fun _ => 0%nat) "" "FOR" "TE" "" "" "" = Ok id.
Proof.
  destruct (C4_normalization 1760000000000000000 (fun _ => 0%nat) "FOR" "TE" "")
    as (N1 & N2 & N3 & N4 & N5).
  split; [apply N1; left; reflexivity|].
  split; [apply N2; reflexivity|].
  split; [apply N3; unfold typeElementLength; simpl; lia|].
  split; [apply N4; unfold priLocationLength; simpl; lia|].
  apply N5; [unfold maxInt64; lia | reflexivity | reflexivity].
Defined.

(** C4 counterexample: ["l"] is not one of the ten defined indicators, yet
    [Generate] does not replace it by [IndicatorEntity]: it embeds ["L"]. *)
Lemma C4_counterexample :
  defined_indicator "l" = false /\
  Generate 1760000000000000000 (fun i => i) "l" "FOR" "TE" "ST" "" ""
    = Ok "MGJ6K3CW=-LFORTEST-MISCR-0123456".
Proof. split; vm_compute; reflexivity. Qed.

Lemma C6_witness :
  exists id, Generate 1760000000000000000 (fun _ => 0%nat) IndicatorEntity "FOR" "TE" "ST" ""
               "secr3t" = Ok id /\
    Verify id "wrong" =
      if String.eqb (md5_check_char "wrong" (substring 0 31 id))
                    (md5_check_char "secr3t" (substring 0 31 id))
      then (true, None) else (false, Some ErrChecksum).
Proof.
  apply C6_wrong_secret; first [reflexivity | unfold maxInt64; lia | intros; simpl; lia | intros; reflexivity].
Defined.

(** C6 counterexample: the identifier generated with ["secr3t"] is also
    accepted with the different secret ["s6"]. *)
Lemma C6_counterexample :
  Generate 1760000000000000000 (fun i => i) IndicatorEntity "FOR" "TE" "ST" "" "secr3t"
    = Ok "MGJ6K3CW=-EFORTEST-MISCR-012345D" /\
  Verify "MGJ6K3CW=-EFORTEST-MISCR-012345D" "s6" = (true, None).
Proof. split; vm_compute; reflexivity. Qed.

Lemma C7_witness :
  exists id1 id2 m1 m2,
    Generate 1760000000000000000 (fun _ => 0%nat) IndicatorEntity "FOR" "TE" "ST" "" ""
      = Ok id1 /\
    Generate 1760000000001000000 (fun _ => 0%nat) IndicatorEntity "FOR" "TE" "ST" "" ""
      = Ok id2 /\
    GetTimeFromID id1 = Ok m1 /\ GetTimeFromID id2 = Ok m2 /\
    m1 = (1760000000000000000 / 1000000 * 1000000)%Z /\
    m2 = (1760000000001000000 / 1000000 * 1000000)%Z /\
    (m1 <= m2)%Z /\ (1760000000000000000 / 1000000 < 1760000000001000000 / 1000000 -> m1 < m2)%Z.
Proof.
  apply C7_time_monotone; first [reflexivity | unfold maxInt64; lia | intros; simpl; lia | intros; reflexivity].
Defined.

(** C7 counterexample: two calls one nanosecond apart, in the same
    millisecond, return the same identifier, so the decoded times are
    equal, not strictly increasing. *)
Lemma C7_counterexample :
  Generate 1760000000000000000 (fun i => i) IndicatorEntity "FOR" "TE" "ST" "" ""
    = Ok "MGJ6K3CW=-EFORTEST-MISCR-0123456" /\
  Generate 1760000000000000001 (fun i => i) IndicatorEntity "FOR" "TE" "ST" "" ""
    = Ok "MGJ6K3CW=-EFORTEST-MISCR-0123456" /\
  GetTimeFromID "MGJ6K3CW=-EFORTEST-MISCR-0123456" = Ok 1760000000000000000%Z.
Proof. repeat split; vm_compute; reflexivity. Qed.

Lemma C8_witness :
  exists e, Verify "EFORTKPS-55QRHT4ET-USC1B-XRAQPPD" "" = (false, Some e) /\
            (e = ErrInvalidLength \/ e = ErrInvalidFormat \/ e = ErrElementCount).
Proof. apply C8_reject_malformed. vm_compute. reflexivity. Defined.

Lemma C10_witness :
  Verify (mk_id "=========" "EABCCDEF" "MISCR" "AAAAAAA") "" = (true, None) /\
  GetTimeFromID (mk_id "=========" "EABCCDEF" "MISCR" "AAAAAAA") = Err ErrSyntax /\
  is_err (Describe (mk_id "=========" "EABCCDEF" "MISCR" "AAAAAAA")) = true.
Proof. apply C10_all_padding_time; split; reflexivity. Defined.

Lemma getBase32TimeKey_range_witness :
  (- 2 ^ 63 <= -1000000 <= maxInt64)%Z /\
  (forall e, getBase32TimeKey (-1000000) = Err e -> e = ErrInvalidTimeKey) /\
  (is_err (getBase32TimeKey (-1000000)) = true <->
   (Z.quot (-1000000) 1000000 <= - timeKeyBase ^ 8 \/
    timeKeyBase ^ 9 <= Z.quot (-1000000) 1000000)%Z).
Proof.
  split; [unfold maxInt64; lia|].
  apply getBase32TimeKey_range. unfold maxInt64; lia.
Defined.

Lemma Generate_length_witness :
  (length IndicatorLog <= 1)%nat /\ (forall j, (fun i => i mod 36) j < 36)%nat /\
  is_ascii "FOR" = true /\ is_ascii "TE" = true /\
  (length "" = typeElementLength -> is_ascii "" = true) /\
  (length "" = priLocationLength -> is_ascii "" = true) /\
  Generate (-1760000000000000000) (fun i => i mod 36) IndicatorLog "FOR" "TE" "" "" "k"
    = Ok "-MGJ6K3CW-LFORTETE-MISCR-0123453" /\
  length "-MGJ6K3CW-LFORTETE-MISCR-0123453" = idLength.
Proof.
  assert (D : forall j, (j mod 36 < 36)%nat) by (intros j; apply Nat.mod_upper_bound; lia).
  assert (G : Generate (-1760000000000000000) (fun i => i mod 36) IndicatorLog "FOR" "TE" "" "" "k"
                = Ok "-MGJ6K3CW-LFORTETE-MISCR-0123453") by (vm_compute; reflexivity).
  assert (A : is_ascii "" = true) by reflexivity.
  split; [exact (le_n 1)|]. split; [exact D|]. split; [reflexivity|]. split; [reflexivity|].
  split; [intros _; exact A|]. split; [intros _; exact A|]. split; [exact G|].
  exact (Generate_length (-1760000000000000000) (fun i => i mod 36) IndicatorLog "FOR" "TE"
           "" "" "k" _ (le_n 1) D eq_refl eq_refl (fun _ => A) (fun _ => A) G).
Defined.

Lemma Generate_upper_witness :
  is_ascii "for" = true /\ is_ascii "te" = true /\
  (length "st" = typeElementLength -> is_ascii "st" = true) /\
  (length "nyc01" = priLocationLength -> is_ascii "nyc01" = true) /\
  Generate 1760000000000000000 (fun i => i) "l" "for" "te" "st" "nyc01" "k"
    = Ok "MGJ6K3CW=-LFORTEST-NYC01-0123457" /\
  toUpper "MGJ6K3CW=-LFORTEST-NYC01-0123457" = "MGJ6K3CW=-LFORTEST-NYC01-0123457".
Proof.
  assert (G : Generate 1760000000000000000 (fun i => i) "l" "for" "te" "st" "nyc01" "k"
                = Ok "MGJ6K3CW=-LFORTEST-NYC01-0123457") by (vm_compute; reflexivity).
  assert (S : is_ascii "st" = true) by reflexivity.
  assert (L : is_ascii "nyc01" = true) by reflexivity.
  split; [reflexivity|]. split; [reflexivity|].
  split; [intros _; exact S|]. split; [intros _; exact L|]. split; [exact G|].
  exact (Generate_upper 1760000000000000000 (fun i => i) "l" "for" "te" "st" "nyc01" "k" _
           eq_refl eq_refl (fun _ => S) (fun _ => L) G).
Defined.

Lemma Generate_secret_last_witness :
  Generate 1760000000000000000 (fun i => i) IndicatorEntity "FOR" "TE" "ST" "" ""
    = Ok "MGJ6K3CW=-EFORTEST-MISCR-0123456" /\
  "k" <> EmptyString /\
  Generate 1760000000000000000 (fun i => i) IndicatorEntity "FOR" "TE" "ST" "" "k" =
  Ok (substring 0 (length "MGJ6K3CW=-EFORTEST-MISCR-0123456" - 1)
        "MGJ6K3CW=-EFORTEST-MISCR-0123456" ++
      md5_check_char "k" (substring 0 (length "MGJ6K3CW=-EFORTEST-MISCR-0123456" - 1)
        "MGJ6K3CW=-EFORTEST-MISCR-0123456")).
Proof.
  assert (G : Generate 1760000000000000000 (fun i => i) IndicatorEntity "FOR" "TE" "ST" "" ""
                = Ok "MGJ6K3CW=-EFORTEST-MISCR-0123456") by (vm_compute; reflexivity).
  assert (S : "k" <> EmptyString) by discriminate.
  split; [exact G|]. split; [exact S|]. exact (Generate_secret_last _ _ _ _ _ _ _ _ _ G S).
Defined.

Lemma Generate_negative_rejected_witness :
  (-1760000000000000000 <= -1000000)%Z /\
  Generate (-1760000000000000000) (fun i => i) IndicatorEntity "FOR" "TE" "ST" "" ""
    = Ok "-MGJ6K3CW-EFORTEST-MISCR-0123456" /\
  fst (Verify "-MGJ6K3CW-EFORTEST-MISCR-0123456" "") = false.
Proof.
  assert (G : Generate (-1760000000000000000) (fun i => i) IndicatorEntity "FOR" "TE" "ST" "" ""
                = Ok "-MGJ6K3CW-EFORTEST-MISCR-0123456") by (vm_compute; reflexivity).
  assert (N : (-1760000000000000000 <= -1000000)%Z) by lia.
  split; [exact N|]. split; [exact G|].
  exact (Generate_negative_rejected _ _ _ _ _ _ _ _ _ _ N G).
Defined.

Lemma Verify_canonical_checksum_witness :
  canonical "MGJ6K3CW=-EFORTEST-MISCR-012345F" = true /\ "k" <> EmptyString /\
  Verify "MGJ6K3CW=-EFORTEST-MISCR-012345F" "k" =
  if String.eqb (md5_check_char "k" (substring 0 31 "MGJ6K3CW=-EFORTEST-MISCR-012345F"))
                (substring 31 1 "MGJ6K3CW=-EFORTEST-MISCR-012345F")
  then (true, None) else (false, Some ErrChecksum).
Proof.
  assert (C : canonical "MGJ6K3CW=-EFORTEST-MISCR-012345F" = true) by reflexivity.
  assert (S : "k" <> EmptyString) by discriminate.
  split; [exact C|]. split; [exact S|]. exact (Verify_canonical_checksum _ _ C S).
Defined.

Lemma Verify_non_hex_last_witness :
  "k" <> EmptyString /\ get 31 "MGJ6K3CW=-EFORTEST-MISCR-012345Z" = Some "Z"%char /\
  hex_upper "Z" = false /\ fst (Verify "MGJ6K3CW=-EFORTEST-MISCR-012345Z" "k") = false.
Proof.
  assert (S : "k" <> EmptyString) by discriminate.
  assert (G : get 31 "MGJ6K3CW=-EFORTEST-MISCR-012345Z" = Some "Z"%char) by reflexivity.
  assert (H : hex_upper "Z" = false) by reflexivity.
  split; [exact S|]. split; [exact G|]. split; [exact H|].
  exact (Verify_non_hex_last _ _ _ S G H).
Defined.

Lemma Verify_result_shape_witness :
  (Verify "MGJ6K3CW=-EFORTEST-MISCR-0123456" "k" = (true, None) \/
   exists e, Verify "MGJ6K3CW=-EFORTEST-MISCR-0123456" "k" = (false, Some e)) /\
  (Verify "MGJ6K3CW=-EFORTEST-MISCR-0123456" "k" = (false, Some ErrChecksum) ->
   Verify "MGJ6K3CW=-EFORTEST-MISCR-0123456" "" = (true, None)).
Proof. exact (Verify_result_shape "MGJ6K3CW=-EFORTEST-MISCR-0123456" "k"). Defined.

Lemma GetTimeFromID_value_witness :
  seg_ok 9 "1=2=3=4=5" /\ seg_ok 8 "EFORTEST" /\ seg_ok 5 "MISCR" /\ seg_ok 7 "0123456" /\
  GetTimeFromID (mk_id "1=2=3=4=5" "EFORTEST" "MISCR" "0123456") =
  match remove_all paddingChar "1=2=3=4=5" with
  | EmptyString => Err ErrSyntax
  | k => Ok (wrap64 (val_acc k 0 * 1000000))
  end.
Proof.
  assert (A : seg_ok 9 "1=2=3=4=5") by (split; reflexivity).
  assert (B : seg_ok 8 "EFORTEST") by (split; reflexivity).
  assert (C : seg_ok 5 "MISCR") by (split; reflexivity).
  assert (D : seg_ok 7 "0123456") by (split; reflexivity).
  split; [exact A|]. split; [exact B|]. split; [exact C|]. split; [exact D|].
  exact (GetTimeFromID_value _ _ _ _ A B C D).
Defined.

Lemma GetTimeFromID_errors_witness :
  GetTimeFromID "=========-EFORTEST-MISCR-0123456" = Err ErrSyntax /\
  (ErrSyntax = ErrInvalidLength \/ ErrSyntax = ErrInvalidFormat \/
   ErrSyntax = ErrElementCount \/ ErrSyntax = ErrSyntax).
Proof.
  assert (G : GetTimeFromID "=========-EFORTEST-MISCR-0123456" = Err ErrSyntax)
    by (vm_compute; reflexivity).
  split; [exact G | exact (GetTimeFromID_errors _ _ G)].
Defined.

Lemma getRandString_props_witness :
  (forall j, (fun i => (i * 7) mod 36) j < 36)%nat /\
  length (getRandString (fun i => (i * 7) mod 36) 7) = 7%nat /\
  (forall i, (i < 7)%nat -> get i (getRandString (fun i => (i * 7) mod 36) 7) =
                           get ((fun i => (i * 7) mod 36) i) letterBytes) /\
  digits_ok (getRandString (fun i => (i * 7) mod 36) 7) = true.
Proof.
  assert (D : forall j, ((fun i => (i * 7) mod 36) j < 36)%nat)
    by (intros j; apply Nat.mod_upper_bound; lia).
  split; [exact D | exact (getRandString_props _ 7 D)].
Defined.

Lemma v1_getBase36TimeKey_range_witness :
  (- 2 ^ 63 <= -1000000 <= maxInt64)%Z /\
  (forall e, V1.getBase36TimeKey (-1000000) = Err e -> e = ErrInvalidTimeKey) /\
  (is_err (V1.getBase36TimeKey (-1000000)) = true <-> (Z.quot (-1000000) 1000000 < 0)%Z).
Proof.
  assert (H : (- 2 ^ 63 <= -1000000 <= maxInt64)%Z) by (unfold maxInt64; lia).
  split; [exact H | exact (v1_getBase36TimeKey_range _ H)].
Defined.

Lemma v1_roundtrip_witness :
  exists id d,
    V1.Generate 1760000000000000000 (fun i => i mod 36) IndicatorLog "for" "ap" "te" "nyc01" "k"
      = V1.GenOk id /\
    V1.Describe id = Ok d /\
    V1.Indicator d = IndicatorLog /\ V1.VendorKey d = toUpper "for" /\
    V1.App d = toUpper "ap" /\ V1.Type' d = toUpper "te" /\
    V1.Location d = toUpper (norm_location "nyc01") /\
    V1.Time d = (1760000000000000000 / 1000000 * 1000000)%Z.
Proof.
  apply v1_roundtrip; first [reflexivity | unfold maxInt64; lia
                            | intros; apply Nat.mod_upper_bound; lia | intros; reflexivity].
Defined.

Lemma v1_key_order_witness :
  (0 <= 1760000000000000000)%Z /\ (1760000000000000000 <= 1760000000001000000)%Z /\
  (1760000000001000000 <= maxInt64)%Z /\
  V1.getBase36TimeKey 1760000000000000000 = Ok "ZDJGTFWN3" /\
  V1.getBase36TimeKey 1760000000001000000 = Ok "ZDJGTFWN2" /\
  String.leb "ZDJGTFWN2" "ZDJGTFWN3" = true /\
  (1760000000000000000 / 1000000 < 1760000000001000000 / 1000000 ->
   String.ltb "ZDJGTFWN2" "ZDJGTFWN3" = true)%Z.
Proof.
  assert (A : (0 <= 1760000000000000000)%Z) by lia.
  assert (B : (1760000000000000000 <= 1760000000001000000)%Z) by lia.
  assert (C : (1760000000001000000 <= maxInt64)%Z) by (unfold maxInt64; lia).
  assert (K1 : V1.getBase36TimeKey 1760000000000000000 = Ok "ZDJGTFWN3")
    by (vm_compute; reflexivity).
  assert (K2 : V1.getBase36TimeKey 1760000000001000000 = Ok "ZDJGTFWN2")
    by (vm_compute; reflexivity).
  do 5 (split; [assumption|]). exact (v1_key_order _ _ _ _ A B C K1 K2).
Defined.

Lemma revisions_disjoint_witness :
  fst (V1.Verify "LFORAPTE-ZDJGTFWN3-NYC01-0123451" "k") = true /\
  fst (Verify "LFORAPTE-ZDJGTFWN3-NYC01-0123451" "") = false.
Proof.
  assert (H : fst (V1.Verify "LFORAPTE-ZDJGTFWN3-NYC01-0123451" "k") = true)
    by (vm_compute; reflexivity).
  split; [exact H | exact (revisions_disjoint _ _ _ H)].
Defined.

Lemma v1_getTimeFromID_value_witness :
  seg_ok 8 "LFORAPTE" /\ seg_ok 9 "ZDJG=FWN3" /\ seg_ok 5 "NYC01" /\ seg_ok 7 "0123451" /\
  V1.getTimeFromID (mk_id "LFORAPTE" "ZDJG=FWN3" "NYC01" "0123451") =
  if digits_ok "ZDJG=FWN3"
  then Ok (wrap64 ((V1.maxTimestampValBase10 - val_acc "ZDJG=FWN3" 0) * 1000000))
  else Err ErrSyntax.
Proof.
  assert (A : seg_ok 8 "LFORAPTE") by (split; reflexivity).
  assert (B : seg_ok 9 "ZDJG=FWN3") by (split; reflexivity).
  assert (C : seg_ok 5 "NYC01") by (split; reflexivity).
  assert (D : seg_ok 7 "0123451") by (split; reflexivity).
  split; [exact A|]. split; [exact B|]. split; [exact C|]. split; [exact D|].
  exact (v1_getTimeFromID_value _ _ _ _ A B C D).
Defined.
